(** * InfernalForge: the admission-controlled asynchronous job gateway

    A shallow embedding of the two Flask processes of the repository:
    - [App]       : app.py, the public tier (session, rate limiter, proxy);
    - [AiService] : ai_service.py, the internal tier (job table, artifact
                    mapping, background worker threads);
    - [ImageUtils]: utils/image_utils.py, naming and saving of the artifact;
    - [Py], [PosixPath], [Fs], [Flask]: the fragments of the Python runtime,
      of the file system and of the web framework that the handlers rely on;
    - [System]    : the two processes together, driven by a list of events;
    - [Observe]   : the quantities that the properties are stated about.

    Conventions.  A Python [str] is a Rocq [string]; each character stands
    for the code point of the same number (the Latin-1 range).  Readings of
    [time.time()] are integers (a number of seconds); rounding of floating
    point clock values is not modelled.  The body of a request is a JSON
    object.  A raised exception is the [Raise] case of [result].  A handler
    runs from its start to its answer before the next event; a worker
    thread runs as one later event.  Inputs that the environment chooses (clock readings,
    fresh UUIDs, the outcome of a network call, what the image pipeline
    returns) are explicit arguments. *)

From Stdlib Require Import ZArith String Ascii List Lia Bool SpecFloat.
From stdpp Require Import gmap strings list fin_maps.

Set Warnings "-register-all".
Open Scope string_scope.
Open Scope Z_scope.

(* ===================================================================== *)
(** * Part I: the model *)
(* ===================================================================== *)

(** ** Python runtime fragments *)
Module Py.

(** The exception classes that the handlers distinguish.  [Timeout] is the
    subclass of [requests.exceptions.RequestException] that has a handler of
    its own; every other requests failure is [RequestException]. *)
Inductive exn :=
| ValueError (msg : string)
| TypeError (msg : string)
| AttributeError (msg : string)
| OverflowError (msg : string)
| KeyError (msg : string)
| Timeout (msg : string)
| RequestException (msg : string)
| Exception (msg : string).

(** [str(e)] *)
Definition str_exn (e : exn) : string :=
  match e with
  | ValueError m | TypeError m | AttributeError m | OverflowError m
  | KeyError m | Timeout m | RequestException m | Exception m => m
  end.

Inductive result (A : Type) :=
| Ret (a : A)
| Raise (e : exn).
Arguments Ret {A} a.
Arguments Raise {A} e.

#[export] Instance result_ret : MRet result := fun A a => Ret a.
#[export] Instance result_bind : MBind result := fun A B f m =>
  match m with
  | Ret a => f a
  | Raise e => Raise e
  end.

(** Values that [json] parsing produces. *)
Inductive pyval :=
| PyNone
| PyBool (b : bool)
| PyInt (z : Z)
| PyFloat (f : spec_float)
| PyStr (s : string)
| PyList (l : list pyval)
| PyDict (d : gmap string pyval).

Abbreviation pydict := (gmap string pyval).

(** [not v] is [negb (truthy v)] *)
Definition truthy (v : pyval) : bool :=
  match v with
  | PyNone => false
  | PyBool b => b
  | PyInt z => negb (z =? 0)
  | PyFloat (S754_zero _) => false
  | PyFloat _ => true
  | PyStr s => negb (String.eqb s "")
  | PyList l => negb (Nat.eqb (length l) 0)
  | PyDict d => negb (Nat.eqb (size d) 0)
  end.

(** [d.get(k, dflt)] *)
Definition dict_get (d : pydict) (k : string) (dflt : pyval) : pyval :=
  default dflt (d !! k).

(** [d[k]] *)
Definition dict_item (d : pydict) (k : string) : result pyval :=
  match d !! k with
  | Some v => Ret v
  | None => Raise (KeyError k)
  end.

(** [k in d] *)
Definition dict_contains (d : pydict) (k : string) : bool :=
  bool_decide (is_Some (d !! k)).

Definition code (c : ascii) : Z := Z.of_N (N_of_ascii c).

Definition in_range (lo hi : Z) (c : ascii) : bool :=
  (lo <=? code c) && (code c <=? hi).

(** [str.isspace] on one character, which is also the class [\s] of [re]
    on a [str] pattern. *)
Definition is_space (c : ascii) : bool :=
  in_range 9 13 c || in_range 28 32 c || (code c =? 133) || (code c =? 160).

Fixpoint lstrip (s : string) : string :=
  match s with
  | EmptyString => EmptyString
  | String c s' => if is_space c then lstrip s' else s
  end.

Fixpoint rstrip (s : string) : string :=
  match s with
  | EmptyString => EmptyString
  | String c s' =>
      let r := rstrip s' in
      if is_space c && String.eqb r "" then EmptyString else String c r
  end.

(** [s.strip()] *)
Definition strip (s : string) : string := rstrip (lstrip s).

(** [v.strip()] for a value that need not be a string *)
Definition strip_val (v : pyval) : result string :=
  match v with
  | PyStr s => Ret (strip s)
  | _ => Raise (AttributeError "object has no attribute 'strip'")
  end.

Definition digit_of (c : ascii) : option Z :=
  if in_range 48 57 c then Some (code c - 48) else None.

(** The digits of a decimal literal; single underscores may separate
    digits. *)
Fixpoint digits_value (acc : Z) (after_digit : bool) (l : list ascii) : option Z :=
  match l with
  | [] => if after_digit then Some acc else None
  | c :: l' =>
      match digit_of c with
      | Some d => digits_value (10 * acc + d) true l'
      | None =>
          if (code c =? 95) && after_digit then digits_value acc false l'
          else None
      end
  end.

(** [int(s)] for a string *)
Definition int_of_str (s : string) : result Z :=
  let no_int := Raise (ValueError "invalid literal for int() with base 10") in
  match list_ascii_of_string (strip s) with
  | [] => no_int
  | c :: l =>
      if code c =? 45 then
        match digits_value 0 false l with Some z => Ret (- z) | None => no_int end
      else if code c =? 43 then
        match digits_value 0 false l with Some z => Ret z | None => no_int end
      else
        match digits_value 0 false (c :: l) with Some z => Ret z | None => no_int end
  end.

(** [int(f)] for a float: truncation towards zero *)
Definition int_of_float (f : spec_float) : result Z :=
  match f with
  | S754_zero _ => Ret 0
  | S754_infinity _ => Raise (OverflowError "cannot convert float infinity to integer")
  | S754_nan => Raise (ValueError "cannot convert float NaN to integer")
  | S754_finite sgn m e =>
      let mag := if 0 <=? e then Z.pos m * 2 ^ e else Z.pos m / 2 ^ (- e) in
      Ret (if sgn then - mag else mag)
  end.

(** [int(v)] *)
Definition int (v : pyval) : result Z :=
  match v with
  | PyInt z => Ret z
  | PyBool b => Ret (if b then 1 else 0)
  | PyFloat f => int_of_float f
  | PyStr s => int_of_str s
  | PyNone | PyList _ | PyDict _ =>
      Raise (TypeError "int() argument must be a string, a bytes-like object or a real number")
  end.

(** [s[:n]] *)
Fixpoint prefix (n : nat) (s : string) : string :=
  match n, s with
  | S n', String c s' => String c (prefix n' s')
  | _, _ => EmptyString
  end.

Fixpoint string_filter (p : ascii -> bool) (s : string) : string :=
  match s with
  | EmptyString => EmptyString
  | String c s' => if p c then String c (string_filter p s') else string_filter p s'
  end.

Fixpoint string_map (f : ascii -> ascii) (s : string) : string :=
  match s with
  | EmptyString => EmptyString
  | String c s' => String (f c) (string_map f s')
  end.

Fixpoint string_forall (p : ascii -> bool) (s : string) : bool :=
  match s with
  | EmptyString => true
  | String c s' => p c && string_forall p s'
  end.

Definition startswith (p s : string) : bool := String.prefix p s.

Fixpoint endswith_char (c : ascii) (s : string) : bool :=
  match s with
  | EmptyString => false
  | String d EmptyString => Ascii.eqb c d
  | String _ s' => endswith_char c s'
  end.

End Py.
Export Py.

(** ** posixpath *)
Module PosixPath.

(** [s.split(c)] *)
Fixpoint split_on (c : ascii) (s : string) : list string :=
  match s with
  | EmptyString => [EmptyString]
  | String d s' =>
      if Ascii.eqb d c then EmptyString :: split_on c s'
      else match split_on c s' with
           | [] => [String d EmptyString]
           | w :: ws => String d w :: ws
           end
  end.

(** ['/'.join(l)] *)
Fixpoint concat_sep (l : list string) : string :=
  match l with
  | [] => ""
  | [x] => x
  | x :: l' => x +:+ "/" +:+ concat_sep l'
  end.

Definition isabs (p : string) : bool := startswith "/" p.

(** [os.path.join(a, b)] *)
Definition join (a b : string) : string :=
  if startswith "/" b then b
  else if String.eqb a "" || endswith_char "/" a then a +:+ b
  else a +:+ "/" +:+ b.

(** One round of the loop of [normpath]; the stack holds the components
    kept so far, last one first. *)
Definition norm_push (absolute : bool) (stack : list string) (comp : string) : list string :=
  if String.eqb comp "" || String.eqb comp "." then stack
  else if negb (String.eqb comp "..") then comp :: stack
  else match stack with
       | [] => if absolute then [] else [comp]
       | top :: rest => if String.eqb top ".." then comp :: stack else rest
       end.

(** [os.path.normpath(path)] *)
Definition normpath (path : string) : string :=
  if String.eqb path "" then "." else
  let initial_slashes : string :=
    if negb (startswith "/" path) then ""
    else if startswith "//" path && negb (startswith "///" path) then "//"
    else "/" in
  let absolute := negb (String.eqb initial_slashes "") in
  let new_comps := rev (fold_left (norm_push absolute) (split_on "/" path) []) in
  let path' := initial_slashes +:+ concat_sep new_comps in
  if String.eqb path' "" then "." else path'.

(** [os.path.abspath(path)] in a process whose working directory is [cwd] *)
Definition abspath (cwd path : string) : string :=
  normpath (if isabs path then path else join cwd path).

Fixpoint commonprefix_len (a b : list string) : nat :=
  match a, b with
  | x :: a', y :: b' => if String.eqb x y then S (commonprefix_len a' b') else O
  | _, _ => O
  end.

Definition nonempty (s : string) : bool := negb (String.eqb s "").

(** [os.path.relpath(path, start)] *)
Definition relpath (cwd path start : string) : result string :=
  if String.eqb path "" then Raise (ValueError "no path specified") else
  let start_list := filter (fun x => Is_true (nonempty x)) (split_on "/" (abspath cwd start)) in
  let path_list := filter (fun x => Is_true (nonempty x)) (split_on "/" (abspath cwd path)) in
  let i := commonprefix_len start_list path_list in
  let rel_list := (replicate (length start_list - i)%nat ".." ++ drop i path_list)%list in
  match rel_list with
  | [] => Ret "."
  | p :: ps => Ret (fold_left join ps p)
  end.

End PosixPath.

(** ** The file system: regular files by absolute normalised path *)
Module Fs.

Definition image := string.
Abbreviation files := (gmap string image).

Definition locate (cwd path : string) : string := PosixPath.abspath cwd path.

Definition write (cwd path : string) (content : image) (fs : files) : files :=
  <[locate cwd path := content]> fs.

Definition read (cwd path : string) (fs : files) : option image :=
  fs !! locate cwd path.

(** [os.path.exists] and [os.path.isfile]; directories are not modelled. *)
Definition isfile (cwd path : string) (fs : files) : bool :=
  bool_decide (is_Some (read cwd path fs)).

(** A disk with directories: the regular files as above and the set of
    directories, both by absolute normalised path. *)
Record disk := Disk { d_files : files; d_dirs : gset string }.

(** [os.path.exists]; the empty path names nothing. *)
Definition exists_ (cwd path : string) (d : disk) : bool :=
  negb (String.eqb path "")
  && (bool_decide (is_Some (d_files d !! locate cwd path))
      || bool_decide (locate cwd path ∈ d_dirs d)).

(** The path of the entry [name] of the directory [dir]. *)
Definition child (dir name : string) : string :=
  if endswith_char "/" dir then dir +:+ name else dir +:+ "/" +:+ name.

Fixpoint strip_prefix (p s : string) : option string :=
  match p, s with
  | EmptyString, _ => Some s
  | String a p', String b s' => if Ascii.eqb a b then strip_prefix p' s' else None
  | String _ _, EmptyString => None
  end.

(** A name that a directory listing can hold: not empty, without a slash,
    and neither the directory itself nor its parent. *)
Definition is_name (name : string) : bool :=
  negb (String.eqb name "") && string_forall (fun c => negb (Ascii.eqb c "/")) name
  && negb (String.eqb name ".") && negb (String.eqb name "..").

(** The name under which the path [k] is listed in [dir], if it is. *)
Definition entry_name (dir k : string) : option string :=
  match strip_prefix (child dir "") k with
  | Some name => if is_name name then Some name else None
  | None => None
  end.

(** [os.listdir]; the order of the names is that of the model's tables. *)
Definition listdir (cwd path : string) (d : disk) : result (list string) :=
  let dir := locate cwd path in
  if String.eqb path "" then Raise (Exception "FileNotFoundError")
  else if bool_decide (dir ∈ d_dirs d) then
    Ret (omap (entry_name dir) ((map_to_list (d_files d)).*1 ++ elements (d_dirs d))%list)
  else if bool_decide (is_Some (d_files d !! dir)) then Raise (Exception "NotADirectoryError")
  else Raise (Exception "FileNotFoundError").

(** [os.remove] of a regular file *)
Definition remove (cwd path : string) (d : disk) : disk :=
  Disk (delete (locate cwd path) (d_files d)) (d_dirs d).

End Fs.

(** ** Flask and Werkzeug: responses, the [uuid] URL converter, [safe_join] *)
Module Flask.

Inductive body :=
| Json (d : pydict)
| FileContent (content : Fs.image)
| ErrorPage.

Record response := Response { status : Z; payload : body }.

(** [jsonify(d), code] *)
Definition jsonify (d : pydict) (code : Z) : response := Response code (Json d).

Definition is_hex_lower (c : ascii) : bool := in_range 48 57 c || in_range 97 102 c.
Definition is_hex (c : ascii) : bool := is_hex_lower c || in_range 65 70 c.

Definition hex_group (hex : ascii -> bool) (n : nat) (s : string) : bool :=
  Nat.eqb (String.length s) n && string_forall hex s.

(** The shape 8-4-4-4-12 of a UUID whose digits satisfy [hex]. *)
Definition uuid_shape (hex : ascii -> bool) (s : string) : bool :=
  match PosixPath.split_on "-" s with
  | [a; b; c; d; e] =>
      hex_group hex 8 a && hex_group hex 4 b && hex_group hex 4 c
      && hex_group hex 4 d && hex_group hex 12 e
  | _ => false
  end.

Definition lower_char (c : ascii) : ascii :=
  if in_range 65 90 c then ascii_of_N (N_of_ascii c + 32) else c.

(** The [<uuid:...>] converter of a route: [None] when the URL segment does
    not have the shape of a UUID (the route does not match, the framework
    answers 404), otherwise [str] of the parsed [uuid.UUID]. *)
Definition uuid_converter (segment : string) : option string :=
  if uuid_shape is_hex segment then Some (string_map lower_char segment) else None.

(** [werkzeug.security.safe_join(directory, filename)] *)
Definition safe_join (directory filename : string) : option string :=
  let directory := if String.eqb directory "" then "." else directory in
  let filename := if String.eqb filename "" then filename else PosixPath.normpath filename in
  if PosixPath.isabs filename || String.eqb filename ".." || startswith "../" filename
  then None
  else Some (PosixPath.join directory filename).

End Flask.
Export Flask.

(** ** utils/image_utils.py *)
Module ImageUtils.

Record datetime := Datetime {
  year : Z; month : Z; day : Z; hour : Z; minute : Z; second : Z
}.

Definition digit_char (d : Z) : ascii := ascii_of_N (Z.to_N (48 + d mod 10)).

Definition pad2 (n : Z) : string :=
  String (digit_char (n / 10)) (String (digit_char n) "").

Definition pad4 (n : Z) : string :=
  String (digit_char (n / 1000)) (String (digit_char (n / 100)) (pad2 n)).

(** [now.strftime("%Y%m%d-%H%M%S")] *)
Definition strftime (now : datetime) : string :=
  pad4 (year now) +:+ pad2 (month now) +:+ pad2 (day now) +:+ "-"
  +:+ pad2 (hour now) +:+ pad2 (minute now) +:+ pad2 (second now).

(** The class of the pattern of [re.sub]: one of the characters
    less-than, greater-than, colon, double quote, slash, backslash, bar,
    question mark, star, parentheses and braces. *)
Definition invalid_char (c : ascii) : bool :=
  bool_decide (code c ∈ [60; 62; 58; 34; 47; 92; 124; 63; 42; 40; 41; 123; 125]).

(** [re.sub(pattern, '', s)] *)
Definition re_sub_invalid (s : string) : string :=
  string_filter (fun c => negb (invalid_char c)) s.

(** [s.replace(' ', '_')] *)
Definition replace_spaces (s : string) : string :=
  string_map (fun c => if code c =? 32 then "_"%char else c) s.

(** What one background run of the worker meets: whether the pipeline can
    be obtained, what the pipeline call yields, the random seed drawn when
    the request has none, the two readings of [datetime.datetime.now()],
    and whether writing the file fails. *)
Record worker_env := WorkerEnv {
  w_pipeline : option exn;
  w_pipe : result Fs.image;
  w_randint : Z;
  w_now_save : datetime;
  w_now_path : datetime;
  w_disk : option exn
}.

Definition generate_image (w : worker_env) (prompt : pyval) (height width num_inference_steps seed : pyval)
  : result (Fs.image * pyval) :=
  let seed := match seed with PyNone => PyInt (w_randint w) | _ => seed end in
  image ← w_pipe w;
  Ret (image, seed).

Definition save_image (cwd : string) (w : worker_env) (image : Fs.image) (prompt : pyval)
    (output_path : string) (fs : Fs.files) : result Fs.files :=
  match prompt with
  | PyStr prompt =>
      let sanitized_prompt := re_sub_invalid (prefix 10 prompt) in
      let sanitized_prompt := replace_spaces sanitized_prompt in
      let filename := sanitized_prompt +:+ "-" +:+ strftime (w_now_save w) +:+ ".png" in
      let full_path := PosixPath.join output_path filename in
      match w_disk w with
      | Some e => Raise e
      | None => Ret (Fs.write cwd full_path image fs)
      end
  | _ => Raise (TypeError "object is not subscriptable")
  end.

Definition setup_output_directory (base_dir : string) : string := base_dir.

Definition process_image (cwd : string) (w : worker_env) (prompt height width num_inference_steps seed : pyval)
    (output_dir : string) (fs : Fs.files) : result (string * pyval * Fs.files) :=
  '(generated_image, seed) ← generate_image w prompt height width num_inference_steps seed;
  let output_path := setup_output_directory output_dir in
  fs' ← save_image cwd w generated_image prompt output_path fs;
  match prompt with
  | PyStr prompt =>
      let sanitized_prompt := re_sub_invalid (prefix 10 prompt) in
      let sanitized_prompt := replace_spaces sanitized_prompt in
      let filename := sanitized_prompt +:+ "-" +:+ strftime (w_now_path w) +:+ ".png" in
      let image_path := PosixPath.join output_path filename in
      Ret (image_path, seed, fs')
  | _ => Raise (TypeError "object is not subscriptable")
  end.

End ImageUtils.

(** ** cleanup_output.py *)
Module CleanupOutput.

(** [cleanup_output_folder]; what it logs is not modelled, and the disk
    lets every regular file be removed. *)
Definition cleanup_output_folder (cwd output_dir : string) (d : Fs.disk) : result Fs.disk :=
  if negb (Fs.exists_ cwd output_dir d) then Ret d else
  filenames ← Fs.listdir cwd output_dir d;
  Ret (fold_left
         (fun d filename =>
            let file_path := PosixPath.join output_dir filename in
            if Fs.isfile cwd file_path (Fs.d_files d) then Fs.remove cwd file_path d else d)
         filenames d).

End CleanupOutput.

(** ** utils/config.py: the settings read from the environment *)
Module Config.

Record settings := Settings {
  hf_access_token : string;
  model : string;
  ckpt_path : string;
  default_height : Z;
  default_width : Z;
  default_num_inference_steps : Z;
  default_seed : option Z
}.

(** [str.isdigit]: in the Latin-1 range the ten digits and the superscripts
    two, three and one. *)
Definition is_digit (c : ascii) : bool :=
  in_range 48 57 c || (code c =? 178) || (code c =? 179) || (code c =? 185).

Definition isdigit (s : string) : bool :=
  negb (String.eqb s "") && string_forall is_digit s.

(** [int(os.getenv(name, dflt))] *)
Definition int_setting (value : option string) (dflt : Z) : result Z :=
  match value with
  | Some s => int_of_str s
  | None => Ret dflt
  end.

(** [not value] for what [os.getenv] returns *)
Definition unset (value : option string) : bool :=
  match value with
  | Some s => String.eqb s ""
  | None => true
  end.

(** [', '.join(l)] *)
Fixpoint comma_join (l : list string) : string :=
  match l with
  | [] => ""
  | [x] => x
  | x :: l' => x +:+ ", " +:+ comma_join l'
  end.

(** The body of the module, run when it is imported; [environ] is the
    environment after [load_dotenv()].  The constants [torch_dtype] and
    [output_dir] do not depend on the environment and are left out. *)
Definition load (environ : gmap string string) : result settings :=
  let hf_access_token := environ !! "HF_ACCESS_TOKEN" in
  let model := environ !! "MODEL" in
  let ckpt_path := environ !! "CKPT_PATH" in
  default_height ← int_setting (environ !! "DEFAULT_HEIGHT") 128;
  default_width ← int_setting (environ !! "DEFAULT_WIDTH") 128;
  default_num_inference_steps ← int_setting (environ !! "DEFAULT_NUM_INFERENCE_STEPS") 5;
  let default_seed := environ !! "DEFAULT_SEED" in
  default_seed ← (if negb (unset default_seed) && isdigit (default "" default_seed)
                  then seed ← int_of_str (default "" default_seed); Ret (Some seed)
                  else Ret None);
  let required_vars :=
    [("HF_ACCESS_TOKEN", hf_access_token); ("MODEL", model); ("CKPT_PATH", ckpt_path)] in
  let missing_vars :=
    omap (fun kv : string * option string => if unset kv.2 then Some kv.1 else None)
         required_vars in
  match missing_vars with
  | _ :: _ =>
      Raise (ValueError ("Missing required environment variables: " +:+ comma_join missing_vars))
  | [] =>
      let ckpt := default "" ckpt_path in
      if negb (startswith "http" ckpt)
      then Raise (ValueError ("Invalid CKPT_PATH: " +:+ ckpt +:+ ". It must be a valid URL."))
      else Ret (Settings (default "" hf_access_token) (default "" model) ckpt
                  default_height default_width default_num_inference_steps default_seed)
  end.

End Config.

(** ** ai_service.py: the internal tier *)
Module AiService.

Definition MAX_PROMPT_LENGTH : Z := 200.
Definition MAX_DIMENSION : Z := 1024.
Definition MIN_DIMENSION : Z := 64.
Definition MAX_STEPS : Z := 100.
Definition MIN_STEPS : Z := 1.

Fixpoint drop_last (s : string) : string :=
  match s with
  | EmptyString => EmptyString
  | String c EmptyString => EmptyString
  | String c s' => String c (drop_last s')
  end.

(** A pattern [^...$] under [re.match]: the dollar also matches just before
    a newline that ends the string. *)
Definition re_anchored (shape : string -> bool) (s : string) : bool :=
  shape s || (endswith_char (ascii_of_N 10) s && shape (drop_last s)).

Definition allowed_char (c : ascii) : bool :=
  in_range 97 122 c || in_range 65 90 c || in_range 48 57 c || is_space c
  || bool_decide (code c ∈ [45; 95; 46; 44; 33; 63; 40; 41]).

(** [ALLOWED_CHARS.match(prompt)] *)
Definition ALLOWED_CHARS (prompt : string) : bool :=
  re_anchored (fun s => PosixPath.nonempty s && string_forall allowed_char s) prompt.

(** [re.match(r'^[0-9a-f]{8}-...-[0-9a-f]{12}$', user_id)] *)
Definition user_id_match (user_id : pyval) : result bool :=
  match user_id with
  | PyStr s => Ret (re_anchored (uuid_shape is_hex_lower) s)
  | _ => Raise (TypeError "expected string or bytes-like object")
  end.

Definition validate_input (data : pydict) : result (bool * string) :=
  let checks : result (bool * string) :=
    prompt ← strip_val (dict_get data "prompt" (PyStr ""));
    if String.eqb prompt "" then Ret (false, "Prompt is required") else
    if MAX_PROMPT_LENGTH <? Z.of_nat (String.length prompt)
    then Ret (false, "Prompt too long (max 200 characters)") else
    if negb (ALLOWED_CHARS prompt) then Ret (false, "Prompt contains invalid characters") else
    height ← int (dict_get data "height" (PyInt 512));
    width ← int (dict_get data "width" (PyInt 512));
    if negb ((MIN_DIMENSION <=? height) && (height <=? MAX_DIMENSION)
             && (MIN_DIMENSION <=? width) && (width <=? MAX_DIMENSION))
    then Ret (false, "Dimensions must be between 64 and 1024") else
    steps ← int (dict_get data "num_inference_steps" (PyInt 50));
    if negb ((MIN_STEPS <=? steps) && (steps <=? MAX_STEPS))
    then Ret (false, "Steps must be between 1 and 100") else
    let user_id := dict_get data "user_id" PyNone in
    if negb (truthy user_id) then Ret (false, "User ID is required") else
    matched ← user_id_match user_id;
    if negb matched then Ret (false, "Invalid user ID format") else
    match dict_get data "seed" PyNone with
    | PyNone => Ret (true, "")
    | seed =>
        match int seed with
        | Ret seed =>
            if negb ((0 <=? seed) && (seed <=? 2 ^ 32 - 1))
            then Ret (false, "Invalid seed value") else Ret (true, "")
        | Raise (ValueError _) => Ret (false, "Seed must be a valid integer")
        | Raise e => Raise e
        end
    end in
  match checks with
  | Raise (ValueError m) | Raise (TypeError m) => Ret (false, "Invalid input format: " +:+ m)
  | r => r
  end.

(** The three values of [job['status']]. *)
Inductive job_status := processing | completed | failed.

#[export] Instance job_status_eq_dec : EqDecision job_status.
Proof. solve_decision. Defined.

(** [str] of a status, as it appears in a response *)
Definition status_str (s : job_status) : string :=
  match s with
  | processing => "processing"
  | completed => "completed"
  | failed => "failed"
  end.

(** One entry of [jobs]: the keys 'status', 'started_at', 'data', and the
    keys 'result' and 'error' once they have been set. *)
Record job := Job {
  j_status : job_status;
  j_started_at : Z;
  j_data : pydict;
  j_result : option pydict;
  j_error : option string
}.

(** The globals of the process, the worker threads that have been started
    and have not yet run, and the files on disk. *)
Record state := State {
  jobs : gmap string job;
  file_mapping : gmap string string;
  threads : list (string * pydict);
  fs : Fs.files
}.

Definition initial : state := State ∅ ∅ [] ∅.

Section Service.

Variable AI_SERVICE_AUTH_TOKEN : string.
Variable UPLOAD_FOLDER : string.
Variable cwd : string.

(** The test of the decorator: [not auth_token or auth_token != TOKEN],
    with [auth_token = auth_header or auth_query]. *)
Definition unauthorized (auth_header auth_query : option string) : bool :=
  let auth_token :=
    match auth_header with
    | Some h => if PosixPath.nonempty h then Some h else auth_query
    | None => auth_query
    end in
  match auth_token with
  | Some t => negb (PosixPath.nonempty t) || negb (String.eqb t AI_SERVICE_AUTH_TOKEN)
  | None => true
  end.

Definition require_auth_token {S R : Type} (deny : response -> R) (f : S -> R)
    (auth_header auth_query : option string) (st : S) : R :=
  if unauthorized auth_header auth_query
  then deny (jsonify {[ "error" := PyStr "Unauthorized" ]} 401)
  else f st.

Definition get_pipeline (w : ImageUtils.worker_env) : result unit :=
  match ImageUtils.w_pipeline w with
  | Some e => Raise e
  | None => Ret tt
  end.

Definition ensure_user_directory (user_id : pyval) : result string :=
  match user_id with
  | PyStr user_id => Ret (PosixPath.join UPLOAD_FOLDER user_id)
  | _ => Raise (TypeError "join() argument must be str, bytes, or os.PathLike object")
  end.

(** [jobs[job_id][...] = ...]: [KeyError] when the job is absent *)
Definition update_job (job_id : string) (f : job -> job) (st : state) : result state :=
  match jobs st !! job_id with
  | Some j => Ret (State (<[job_id := f j]> (jobs st)) (file_mapping st) (threads st) (fs st))
  | None => Raise (KeyError job_id)
  end.

(** The [try] block of [process_job]: the state reached, and the exception
    that ended the block if there was one. *)
Definition process_job_try (job_id : string) (data : pydict) (w : ImageUtils.worker_env)
    (st : state) : result unit * state :=
  let produced :=
    _ ← get_pipeline w;
    prompt ← dict_item data "prompt";
    user_id ← dict_item data "user_id";
    user_dir ← ensure_user_directory user_id;
    ImageUtils.process_image cwd w prompt
      (dict_get data "height" (PyInt 512)) (dict_get data "width" (PyInt 512))
      (dict_get data "num_inference_steps" (PyInt 50)) (dict_get data "seed" PyNone)
      user_dir (fs st) in
  match produced with
  | Raise e => (Raise e, st)
  | Ret (image_path, seed, fs') =>
      let st := State (jobs st) (file_mapping st) (threads st) fs' in
      match PosixPath.relpath cwd image_path UPLOAD_FOLDER with
      | Raise e => (Raise e, st)
      | Ret relative_path =>
          let st := State (jobs st) (<[job_id := relative_path]> (file_mapping st))
                          (threads st) (fs st) in
          let result : pydict :=
            {[ "job_id" := PyStr job_id;
               "image_path" := PyStr ("/output/" +:+ job_id);
               "seed" := seed ]} in
          match update_job job_id
                  (fun j => Job completed (j_started_at j) (j_data j) (Some result) (j_error j)) st with
          | Raise e => (Raise e, st)
          | Ret st => (Ret tt, st)
          end
      end
  end.

(** [process_job]: the body of a worker thread *)
Definition process_job (job_id : string) (data : pydict) (w : ImageUtils.worker_env)
    (st : state) : state :=
  match process_job_try job_id data w st with
  | (Ret _, st) => st
  | (Raise e, st) =>
      match update_job job_id
              (fun j => Job failed (j_started_at j) (j_data j) (j_result j) (Some (str_exn e))) st with
      | Ret st => st
      | Raise _ => st
      end
  end.

(** [serve_image], with the paths handed to the operating system on the
    way ([os.path.exists], then the file that [send_from_directory] opens). *)
Definition serve_image (file_id : string) (st : state) : response * list string :=
  let not_found := jsonify {[ "error" := PyStr "Image not found" ]} 404 in
  match file_mapping st !! file_id with
  | None => (not_found, [])
  | Some actual_path =>
      let full_path := PosixPath.join UPLOAD_FOLDER actual_path in
      if negb (Fs.isfile cwd full_path (fs st)) then (not_found, [full_path])
      else match safe_join UPLOAD_FOLDER actual_path with
           | None => (not_found, [full_path])
           | Some path =>
               match Fs.read cwd path (fs st) with
               | None => (not_found, [full_path; path])
               | Some content => (Response 200 (FileContent content), [full_path; path])
               end
           end
  end.

(** [GET /output/<uuid:file_id>] *)
Definition GET_output (segment : string) (auth_header auth_query : option string)
    (st : state) : response * list string :=
  match uuid_converter segment with
  | None => (Response 404 ErrorPage, [])
  | Some file_id =>
      require_auth_token (fun r => (r, [])) (serve_image file_id) auth_header auth_query st
  end.

(** [generate]; [job_id] is the value of [uuid.uuid4()] and [now] the
    reading of [time.time()].  The thread is started, not run. *)
Definition generate (data : pydict) (job_id : string) (now : Z) (st : state) : response * state :=
  if negb (truthy (PyDict data)) || negb (dict_contains data "prompt")
     || negb (dict_contains data "user_id")
  then (jsonify {[ "error" := PyStr "Missing required fields" ]} 400, st)
  else match validate_input data with
       | Raise e => (jsonify {[ "error" := PyStr (str_exn e) ]} 500, st)
       | Ret (false, error_message) => (jsonify {[ "error" := PyStr error_message ]} 400, st)
       | Ret (true, _) =>
           let st := State (<[job_id := Job processing now data None None]> (jobs st))
                           (file_mapping st) (threads st ++ [(job_id, data)])%list (fs st) in
           (jsonify {[ "success" := PyBool true;
                       "job_id" := PyStr job_id;
                       "status" := PyStr "processing" ]} 200, st)
       end.

(** [POST /generate] *)
Definition POST_generate (data : pydict) (auth_header auth_query : option string)
    (job_id : string) (now : Z) (st : state) : response * state :=
  require_auth_token (fun r => (r, st)) (generate data job_id now) auth_header auth_query st.

Definition get_job_status (job_id : string) (st : state) : response :=
  match jobs st !! job_id with
  | None => jsonify {[ "error" := PyStr "Job not found" ]} 404
  | Some job =>
      let response : pydict :=
        {[ "status" := PyStr (status_str (j_status job));
           "started_at" := PyInt (j_started_at job) ]} in
      match j_status job, j_result job, j_error job with
      | completed, Some result, _ => jsonify (result ∪ response) 200
      | completed, None, _ => jsonify {[ "error" := PyStr "'result'" ]} 500
      | failed, _, Some error => jsonify (<[ "error" := PyStr error ]> response) 200
      | failed, _, None => jsonify {[ "error" := PyStr "'error'" ]} 500
      | processing, _, _ => jsonify response 200
      end
  end.

(** [GET /status/<job_id>] *)
Definition GET_status (job_id : string) (auth_header auth_query : option string)
    (st : state) : response :=
  require_auth_token (fun r => r) (get_job_status job_id) auth_header auth_query st.

(** A started thread gets to run: the first pending thread of that job. *)
Fixpoint take_thread (job_id : string) (l : list (string * pydict))
  : option (pydict * list (string * pydict)) :=
  match l with
  | [] => None
  | (j, d) :: l' =>
      if String.eqb j job_id then Some (d, l')
      else match take_thread job_id l' with
           | Some (d', rest) => Some (d', (j, d) :: rest)
           | None => None
           end
  end.

Definition run_thread (job_id : string) (w : ImageUtils.worker_env) (st : state) : state :=
  match take_thread job_id (threads st) with
  | None => st
  | Some (data, rest) =>
      process_job job_id data w (State (jobs st) (file_mapping st) rest (fs st))
  end.

End Service.

Section Health.

Variable AI_SERVICE_AUTH_TOKEN : string.

(** [health_check] of the internal tier; [w] tells whether the pipeline
    can be obtained. *)
Definition health_check (w : ImageUtils.worker_env) : response :=
  match get_pipeline w with
  | Ret _ => jsonify {[ "status" := PyStr "healthy" ]} 200
  | Raise e => jsonify {[ "status" := PyStr "unhealthy"; "error" := PyStr (str_exn e) ]} 500
  end.

(** [GET /health] *)
Definition GET_health (auth_header auth_query : option string)
    (w : ImageUtils.worker_env) : response :=
  require_auth_token AI_SERVICE_AUTH_TOKEN (fun r => r) health_check auth_header auth_query w.

End Health.
End AiService.

(** ** app.py: the public tier *)
Module App.

Definition RATE_LIMIT_WINDOW : Z := 60.
Definition MAX_REQUESTS_PER_USER : Z := 3.
Definition MAX_CONCURRENT_JOBS : Z := 2.
Definition GLOBAL_RATE_LIMIT : Z := 10.

(** The rate limiting storage: the two [defaultdict]s and [last_cleanup]. *)
Record state := State {
  user_request_times : gmap string (list Z);
  user_concurrent_jobs : gmap string Z;
  last_cleanup : Z
}.

(** The state of a process started at clock reading [start]. *)
Definition initial (start : Z) : state := State ∅ ∅ start.

(** Reading [d[k]] on a [defaultdict]: the default is stored when the key
    is missing. *)
Definition dd_get {V : Type} (dflt : V) (k : string) (d : gmap string V) : V * gmap string V :=
  let v := default dflt (d !! k) in (v, <[k := v]> d).

Definition validate_request_data (data : pydict) : result (bool * string) :=
  let checks : result (bool * string) :=
    prompt ← strip_val (dict_get data "prompt" (PyStr ""));
    if String.eqb prompt "" then Ret (false, "Prompt is required") else
    if 200 <? Z.of_nat (String.length prompt) then Ret (false, "Prompt too long") else
    height ← int (dict_get data "height" (PyInt 512));
    width ← int (dict_get data "width" (PyInt 512));
    if negb ((64 <=? height) && (height <=? 1024) && (64 <=? width) && (width <=? 1024))
    then Ret (false, "Invalid dimensions") else
    steps ← int (dict_get data "num_inference_steps" (PyInt 50));
    if negb ((1 <=? steps) && (steps <=? 100))
    then Ret (false, "Invalid number of steps") else
    Ret (true, "") in
  match checks with
  | Raise (ValueError m) | Raise (TypeError m) => Ret (false, "Invalid input format: " +:+ m)
  | r => r
  end.

(** [cleanup_old_requests]; [current_time] is its reading of the clock *)
Definition cleanup_old_requests (current_time : Z) (st : state) : state :=
  if current_time - last_cleanup st <? 10 then st else
  let cutoff_time := current_time - RATE_LIMIT_WINDOW in
  let keep (times : list Z) : option (list Z) :=
    match filter (fun t => cutoff_time < t) times with
    | [] => None
    | kept => Some kept
    end in
  State (omap keep (user_request_times st)) (user_concurrent_jobs st) current_time.

(** [sum(len(times) for times in user_request_times.values())] *)
Definition total_requests (d : gmap string (list Z)) : Z :=
  Z.of_nat (sum_list_with (fun kv => length kv.2) (map_to_list d)).

(** [check_rate_limit]; [session_user_id] is [session.get('user_id')],
    [cleanup_time] the clock reading inside [cleanup_old_requests] and
    [current_time] the one taken after it. *)
Definition check_rate_limit (session_user_id : option string) (cleanup_time current_time : Z)
    (st : state) : (bool * string) * state :=
  let st := cleanup_old_requests cleanup_time st in
  match session_user_id with
  | None => ((false, "No user session"), st)
  | Some user_id =>
      if String.eqb user_id "" then ((false, "No user session"), st) else
      let '(user_requests, times) := dd_get [] user_id (user_request_times st) in
      let st := State times (user_concurrent_jobs st) (last_cleanup st) in
      if MAX_REQUESTS_PER_USER <=? Z.of_nat (length user_requests)
      then ((false, "Rate limit exceeded. Please wait 60 seconds between requests."), st) else
      let '(concurrent, counters) := dd_get 0 user_id (user_concurrent_jobs st) in
      let st := State (user_request_times st) counters (last_cleanup st) in
      if MAX_CONCURRENT_JOBS <=? concurrent
      then ((false, "Too many concurrent jobs. Please wait for your current generations to complete."), st) else
      let total := total_requests (user_request_times st) in
      if GLOBAL_RATE_LIMIT <=? total
      then ((false, "Server is busy. Please try again later."), st) else
      ((true, ""),
       State (<[user_id := (user_requests ++ [current_time])%list]> (user_request_times st))
             (<[user_id := concurrent + 1]> (user_concurrent_jobs st))
             (last_cleanup st))
  end.

Definition rate_limit_complete (user_id : string) (st : state) : state :=
  let '(concurrent, counters) := dd_get 0 user_id (user_concurrent_jobs st) in
  State (user_request_times st) (<[user_id := Z.max 0 (concurrent - 1)]> counters) (last_cleanup st).

Definition failure (error : pyval) (code : Z) : response :=
  jsonify {[ "success" := PyBool false; "error" := error ]} code.

(** [response.raise_for_status()] *)
Definition raise_for_status (r : response) : result unit :=
  if (400 <=? status r) && (status r <? 600)
  then Raise (RequestException "HTTPError") else Ret tt.

(** [response.json()] *)
Definition json (r : response) : result pydict :=
  match payload r with
  | Json d => Ret d
  | _ => Raise (RequestException "JSONDecodeError")
  end.

(** The decorator of app.py, the same test as in ai_service.py. *)
Definition unauthorized (AI_SERVICE_AUTH_TOKEN : string) (auth_header auth_query : option string) : bool :=
  let auth_token :=
    match auth_header with
    | Some h => if PosixPath.nonempty h then Some h else auth_query
    | None => auth_query
    end in
  match auth_token with
  | Some t => negb (PosixPath.nonempty t) || negb (String.eqb t AI_SERVICE_AUTH_TOKEN)
  | None => true
  end.

Definition require_auth_token {S R : Type} (AI_SERVICE_AUTH_TOKEN : string)
    (deny : response -> R) (f : S -> R)
    (auth_header auth_query : option string) (st : S) : R :=
  if unauthorized AI_SERVICE_AUTH_TOKEN auth_header auth_query
  then deny (jsonify {[ "error" := PyStr "Unauthorized" ]} 401)
  else f st.

Section Gateway.

(** The internal tier as the public tier reaches it: [U] is whatever lies
    behind the network, [post_generate] is
    [requests.post(AI_SERVICE_URL/generate, json=data, ...)] and
    [get_output] is [requests.get(AI_SERVICE_URL/output/file_id, ...)]. *)
Context {U : Type}.
Variable post_generate : pydict -> U -> result response * U.
Variable get_output : string -> U -> result response * U.
Variable AI_SERVICE_AUTH_TOKEN : string.

(** The inner [try] block of [generate_image], up to its [finally]. *)
Definition forward (user_id : string) (data : pydict) (up : U) : result response * U :=
  match validate_request_data data with
  | Raise e => (Raise e, up)
  | Ret (false, error_message) => (Ret (failure (PyStr error_message) 400), up)
  | Ret (true, _) =>
      let data := <["user_id" := PyStr user_id]> data in
      match post_generate data up with
      | (Raise e, up) => (Raise e, up)
      | (Ret response, up) =>
          (_ ← raise_for_status response;
           result ← json response;
           if truthy (dict_get result "success" PyNone)
           then Ret (jsonify result 200)
           else Ret (failure (dict_get result "error" (PyStr "Unknown error")) 500),
           up)
      end
  end.

(** The [except] clauses of [generate_image], in their order. *)
Definition handlers (outcome : result response) : response :=
  match outcome with
  | Ret response => response
  | Raise (Timeout _) => failure (PyStr "Request timed out") 504
  | Raise (RequestException m) =>
      failure (PyStr ("Error communicating with AI service: " +:+ m)) 500
  | Raise e => failure (PyStr (str_exn e)) 500
  end.

(** [generate_image]: [session_user_id] is the 'user_id' entry of the
    session if it has one, [data] is [request.json] for a body that is a
    JSON object.  A body for which [request.json] raises, or which is not
    an object, is not modelled. *)
Definition generate_image (session_user_id : option string) (data : pydict)
    (cleanup_time current_time : Z) (st : state) (up : U) : response * state * U :=
  match session_user_id with
  | None => (failure (PyStr "No user session found") 401, st, up)
  | Some user_id =>
      let '((can_proceed, rate_limit_error), st) :=
        check_rate_limit session_user_id cleanup_time current_time st in
      if negb can_proceed then (failure (PyStr rate_limit_error) 429, st, up) else
      if negb (truthy (PyDict data)) then (failure (PyStr "No data provided") 400, st, up) else
      let '(outcome, up) := forward user_id data up in
      let st := rate_limit_complete user_id st in
      (handlers outcome, st, up)
  end.

(** [serve_image] of the public tier: the proxy of an artifact request *)
Definition serve_image (file_id : string) (up : U) : response * U :=
  let not_found := jsonify {[ "error" := PyStr "Image not found" ]} 404 in
  match get_output file_id up with
  | (Raise (Timeout _), up) | (Raise (RequestException _), up) => (not_found, up)
  | (Raise _, up) => (Response 500 ErrorPage, up)
  | (Ret response, up) =>
      match raise_for_status response with
      | Raise _ => (not_found, up)
      | Ret _ => (Response 200 (payload response), up)
      end
  end.

(** [GET /output/<uuid:file_id>] on the public tier *)
Definition GET_output (segment : string) (auth_header auth_query : option string)
    (up : U) : response * U :=
  match uuid_converter segment with
  | None => (Response 404 ErrorPage, up)
  | Some file_id =>
      require_auth_token AI_SERVICE_AUTH_TOKEN (fun r => (r, up))
        (serve_image file_id) auth_header auth_query up
  end.

End Gateway.

(** The endpoints that only relay: status and health. *)
Module Proxy.
Section Proxies.

(** The internal tier behind [requests.get(AI_SERVICE_URL/status/job_id)]
    and [requests.get(AI_SERVICE_URL/health)]. *)
Context {U : Type}.
Variable get_status : string -> U -> result response * U.
Variable get_health : U -> result response * U.
Variable AI_SERVICE_AUTH_TOKEN : string.

(** [get_job_status] of the public tier: the proxy of a status request *)
Definition get_job_status (job_id : string) (up : U) : response * U :=
  let failed := jsonify {[ "error" := PyStr "Failed to check job status" ]} 500 in
  match get_status job_id up with
  | (Raise (Timeout _), up) | (Raise (RequestException _), up) => (failed, up)
  | (Raise _, up) => (Response 500 ErrorPage, up)
  | (Ret response, up) =>
      match (_ ← raise_for_status response; json response) with
      | Ret answer => (jsonify answer 200, up)
      | Raise (Timeout _) | Raise (RequestException _) => (failed, up)
      | Raise _ => (Response 500 ErrorPage, up)
      end
  end.

(** [GET /status/<job_id>] on the public tier *)
Definition GET_status (job_id : string) (auth_header auth_query : option string)
    (up : U) : response * U :=
  require_auth_token AI_SERVICE_AUTH_TOKEN (fun r => (r, up))
    (get_job_status job_id) auth_header auth_query up.

(** [data.get('status') == 'healthy'] *)
Definition reports_healthy (data : pydict) : bool :=
  match data !! "status" with
  | Some (PyStr s) => String.eqb s "healthy"
  | _ => false
  end.

(** [health_check] of the public tier *)
Definition health_check (up : U) : response * U :=
  let unhealthy (reason : pyval) :=
    jsonify {[ "status" := PyStr "unhealthy"; "reason" := reason ]} 503 in
  match get_health up with
  | (Raise (Timeout _), up) | (Raise (RequestException _), up) =>
      (unhealthy (PyStr "Failed to connect to AI service"), up)
  | (Raise _, up) => (unhealthy (PyStr "Internal server error"), up)
  | (Ret response, up) =>
      match payload response with
      | Json data =>
          if (status response =? 200) && reports_healthy data
          then (jsonify {[ "status" := PyStr "healthy" ]} 200, up)
          else (unhealthy (dict_get data "reason" (PyStr "AI service reported unhealthy")), up)
      | _ => (unhealthy (PyStr "Invalid response from AI service"), up)
      end
  end.

(** [check_ai_service] *)
Definition check_ai_service (up : U) : result bool * U :=
  match get_health up with
  | (Ret response, up) => (Ret (status response =? 200), up)
  | (Raise (Timeout _), up) | (Raise (RequestException _), up) => (Ret false, up)
  | (Raise e, up) => (Raise e, up)
  end.

End Proxies.
End Proxy.

(** [index]: the 'user_id' entry of the session after the request, [uuid4]
    being the value of [str(uuid.uuid4())]; the page is not modelled. *)
Definition index (session_user_id : option string) (uuid4 : string) : option string :=
  match session_user_id with
  | Some user_id => Some user_id
  | None => Some uuid4
  end.

End App.

(** ** The two processes together *)
Module System.

Record state := State { web : App.state; ai : AiService.state }.

(** What happens to one HTTP call from the public to the internal tier:
    it is answered, it never arrives ([requests] raises [e]), or it is
    handled and the answer does not come back in time. *)
Inductive network :=
| Delivered
| Unreachable (e : exn)
| ResponseLost (e : exn).

(** What can happen to the system, with what the environment chose.  The
    events of a run are in the order in which the handlers take
    [request_lock]; the clock readings of a request are made before, so
    they need not come in that order.  A request is one event: requests
    that overlap, each holding its slot during the call to the internal
    tier, are not runs. *)
Inductive event :=
| Submit (session_user_id : option string) (data : pydict)
         (cleanup_time current_time : Z) (net : network)
         (job_id : string) (started_at : Z)
| SubmitInternal (data : pydict) (auth_header auth_query : option string)
         (job_id : string) (started_at : Z)
| Work (job_id : string) (w : ImageUtils.worker_env).

Section Deployment.

Variable AI_SERVICE_AUTH_TOKEN : string.
Variable UPLOAD_FOLDER : string.
Variable cwd : string.

(** [requests.post] of the public tier, which sends the shared token. *)
Definition post_generate (net : network) (job_id : string) (started_at : Z)
    (data : pydict) (a : AiService.state) : result response * AiService.state :=
  match net with
  | Unreachable e => (Raise e, a)
  | Delivered =>
      let '(r, a) := AiService.POST_generate AI_SERVICE_AUTH_TOKEN data
                       (Some AI_SERVICE_AUTH_TOKEN) None job_id started_at a in
      (Ret r, a)
  | ResponseLost e =>
      let '(_, a) := AiService.POST_generate AI_SERVICE_AUTH_TOKEN data
                       (Some AI_SERVICE_AUTH_TOKEN) None job_id started_at a in
      (Raise e, a)
  end.

(** [requests.get] of the public tier for an artifact. *)
Definition get_output (net : network) (file_id : string) (a : AiService.state)
  : result response * AiService.state :=
  match net with
  | Delivered =>
      (Ret (AiService.GET_output AI_SERVICE_AUTH_TOKEN UPLOAD_FOLDER cwd file_id
              (Some AI_SERVICE_AUTH_TOKEN) None a).1, a)
  | Unreachable e | ResponseLost e => (Raise e, a)
  end.

(** The answer to an event that is a request. *)
Definition respond (st : state) (ev : event) : option response :=
  match ev with
  | Submit session_user_id data cleanup_time current_time net job_id started_at =>
      Some (App.generate_image (post_generate net job_id started_at)
              session_user_id data cleanup_time current_time (web st) (ai st)).1.1
  | SubmitInternal data auth_header auth_query job_id started_at =>
      Some (AiService.POST_generate AI_SERVICE_AUTH_TOKEN data auth_header auth_query
              job_id started_at (ai st)).1
  | Work _ _ => None
  end.

Definition step (st : state) (ev : event) : state :=
  match ev with
  | Submit session_user_id data cleanup_time current_time net job_id started_at =>
      let '(_, w, a) :=
        App.generate_image (post_generate net job_id started_at)
          session_user_id data cleanup_time current_time (web st) (ai st) in
      State w a
  | SubmitInternal data auth_header auth_query job_id started_at =>
      State (web st)
            (AiService.POST_generate AI_SERVICE_AUTH_TOKEN data auth_header auth_query
               job_id started_at (ai st)).2
  | Work job_id w =>
      State (web st) (AiService.run_thread UPLOAD_FOLDER cwd job_id w (ai st))
  end.

Definition run (st : state) (evs : list event) : state := fold_left step evs st.

(** The requests that the rate limiter let through, with the time stamp it
    recorded for each, in the order of admission. *)
Fixpoint admitted (st : state) (evs : list event) : list (string * Z) :=
  match evs with
  | [] => []
  | ev :: evs' =>
      let here :=
        match ev with
        | Submit (Some user_id) _ cleanup_time current_time _ _ _ =>
            if (App.check_rate_limit (Some user_id) cleanup_time current_time (web st)).1.1
            then [(user_id, current_time)] else []
        | _ => []
        end in
      (here ++ admitted (step st ev) evs')%list
  end.

End Deployment.

Section Upstream.

Variable AI_SERVICE_AUTH_TOKEN : string.

(** [requests.get] of the public tier for the status of a job; the URL
    carries a job identifier made of letters, digits and dashes as it is. *)
Definition get_status (net : network) (job_id : string) (a : AiService.state)
  : result response * AiService.state :=
  match net with
  | Delivered =>
      (Ret (AiService.GET_status AI_SERVICE_AUTH_TOKEN job_id
              (Some AI_SERVICE_AUTH_TOKEN) None a), a)
  | Unreachable e | ResponseLost e => (Raise e, a)
  end.

(** [requests.get] of the public tier for the health of the internal tier *)
Definition get_health (net : network) (w : ImageUtils.worker_env) (a : AiService.state)
  : result response * AiService.state :=
  match net with
  | Delivered =>
      (Ret (AiService.GET_health AI_SERVICE_AUTH_TOKEN (Some AI_SERVICE_AUTH_TOKEN) None w), a)
  | Unreachable e | ResponseLost e => (Raise e, a)
  end.

End Upstream.

Definition initial (start : Z) : state := State (App.initial start) AiService.initial.

(** The clock readings that a run makes on the public tier, in order. *)
Fixpoint clock_readings (evs : list event) : list Z :=
  match evs with
  | [] => []
  | Submit (Some _) _ cleanup_time current_time _ _ _ :: evs' =>
      cleanup_time :: current_time :: clock_readings evs'
  | _ :: evs' => clock_readings evs'
  end.

(** A clock that never goes back, from the reading [last] on. *)
Fixpoint monotone (last : Z) (readings : list Z) : Prop :=
  match readings with
  | [] => True
  | t :: readings' => last <= t /\ monotone t readings'
  end.

(** [uuid.uuid4()] never returns an identifier twice: every job identifier
    that a run draws is new to the job table. *)
Definition draws (ev : event) : option string :=
  match ev with
  | Submit _ _ _ _ _ job_id _ | SubmitInternal _ _ _ job_id _ => Some job_id
  | Work _ _ => None
  end.

Fixpoint fresh_ids (used : gset string) (evs : list event) : Prop :=
  match evs with
  | [] => True
  | ev :: evs' =>
      match draws ev with
      | Some job_id => (job_id ∉ used) /\ fresh_ids ({[job_id]} ∪ used) evs'
      | None => fresh_ids used evs'
      end
  end.

End System.

(** ** What the properties speak about *)
Module Observe.

(** The stored time stamps and the in-flight counter of a user. *)
Definition times (st : App.state) (user_id : string) : list Z :=
  default [] (App.user_request_times st !! user_id).

Definition in_flight (st : App.state) (user_id : string) : Z :=
  default 0 (App.user_concurrent_jobs st !! user_id).

(** The decision of [check_rate_limit], read off the state after the
    clean-up: the three tests in their order. *)
Definition decision (st0 : App.state) (user_id : string) : bool * string :=
  if App.MAX_REQUESTS_PER_USER <=? Z.of_nat (length (times st0 user_id))
  then (false, "Rate limit exceeded. Please wait 60 seconds between requests.")
  else if App.MAX_CONCURRENT_JOBS <=? in_flight st0 user_id
  then (false, "Too many concurrent jobs. Please wait for your current generations to complete.")
  else if App.GLOBAL_RATE_LIMIT <=? App.total_requests (App.user_request_times st0)
  then (false, "Server is busy. Please try again later.")
  else (true, "").

(** The time stamps of a list within the trailing window that ends at [now]. *)
Definition in_trailing_window (now : Z) (l : list Z) : list Z :=
  filter (fun t => now - App.RATE_LIMIT_WINDOW < t) l.

(** The admissions of a log that fall in the window of 60 seconds starting
    at [a]; [user] restricts them to one user. *)
Definition in_window (a : Z) (t : Z) : bool :=
  (a <=? t) && (t <? a + App.RATE_LIMIT_WINDOW).

Definition admitted_in_window (a : Z) (log : list (string * Z)) : nat :=
  length (filter (fun e => Is_true (in_window a e.2)) log).

Definition admitted_by_user_in_window (user_id : string) (a : Z) (log : list (string * Z)) : nat :=
  length (filter (fun e => (e.1 = user_id) /\ Is_true (in_window a e.2)) log).

(** A value that [int] turns into an integer between [lo] and [hi]. *)
Definition int_within (lo hi : Z) (v : pyval) : Prop :=
  exists z, int v = Ret z /\ lo <= z <= hi.

(** A value on which [int] raises [OverflowError] (an infinite float). *)
Definition int_overflows (v : pyval) : Prop :=
  exists m, int v = Raise (OverflowError m).

(** The parameters that the public tier accepts: a prompt that is a string,
    not blank and of at most 200 characters once stripped, and height,
    width and number of steps that convert to integers within bounds. *)
Definition well_formed_for_public (data : pydict) : Prop :=
  (exists p, dict_get data "prompt" (PyStr "") = PyStr p
             /\ strip p <> "" /\ Z.of_nat (String.length (strip p)) <= 200)
  /\ int_within 64 1024 (dict_get data "height" (PyInt 512))
  /\ int_within 64 1024 (dict_get data "width" (PyInt 512))
  /\ int_within 1 100 (dict_get data "num_inference_steps" (PyInt 50)).

(** The owner of a job: the 'user_id' of the request it was created from. *)
Definition owned_by (user_id : string) (j : AiService.job) : bool :=
  match AiService.j_data j !! "user_id" with
  | Some (PyStr s) => String.eqb s user_id
  | _ => false
  end.

Definition is_processing (j : AiService.job) : bool :=
  match AiService.j_status j with
  | AiService.processing => true
  | _ => false
  end.

(** The number of jobs of a user whose status is 'processing'. *)
Definition processing_jobs (user_id : string) (a : AiService.state) : nat :=
  length (filter (fun kv => Is_true (owned_by user_id kv.2 && is_processing kv.2))
                 (map_to_list (AiService.jobs a))).

(** The status that a reader of [/status/job_id] is shown. *)
Definition observed_status (job_id : string) (a : AiService.state) : option AiService.job_status :=
  AiService.j_status <$> AiService.jobs a !! job_id.

(** The state of the internal tier once a job has been created and its
    thread started, as [generate] leaves it. *)
Definition started (job_id : string) (now : Z) (data : pydict) (a : AiService.state) : AiService.state :=
  AiService.State
    (<[job_id := AiService.Job AiService.processing now data None None]> (AiService.jobs a))
    (AiService.file_mapping a) (AiService.threads a ++ [(job_id, data)])%list (AiService.fs a).

(** A job entry has the keys that its status promises: a completed job has
    its result (which has no 'status' key), a failed job its error. *)
Definition settled (j : AiService.job) : Prop :=
  match AiService.j_status j with
  | AiService.processing => True
  | AiService.completed =>
      exists result, AiService.j_result j = Some result /\ result !! "status" = None
  | AiService.failed => is_Some (AiService.j_error j)
  end.

(** From [a] to [a'] no job is lost, and the status of a job is kept or
    goes from 'processing' to another one. *)
Definition advances (a a' : AiService.state) : Prop :=
  forall job_id j, AiService.jobs a !! job_id = Some j ->
    exists j', AiService.jobs a' !! job_id = Some j'
               /\ (AiService.j_status j' = AiService.j_status j
                   \/ (AiService.j_status j = AiService.processing
                       /\ AiService.j_status j' <> AiService.processing)).


(** The invariant of the job table, [used] being the identifiers drawn so
    far: a pending thread belongs to a job in status 'processing', no job
    has two pending threads, every job has a drawn identifier, and every
    entry is settled. *)
Record job_table_inv (used : gset string) (a : AiService.state) : Prop := {
  inv_pending : forall job_id data, (job_id, data) ∈ AiService.threads a ->
                  exists j, AiService.jobs a !! job_id = Some j
                            /\ AiService.j_status j = AiService.processing;
  inv_one_thread : NoDup (AiService.threads a).*1;
  inv_drawn : forall job_id, is_Some (AiService.jobs a !! job_id) -> job_id ∈ used;
  inv_settled : forall job_id j, AiService.jobs a !! job_id = Some j -> settled j
}.

(** The time stamps of the admissions of one user in a log. *)
Definition log_times (user_id : string) (log : list (string * Z)) : list Z :=
  (filter (fun e => e.1 = user_id) log).*2.

(** The rate limiter keeps the log: the list stored for a user holds the
    time stamps of the admissions of the user that are younger than the
    window was at the last clean-up, in the order of admission. *)
Definition recorded (log : list (string * Z)) (st : App.state) : Prop :=
  forall u, times st u
            = filter (fun t => App.last_cleanup st - App.RATE_LIMIT_WINDOW < t) (log_times u log).

(** Both limits hold in every window of 60 seconds. *)
Definition within_limits (log : list (string * Z)) : Prop :=
  forall a,
    (forall u, Z.of_nat (admitted_by_user_in_window u a log) <= App.MAX_REQUESTS_PER_USER)
    /\ Z.of_nat (admitted_in_window a log) <= App.GLOBAL_RATE_LIMIT.

(** A path component: a name without a slash that is not empty and is
    neither the directory itself nor its parent. *)
Definition no_slash (s : string) : bool :=
  string_forall (fun c => negb (Ascii.eqb c "/")) s.

Definition component (s : string) : Prop :=
  no_slash s = true /\ s <> "" /\ s <> "." /\ s <> "..".

(** An upload folder as [str(BASE_DIR / 'output')] gives it: absolute,
    without a trailing slash, and normalised. *)
Definition normal_root (upload : string) : Prop :=
  startswith "/" upload = true /\ endswith_char "/" upload = false
  /\ PosixPath.normpath upload = upload.

(** A file in a directory of the upload folder. *)
Definition below (upload path : string) : Prop :=
  exists dir file, component dir /\ component file
                   /\ path = upload +:+ "/" +:+ dir +:+ "/" +:+ file.

(** The invariant of the artifact mapping: every stored path is a file
    name in a directory name, and every pending thread was given a request
    that [validate_input] accepts. *)
Definition stored_paths_inv (a : AiService.state) : Prop :=
  (forall job_id stored, AiService.file_mapping a !! job_id = Some stored ->
     exists dir file, component dir /\ component file /\ stored = dir +:+ "/" +:+ file)
  /\ (forall job_id data, (job_id, data) ∈ AiService.threads a ->
        AiService.validate_input data = Ret (true, "")).

(** The bounds that the rate limiter keeps on what it stores. *)
Definition limiter_bounds (st : App.state) : Prop :=
  (forall u, Z.of_nat (length (times st u)) <= App.MAX_REQUESTS_PER_USER)
  /\ (forall u, 0 <= in_flight st u <= App.MAX_CONCURRENT_JOBS)
  /\ App.total_requests (App.user_request_times st) <= App.GLOBAL_RATE_LIMIT.

(** A seed that the internal tier accepts: none, or a value that converts
    to an integer of 32 bits. *)
Definition seed_ok (v : pyval) : Prop := v = PyNone \/ int_within 0 (2 ^ 32 - 1) v.

(** The requests that the internal tier accepts. *)
Definition well_formed_for_internal (data : pydict) : Prop :=
  well_formed_for_public data
  /\ (exists p, dict_get data "prompt" (PyStr "") = PyStr p
                /\ AiService.ALLOWED_CHARS (strip p) = true)
  /\ (exists uid, data !! "user_id" = Some (PyStr uid)
                  /\ AiService.re_anchored (uuid_shape is_hex_lower) uid = true)
  /\ seed_ok (dict_get data "seed" PyNone).

Definition prompt_is_a_string (data : pydict) : Prop :=
  exists p, dict_get data "prompt" (PyStr "") = PyStr p.

Definition a_size_overflows (data : pydict) : Prop :=
  int_overflows (dict_get data "height" (PyInt 512))
  \/ int_overflows (dict_get data "width" (PyInt 512))
  \/ int_overflows (dict_get data "num_inference_steps" (PyInt 50)).

(** The name that [save_image] and [process_image] give to the file of a
    prompt at a reading of the wall clock. *)
Definition file_name (prompt : string) (now : ImageUtils.datetime) : string :=
  ImageUtils.replace_spaces (ImageUtils.re_sub_invalid (prefix 10 prompt))
  +:+ "-" +:+ ImageUtils.strftime now +:+ ".png".

(** A character that is neither in the class removed by [re.sub] nor a space. *)
Definition plain_char (c : ascii) : bool :=
  negb (ImageUtils.invalid_char c) && negb (Ascii.eqb c " ").

(** The seed of a worker run: the one of the request, or the one drawn. *)
Definition seed_used (data : pydict) (w : ImageUtils.worker_env) : pyval :=
  let seed := dict_get data "seed" PyNone in
  match seed with
  | PyNone => PyInt (ImageUtils.w_randint w)
  | _ => seed
  end.

(** The first exception that a worker run meets, if it meets one. *)
Definition worker_fault (w : ImageUtils.worker_env) : option exn :=
  match ImageUtils.w_pipeline w, ImageUtils.w_pipe w, ImageUtils.w_disk w with
  | Some e, _, _ => Some e
  | None, Raise e, _ => Some e
  | None, Ret _, Some e => Some e
  | None, Ret _, None => None
  end.

(** The 'result' entry of a completed job. *)
Definition job_result (job_id : string) (seed : pyval) : pydict :=
  {[ "job_id" := PyStr job_id; "image_path" := PyStr ("/output/" +:+ job_id); "seed" := seed ]}.

(** What the status of a job entry promises: a completed job has its
    result and a stored artifact path, a failed job has its error. *)
Definition entry_ok (a : AiService.state) (job_id : string) (j : AiService.job) : Prop :=
  match AiService.j_status j with
  | AiService.processing => True
  | AiService.completed =>
      (exists seed, AiService.j_result j = Some (job_result job_id seed))
      /\ is_Some (AiService.file_mapping a !! job_id)
  | AiService.failed => is_Some (AiService.j_error j)
  end.

Definition results_inv (a : AiService.state) : Prop :=
  forall job_id j, AiService.jobs a !! job_id = Some j -> entry_ok a job_id j.


(** A job with a stored artifact path is in the job table and has no
    pending thread. *)
Definition mapping_inv (a : AiService.state) : Prop :=
  forall job_id, is_Some (AiService.file_mapping a !! job_id) ->
    is_Some (AiService.jobs a !! job_id) /\ job_id ∉ (AiService.threads a).*1.

(** The regular files that lie in a directory itself, not deeper. *)
Definition directly_in (dir k : string) : Prop :=
  exists name, Fs.is_name name = true /\ k = Fs.child dir name.

(** A component as [normpath] keeps them: not empty, no slash. *)
Definition good_comp (x : string) : Prop := x <> "" /\ no_slash x = true.

End Observe.

(** ** A deployment and some requests to run the model on *)
Module Scenario.
Import System.

Definition token : string := "secret".
Definition upload_folder : string := "/srv/app/output".
Definition cwd : string := "/srv/app".

Definition alice : string := "123e4567-e89b-12d3-a456-426614174000".

Definition a_cat : pydict :=
  {[ "prompt" := PyStr "a cat"; "height" := PyInt 512; "width" := PyInt 512;
     "num_inference_steps" := PyInt 50 ]}.

Definition job1 : string := "00000000-0000-4000-8000-000000000001".
Definition job2 : string := "00000000-0000-4000-8000-000000000002".
Definition job3 : string := "00000000-0000-4000-8000-000000000003".
Definition job4 : string := "00000000-0000-4000-8000-000000000004".

(** Three submissions of one user, one second apart, none of them finished. *)
Definition three_submissions : list event :=
  [ Submit (Some alice) a_cat 1 1 Delivered job1 1;
    Submit (Some alice) a_cat 2 2 Delivered job2 2;
    Submit (Some alice) a_cat 3 3 Delivered job3 3 ].

(** A worker run during which the wall clock passes from 12:00:00 to
    12:00:01 between the save and the computation of the returned path. *)
Definition across_a_second : ImageUtils.worker_env :=
  ImageUtils.WorkerEnv None (Ret "PNG") 7
    (ImageUtils.Datetime 2025 1 2 12 0 0) (ImageUtils.Datetime 2025 1 2 12 0 1) None.

(** A worker run whose pipeline call raises. *)
Definition out_of_memory : ImageUtils.worker_env :=
  ImageUtils.WorkerEnv None (Raise (Exception "CUDA out of memory")) 7
    (ImageUtils.Datetime 2025 1 2 12 0 0) (ImageUtils.Datetime 2025 1 2 12 0 0) None.

Fixpoint repeat_char (c : ascii) (n : nat) : string :=
  match n with
  | O => EmptyString
  | S n' => String c (repeat_char c n')
  end.

(** A request whose prompt has 500 characters. *)
Definition long_prompt : pydict := {[ "prompt" := PyStr (repeat_char "a" 500) ]}.

(** A request for an image that is too high. *)
Definition out_of_range : pydict := {[ "prompt" := PyStr "a cat"; "height" := PyInt 4096 ]}.

(** A request whose prompt is a number, and one whose height is infinite
    (the [json] module reads [Infinity] as a float). *)
Definition numeric_prompt : pydict := {[ "prompt" := PyInt 123 ]}.
Definition infinite_height : pydict :=
  {[ "prompt" := PyStr "a cat"; "height" := PyFloat (S754_infinity false) ]}.

(** A request whose prompt has a character outside the allowed set. *)
Definition tagged_prompt : pydict := {[ "prompt" := PyStr "a <cat>" ]}.

(** A worker run within one second of the wall clock. *)
Definition within_a_second : ImageUtils.worker_env :=
  ImageUtils.WorkerEnv None (Ret "PNG") 7
    (ImageUtils.Datetime 2025 1 2 12 0 0) (ImageUtils.Datetime 2025 1 2 12 0 0) None.

(** A second worker run within the same second, with another image. *)
Definition within_the_same_second : ImageUtils.worker_env :=
  ImageUtils.WorkerEnv None (Ret "PNG2") 8
    (ImageUtils.Datetime 2025 1 2 12 0 0) (ImageUtils.Datetime 2025 1 2 12 0 0) None.

(** Two prompts that agree on their first ten characters. *)
Definition a_cat_on_a_mat : pydict := {[ "prompt" := PyStr "a cat on a mat" ]}.
Definition a_cat_on_a_hat : pydict := {[ "prompt" := PyStr "a cat on a hat" ]}.

(** An environment with the required settings. *)
Definition environ : gmap string string :=
  {[ "HF_ACCESS_TOKEN" := "hf_token"; "MODEL" := "flux"; "CKPT_PATH" := "https://example.org/flux.gguf";
     "DEFAULT_SEED" := "42" ]}.

(** A disk: two files in the output folder, one in the directory of a
    user, one beside the folder. *)
Definition disk : Fs.disk :=
  Fs.Disk {[ "/srv/app/output/a.png" := "A"; "/srv/app/output/b.png" := "B";
             "/srv/app/output/123e4567-e89b-12d3-a456-426614174000/c.png" := "C";
             "/srv/app/app.py" := "code" ]}
          {[ "/"; "/srv"; "/srv/app"; "/srv/app/output";
             "/srv/app/output/123e4567-e89b-12d3-a456-426614174000" ]}.

(** Two more users, and two more job identifiers. *)
Definition bob : string := "223e4567-e89b-12d3-a456-426614174000".
Definition carol : string := "323e4567-e89b-12d3-a456-426614174000".
Definition job5 : string := "00000000-0000-4000-8000-000000000005".
Definition job6 : string := "00000000-0000-4000-8000-000000000006".

(** A request whose prompt has 500 characters: 300 spaces, then 200
    letters. *)
Definition padded_prompt : pydict :=
  {[ "prompt" := PyStr (repeat_char " " 300 +:+ repeat_char "a" 200) ]}.

(** Three requests of one user at the clock reading 50, and one of a
    second user at 100. *)
Definition a_full_window : list event :=
  [ Submit (Some alice) a_cat 50 50 Delivered job1 50;
    Submit (Some alice) a_cat 50 50 Delivered job2 50;
    Submit (Some alice) a_cat 50 50 Delivered job3 50;
    Submit (Some carol) a_cat 100 100 Delivered job4 100 ].

(** Two requests that race for [request_lock]: the thread of the first
    user reads the clock at 109, in [cleanup_old_requests] and again in
    [check_rate_limit]; the thread of a third user reads it at 110 and
    takes the lock before it. *)
Definition overtaking : event := Submit (Some bob) a_cat 110 110 Delivered job5 110.
Definition overtaken : event := Submit (Some alice) a_cat 109 109 Delivered job6 110.

End Scenario.

(* ===================================================================== *)
(** * Part II: properties *)
(* ===================================================================== *)

Import AiService App System Observe.

(** ** The artifact path (C10) *)

(** Evaluation for C10: a job whose worker run straddles a change of the
    wall-clock second is marked completed, the file is on disk under the
    name of the first reading, the mapping holds the name of the second
    reading, and the artifact request for the job is answered 404. *)
Lemma C10_stored_path_is_not_the_saved_file :
  let st := run Scenario.token Scenario.upload_folder Scenario.cwd (System.initial 0)
              [ Submit (Some Scenario.alice) Scenario.a_cat 1 1 Delivered Scenario.job1 1;
                Work Scenario.job1 Scenario.across_a_second ] in
  observed_status Scenario.job1 (ai st) = Some completed
  /\ map_to_list (AiService.fs (ai st))
     = [("/srv/app/output/123e4567-e89b-12d3-a456-426614174000/a_cat-20250102-120000.png", "PNG")]
  /\ file_mapping (ai st) !! Scenario.job1
     = Some "123e4567-e89b-12d3-a456-426614174000/a_cat-20250102-120001.png"
  /\ AiService.GET_output Scenario.token Scenario.upload_folder Scenario.cwd Scenario.job1
       (Some Scenario.token) None (ai st)
     = (jsonify {[ "error" := PyStr "Image not found" ]} 404,
        ["/srv/app/output/123e4567-e89b-12d3-a456-426614174000/a_cat-20250102-120001.png"]).
Proof. vm_compute. repeat split. Qed.

(** ** Jobs in progress per user (C1) *)

(** Evaluation for C1: after three submissions of one user, one second
    apart, with a clock that never goes back and fresh job identifiers, the
    user owns three jobs in status 'processing' although the maximum of
    concurrent jobs is two; the in-flight counter of the user is back at
    zero, released when each request was answered. *)
Lemma C1_three_jobs_processing :
  let st := run Scenario.token Scenario.upload_folder Scenario.cwd (System.initial 0)
              Scenario.three_submissions in
  monotone 0 (clock_readings Scenario.three_submissions)
  /\ fresh_ids ∅ Scenario.three_submissions
  /\ Z.of_nat (processing_jobs Scenario.alice (ai st)) = 3
  /\ MAX_CONCURRENT_JOBS < Z.of_nat (processing_jobs Scenario.alice (ai st))
  /\ in_flight (web st) Scenario.alice = 0.
Proof.
  cbv zeta. split; [cbn; lia|]. split.
  - cbn. repeat split; by (apply (bool_decide_unpack _); vm_compute).
  - vm_compute. repeat split.
Qed.

(** ** The rate limiter: what a check reads and writes *)
Section RateLimiter.

Implicit Types (st : App.state) (d : gmap string (list Z)) (user_id : string).

Lemma total_requests_empty : total_requests ∅ = 0.
Proof. unfold total_requests. by rewrite map_to_list_empty. Qed.

Lemma total_requests_insert_fresh d user_id l :
  d !! user_id = None ->
  total_requests (<[user_id := l]> d) = Z.of_nat (length l) + total_requests d.
Proof.
  intros Hnone. unfold total_requests.
  rewrite (sum_list_with_Permutation_proper _ _ _ (map_to_list_insert d user_id l Hnone)).
  cbn. lia.
Qed.

Lemma total_requests_delete d user_id l :
  d !! user_id = Some l ->
  total_requests d = Z.of_nat (length l) + total_requests (delete user_id d).
Proof.
  intros Hsome.
  rewrite <- (insert_delete_id d user_id l Hsome) at 1.
  apply total_requests_insert_fresh, lookup_delete_eq.
Qed.

Lemma total_requests_insert d user_id l :
  total_requests (<[user_id := l]> d)
  = total_requests d - Z.of_nat (length (default [] (d !! user_id))) + Z.of_nat (length l).
Proof.
  destruct (d !! user_id) as [l0|] eqn:Hd; cbn.
  - rewrite (total_requests_delete d user_id l0 Hd).
    rewrite <- insert_delete_eq.
    rewrite total_requests_insert_fresh by apply lookup_delete_eq. lia.
  - rewrite total_requests_insert_fresh by done. lia.
Qed.

Lemma total_requests_nonneg d : 0 <= total_requests d.
Proof. unfold total_requests. lia. Qed.

(** Reading a [defaultdict] does not change what later reads return. *)
Lemma dd_get_lookup {V : Type} (dflt : V) (k k' : string) (m : gmap string V) :
  default dflt ((dd_get dflt k m).2 !! k') = default dflt (m !! k').
Proof.
  unfold dd_get; cbn. destruct (decide (k = k')) as [->|Hne].
  - by rewrite lookup_insert_eq.
  - by rewrite lookup_insert_ne.
Qed.

Lemma total_requests_dd_get d user_id :
  total_requests (dd_get [] user_id d).2 = total_requests d.
Proof. unfold dd_get; cbn. rewrite total_requests_insert. lia. Qed.

Lemma times_cleanup st now user_id :
  times (cleanup_old_requests now st) user_id
  = if now - last_cleanup st <? 10 then times st user_id
    else in_trailing_window now (times st user_id).
Proof.
  unfold cleanup_old_requests, times, in_trailing_window.
  destruct (now - last_cleanup st <? 10); [done|]. cbn.
  rewrite lookup_omap. destruct (user_request_times st !! user_id) as [l|]; cbn; [|done].
  by destruct (filter _ l).
Qed.

Lemma in_flight_cleanup st now user_id :
  in_flight (cleanup_old_requests now st) user_id = in_flight st user_id.
Proof.
  unfold cleanup_old_requests, in_flight. by destruct (now - last_cleanup st <? 10).
Qed.

Lemma last_cleanup_cleanup st now :
  last_cleanup (cleanup_old_requests now st)
  = if now - last_cleanup st <? 10 then last_cleanup st else now.
Proof. unfold cleanup_old_requests. by destruct (now - last_cleanup st <? 10). Qed.

Lemma check_rate_limit_decision st user_id cleanup_time current_time :
  user_id <> "" ->
  (check_rate_limit (Some user_id) cleanup_time current_time st).1
  = decision (cleanup_old_requests cleanup_time st) user_id.
Proof.
  intros Hne. unfold check_rate_limit, decision.
  set (st0 := cleanup_old_requests cleanup_time st).
  destruct (String.eqb_spec user_id "") as [|_]; [done|].
  unfold dd_get, times, in_flight; cbn.
  destruct (MAX_REQUESTS_PER_USER <=? _); [done|].
  destruct (MAX_CONCURRENT_JOBS <=? _); [done|].
  rewrite total_requests_insert. cbn.
  replace (total_requests (user_request_times st0)
           - Z.of_nat (length (default [] (user_request_times st0 !! user_id)))
           + Z.of_nat (length (default [] (user_request_times st0 !! user_id))))
    with (total_requests (user_request_times st0)) by lia.
  by destruct (GLOBAL_RATE_LIMIT <=? _).
Qed.

(** What a check leaves behind: the lists and counters read through their
    defaults are those after the clean-up, with the new time stamp and one
    more job in flight exactly when the request is admitted. *)
Lemma check_rate_limit_times st user_id cleanup_time current_time u :
  user_id <> "" ->
  let r := check_rate_limit (Some user_id) cleanup_time current_time st in
  times r.2 u
  = if r.1.1 && bool_decide (u = user_id)
    then (times (cleanup_old_requests cleanup_time st) u ++ [current_time])%list
    else times (cleanup_old_requests cleanup_time st) u.
Proof.
  intros Hne. unfold check_rate_limit.
  set (st0 := cleanup_old_requests cleanup_time st).
  destruct (String.eqb_spec user_id "") as [|_]; [done|].
  unfold dd_get, times; cbn.
  assert (Hread : default [] (<[user_id := default [] (user_request_times st0 !! user_id)]>
                                 (user_request_times st0) !! u)
                  = default [] (user_request_times st0 !! u)).
  { destruct (decide (user_id = u)) as [->|Hu];
      [by rewrite lookup_insert_eq | by rewrite lookup_insert_ne]. }
  destruct (MAX_REQUESTS_PER_USER <=? _); [done|].
  destruct (MAX_CONCURRENT_JOBS <=? _); [done|].
  destruct (GLOBAL_RATE_LIMIT <=? _); [done|]. cbn.
  case_bool_decide as Hu.
  - subst u. by rewrite lookup_insert_eq.
  - rewrite lookup_insert_ne by done. done.
Qed.

Lemma check_rate_limit_in_flight st user_id cleanup_time current_time u :
  user_id <> "" ->
  let r := check_rate_limit (Some user_id) cleanup_time current_time st in
  in_flight r.2 u
  = if r.1.1 && bool_decide (u = user_id) then in_flight st u + 1 else in_flight st u.
Proof.
  intros Hne. unfold check_rate_limit.
  rewrite <- (in_flight_cleanup st cleanup_time u).
  set (st0 := cleanup_old_requests cleanup_time st).
  destruct (String.eqb_spec user_id "") as [|_]; [done|].
  unfold dd_get, in_flight; cbn.
  assert (Hread : default 0 (<[user_id := default 0 (user_concurrent_jobs st0 !! user_id)]>
                                (user_concurrent_jobs st0) !! u)
                  = default 0 (user_concurrent_jobs st0 !! u)).
  { destruct (decide (user_id = u)) as [->|Hu];
      [by rewrite lookup_insert_eq | by rewrite lookup_insert_ne]. }
  destruct (MAX_REQUESTS_PER_USER <=? _); [done|].
  destruct (MAX_CONCURRENT_JOBS <=? _); [done|].
  destruct (GLOBAL_RATE_LIMIT <=? _); [done|]. cbn.
  case_bool_decide as Hu.
  - subst u. by rewrite lookup_insert_eq.
  - rewrite lookup_insert_ne by done. done.
Qed.

Lemma check_rate_limit_last_cleanup st session cleanup_time current_time :
  last_cleanup (check_rate_limit session cleanup_time current_time st).2
  = last_cleanup (cleanup_old_requests cleanup_time st).
Proof.
  unfold check_rate_limit.
  destruct session as [user_id|]; [|done].
  destruct (String.eqb user_id ""); [done|].
  unfold dd_get; cbn.
  destruct (MAX_REQUESTS_PER_USER <=? _); [done|].
  destruct (MAX_CONCURRENT_JOBS <=? _); [done|].
  by destruct (GLOBAL_RATE_LIMIT <=? _).
Qed.

Lemma rate_limit_complete_times st user_id u :
  times (rate_limit_complete user_id st) u = times st u.
Proof. done. Qed.

Lemma rate_limit_complete_in_flight st user_id u :
  in_flight (rate_limit_complete user_id st) u
  = if bool_decide (u = user_id) then Z.max 0 (in_flight st u - 1) else in_flight st u.
Proof.
  unfold rate_limit_complete, dd_get, in_flight; cbn.
  case_bool_decide as Hu.
  - subst u. by rewrite lookup_insert_eq.
  - rewrite !lookup_insert_ne by done. done.
Qed.

End RateLimiter.

(** ** The admission check (C5) *)

(** Counterexample to C5 as stated: a user is admitted at 1, 2 and 3; a
    fourth request at 55 is denied and runs the clean-up (nothing is stale
    yet); at 62 the clean-up is skipped, because the last one is 7 seconds
    old.  The check at 62 then counts the three stored time stamps and
    reports the per-user limit, although a single time stamp lies within
    the trailing window, and it leaves the stale time stamps in place. *)
Lemma C5_stale_time_stamps_are_counted :
  let st := web (run Scenario.token Scenario.upload_folder Scenario.cwd (System.initial 0)
                   (Scenario.three_submissions
                    ++ [Submit (Some Scenario.alice) Scenario.a_cat 55 55 Delivered Scenario.job1 55])) in
  let r := check_rate_limit (Some Scenario.alice) 62 62 st in
  times st Scenario.alice = [1; 2; 3]
  /\ in_trailing_window 62 (times st Scenario.alice) = [3]
  /\ r.1 = (false, "Rate limit exceeded. Please wait 60 seconds between requests.")
  /\ times r.2 Scenario.alice = [1; 2; 3].
Proof. vm_compute. repeat split. Qed.

(** C5 (amended): the three limits are tested in the order per-user count,
    per-user in-flight count, global count, and the first test that fails
    gives the reason; the per-user count is the length of the list stored
    for the user and the global count the sum of the lengths of all stored
    lists.  The stored lists are pruned to the trailing window by a check
    that comes at least 10 seconds after the last pruning, and are left as
    they are by a check that comes earlier. *)
Theorem C5_checks_in_order_on_stored_times (st : App.state) (user_id : string)
    (cleanup_time current_time : Z) :
  user_id <> "" ->
  let st0 := cleanup_old_requests cleanup_time st in
  let answer := (check_rate_limit (Some user_id) cleanup_time current_time st).1 in
  let n := Z.of_nat (length (times st0 user_id)) in
  let c := in_flight st0 user_id in
  let g := total_requests (user_request_times st0) in
  (MAX_REQUESTS_PER_USER <= n ->
     answer = (false, "Rate limit exceeded. Please wait 60 seconds between requests."))
  /\ (n < MAX_REQUESTS_PER_USER -> MAX_CONCURRENT_JOBS <= c ->
     answer = (false, "Too many concurrent jobs. Please wait for your current generations to complete."))
  /\ (n < MAX_REQUESTS_PER_USER -> c < MAX_CONCURRENT_JOBS -> GLOBAL_RATE_LIMIT <= g ->
     answer = (false, "Server is busy. Please try again later."))
  /\ (n < MAX_REQUESTS_PER_USER -> c < MAX_CONCURRENT_JOBS -> g < GLOBAL_RATE_LIMIT ->
     answer = (true, ""))
  /\ (10 <= cleanup_time - last_cleanup st ->
     forall u, times st0 u = in_trailing_window cleanup_time (times st u))
  /\ (cleanup_time - last_cleanup st < 10 -> st0 = st).
Proof.
  intros Hne st0 answer n c g.
  assert (Hanswer : answer = decision st0 user_id)
    by (apply check_rate_limit_decision; exact Hne).
  unfold decision in Hanswer. fold n c g in Hanswer.
  repeat split.
  - intros Hn. rewrite Hanswer.
    destruct (Z.leb_spec MAX_REQUESTS_PER_USER n); [done|lia].
  - intros Hn Hc. rewrite Hanswer.
    destruct (Z.leb_spec MAX_REQUESTS_PER_USER n); [lia|].
    destruct (Z.leb_spec MAX_CONCURRENT_JOBS c); [done|lia].
  - intros Hn Hc Hg. rewrite Hanswer.
    destruct (Z.leb_spec MAX_REQUESTS_PER_USER n); [lia|].
    destruct (Z.leb_spec MAX_CONCURRENT_JOBS c); [lia|].
    destruct (Z.leb_spec GLOBAL_RATE_LIMIT g); [done|lia].
  - intros Hn Hc Hg. rewrite Hanswer.
    destruct (Z.leb_spec MAX_REQUESTS_PER_USER n); [lia|].
    destruct (Z.leb_spec MAX_CONCURRENT_JOBS c); [lia|].
    destruct (Z.leb_spec GLOBAL_RATE_LIMIT g); [lia|done].
  - intros Hold u. unfold st0. rewrite times_cleanup.
    destruct (Z.ltb_spec (cleanup_time - last_cleanup st) 10); [lia|done].
  - intros Hrecent. unfold st0, cleanup_old_requests.
    destruct (Z.ltb_spec (cleanup_time - last_cleanup st) 10); [done|lia].
Qed.

(** The amended C5 at work on the run of the counterexample: the check at
    62 finds three stored time stamps and answers with the per-user limit,
    and the state is the one before the call to the clean-up. *)
Lemma C5_checks_in_order_witness :
  (check_rate_limit (Some Scenario.alice) 62 62
     (web (run Scenario.token Scenario.upload_folder Scenario.cwd (System.initial 0)
             (Scenario.three_submissions
              ++ [Submit (Some Scenario.alice) Scenario.a_cat 55 55 Delivered Scenario.job1 55])))).1
  = (false, "Rate limit exceeded. Please wait 60 seconds between requests.").
Proof.
  set (st := web _).
  destruct (C5_checks_in_order_on_stored_times st Scenario.alice 62 62) as (Hfirst & _).
  - vm_compute. discriminate.
  - apply Hfirst. vm_compute. discriminate.
Defined.

(** ** Validation and the public handler (C3, C7, C2) *)

(** [int] raises nothing but [ValueError], [TypeError] and [OverflowError]. *)
Lemma int_raises (v : pyval) (e : exn) :
  int v = Raise e ->
  (exists m, e = ValueError m) \/ (exists m, e = TypeError m) \/ (exists m, e = OverflowError m).
Proof.
  destruct v as [|b|z|f|s|l|d]; cbn; try discriminate; try (intros [= <-]; eauto).
  - destruct f as [sg|sg| |sg m ex]; cbn; try discriminate; intros [= <-]; eauto.
  - unfold int_of_str. destruct (list_ascii_of_string (strip s)) as [|c l].
    + intros [= <-]; eauto.
    + repeat case_match; try discriminate; intros [= <-]; eauto.
Qed.

(** [validate_request_data] decides [well_formed_for_public], with a reason
    when it rejects, on every request whose prompt is a string and whose
    numbers are finite. *)
Lemma validate_request_data_cases (data : pydict) (p : string) :
  dict_get data "prompt" (PyStr "") = PyStr p ->
  ~ int_overflows (dict_get data "height" (PyInt 512)) ->
  ~ int_overflows (dict_get data "width" (PyInt 512)) ->
  ~ int_overflows (dict_get data "num_inference_steps" (PyInt 50)) ->
  (validate_request_data data = Ret (true, "") /\ well_formed_for_public data)
  \/ ((exists msg, msg <> "" /\ validate_request_data data = Ret (false, msg))
      /\ ~ well_formed_for_public data).
Proof.
  intros Hp Hh Hw Hs. unfold validate_request_data, well_formed_for_public, int_within.
  rewrite Hp. cbn [strip_val mbind result_bind].
  destruct (String.eqb_spec (strip p) "") as [Hblank|Hblank].
  { right. split; [eexists; split; [|reflexivity]; discriminate|].
    intros ((p' & [= <-] & Hne & _) & _). done. }
  destruct (Z.ltb_spec 200 (Z.of_nat (String.length (strip p)))) as [Hlong|Hlong].
  { right. split; [eexists; split; [|reflexivity]; discriminate|].
    intros ((p' & [= <-] & _ & Hle) & _). lia. }
  destruct (int (dict_get data "height" (PyInt 512))) as [h|e] eqn:Hhe.
  2:{ right. destruct (int_raises _ _ Hhe) as [[m ->]|[[m ->]|[m ->]]].
      - split; [eexists; split; [|reflexivity]; discriminate|].
        intros (_ & (z & [=] & _) & _).
      - split; [eexists; split; [|reflexivity]; discriminate|].
        intros (_ & (z & [=] & _) & _).
      - destruct Hh. by eexists. }
  destruct (int (dict_get data "width" (PyInt 512))) as [w|e] eqn:Hwe.
  2:{ right. destruct (int_raises _ _ Hwe) as [[m ->]|[[m ->]|[m ->]]].
      - split; [eexists; split; [|reflexivity]; discriminate|].
        intros (_ & _ & (z & [=] & _) & _).
      - split; [eexists; split; [|reflexivity]; discriminate|].
        intros (_ & _ & (z & [=] & _) & _).
      - destruct Hw. by eexists. }
  cbn [mbind result_bind].
  destruct (negb _) eqn:Hdim.
  { right. split; [eexists; split; [|reflexivity]; discriminate|].
    intros (_ & (z & [= <-] & ?) & (z' & [= <-] & ?) & _).
    apply negb_true_iff in Hdim. rewrite !andb_false_iff in Hdim. lia. }
  apply negb_false_iff in Hdim. rewrite !andb_true_iff in Hdim.
  destruct (int (dict_get data "num_inference_steps" (PyInt 50))) as [n|e] eqn:Hne.
  2:{ right. destruct (int_raises _ _ Hne) as [[m ->]|[[m ->]|[m ->]]].
      - split; [eexists; split; [|reflexivity]; discriminate|].
        intros (_ & _ & _ & (z & [=] & _)).
      - split; [eexists; split; [|reflexivity]; discriminate|].
        intros (_ & _ & _ & (z & [=] & _)).
      - destruct Hs. by eexists. }
  cbn [mbind result_bind].
  destruct (negb _) eqn:Hsteps.
  { right. split; [eexists; split; [|reflexivity]; discriminate|].
    intros (_ & _ & _ & (z & [= <-] & ?)).
    apply negb_true_iff in Hsteps. rewrite !andb_false_iff in Hsteps. lia. }
  apply negb_false_iff in Hsteps. rewrite !andb_true_iff in Hsteps.
  left. split; [done|]. repeat split; eauto; try (eexists; split; [reflexivity|lia]).
Qed.

Section PublicGateway.
Context {U : Type}.
Variable post : pydict -> U -> result response * U.

Lemma generate_image_no_session data cleanup_time current_time st (up : U) :
  generate_image post None data cleanup_time current_time st up
  = (failure (PyStr "No user session found") 401, st, up).
Proof. done. Qed.

Lemma generate_image_denied user_id data cleanup_time current_time st (up : U) :
  (check_rate_limit (Some user_id) cleanup_time current_time st).1.1 = false ->
  generate_image post (Some user_id) data cleanup_time current_time st up
  = (failure (PyStr (check_rate_limit (Some user_id) cleanup_time current_time st).1.2) 429,
     (check_rate_limit (Some user_id) cleanup_time current_time st).2, up).
Proof.
  unfold generate_image.
  destruct (check_rate_limit _ _ _ _) as [[can err] st1]; cbn. by intros ->.
Qed.


Lemma generate_image_forwarded user_id data cleanup_time current_time st (up : U) :
  (check_rate_limit (Some user_id) cleanup_time current_time st).1.1 = true ->
  truthy (PyDict data) = true ->
  generate_image post (Some user_id) data cleanup_time current_time st up
  = (handlers (forward post user_id data up).1,
     rate_limit_complete user_id (check_rate_limit (Some user_id) cleanup_time current_time st).2,
     (forward post user_id data up).2).
Proof.
  unfold generate_image.
  destruct (check_rate_limit _ _ _ _) as [[can err] st1]; cbn. intros -> ->. cbn.
  by destruct (forward _ _ _ _).
Qed.

Lemma admitted_user_id_nonempty user_id cleanup_time current_time st :
  (check_rate_limit (Some user_id) cleanup_time current_time st).1.1 = true -> user_id <> "".
Proof.
  unfold check_rate_limit. intros H ->. cbn in H. discriminate.
Qed.

Lemma forward_invalid user_id data (up : U) msg :
  validate_request_data data = Ret (false, msg) ->
  forward post user_id data up = (Ret (failure (PyStr msg) 400), up).
Proof. unfold forward. by intros ->. Qed.

End PublicGateway.

(** Counterexample to C3 as stated: a fresh user submits a prompt of 500
    letters.  The answer is 400 "Prompt too long" and no job is created,
    but the rate limiter has recorded the time stamp of the request.  And a
    prompt of 500 characters is not always too long: the validation strips
    it first, so that 300 spaces before 200 letters pass on both tiers, the
    answer is 200 and a job is created. *)
Lemma C3_time_stamp_recorded_before_validation :
  let r := generate_image (post_generate Scenario.token Delivered Scenario.job1 5)
             (Some Scenario.alice) Scenario.long_prompt 5 5 (App.initial 0) AiService.initial in
  let r' := generate_image (post_generate Scenario.token Delivered Scenario.job1 5)
              (Some Scenario.alice) Scenario.padded_prompt 5 5 (App.initial 0) AiService.initial in
  (r.1.1 = failure (PyStr "Prompt too long") 400
   /\ times (App.initial 0) Scenario.alice = []
   /\ times r.1.2 Scenario.alice = [5]
   /\ r.2 = AiService.initial)
  /\ ((exists p, Scenario.padded_prompt !! "prompt" = Some (PyStr p) /\ String.length p = 500%nat)
      /\ validate_request_data Scenario.padded_prompt = Ret (true, "")
      /\ status r'.1.1 = 200
      /\ observed_status Scenario.job1 r'.2 = Some processing).
Proof.
  cbv zeta. split; [vm_compute; repeat split|].
  split; [eexists; split; [reflexivity|vm_compute; reflexivity]|].
  vm_compute. repeat split.
Qed.

(** A request that the internal tier does not accept leaves its state. *)
Lemma internal_rejection_keeps_state token data hdr qry job_id now a :
  (forall m, validate_input data <> Ret (true, m)) ->
  (POST_generate token data hdr qry job_id now a).2 = a.
Proof.
  intros Hbad. unfold POST_generate, AiService.require_auth_token, generate.
  destruct (AiService.unauthorized token hdr qry); [done|].
  destruct (_ || _); [done|].
  destruct (validate_input data) as [[[] m]|e]; [|done..].
  by destruct (Hbad m).
Qed.

Lemma prompt_too_long (data : pydict) (p : string) :
  data !! "prompt" = Some (PyStr p) ->
  (200 < String.length (strip p))%nat ->
  truthy (PyDict data) = true
  /\ validate_request_data data = Ret (false, "Prompt too long").
Proof.
  intros Hp Hlen. split.
  - cbn. apply negb_true_iff, Nat.eqb_neq. intros Hsize.
    apply map_size_empty_iff in Hsize. subst data. by rewrite lookup_empty in Hp.
  - unfold validate_request_data, dict_get. rewrite Hp. cbn [default from_option id strip_val].
    cbn [mbind result_bind].
    destruct (String.eqb_spec (strip p) "") as [Heq|_];
      [rewrite Heq in Hlen; cbn in Hlen; lia|].
    destruct (Z.ltb_spec 200 (Z.of_nat (String.length (strip p)))) as [_|Hle]; [done|lia].
Qed.

(** C3 (amended): a request without a session is answered 401 and nothing
    is touched.  A request that the rate limiter admits, whose body is a
    JSON object that is not empty, and that fails the validation of the
    public tier is answered 400 with the reason of the validation; the
    internal tier is not called (no job is created) and the in-flight
    counter of the user, which is not negative, is back at its value, but
    the time stamp of the request stays recorded in the list of the user.
    Such is every admitted request whose prompt is a string of more than
    200 characters once it is stripped: its reason is "Prompt too long".
    On the internal tier a bad token is answered 401 and a validation
    failure leaves the state as it was. *)
Theorem C3_rejections_and_state {U : Type} (post : pydict -> U -> result response * U)
    (token : string) (data : pydict) (cleanup_time current_time : Z) (st : App.state) (up : U) :
  generate_image post None data cleanup_time current_time st up
  = (failure (PyStr "No user session found") 401, st, up)
  /\ (forall user_id msg,
        (check_rate_limit (Some user_id) cleanup_time current_time st).1.1 = true ->
        truthy (PyDict data) = true ->
        validate_request_data data = Ret (false, msg) ->
        0 <= in_flight st user_id ->
        let r := generate_image post (Some user_id) data cleanup_time current_time st up in
        r.1.1 = failure (PyStr msg) 400
        /\ r.2 = up
        /\ in_flight r.1.2 user_id = in_flight st user_id
        /\ times r.1.2 user_id
           = (times (cleanup_old_requests cleanup_time st) user_id ++ [current_time])%list)
  /\ (forall user_id p,
        (check_rate_limit (Some user_id) cleanup_time current_time st).1.1 = true ->
        data !! "prompt" = Some (PyStr p) ->
        (200 < String.length (strip p))%nat ->
        0 <= in_flight st user_id ->
        let r := generate_image post (Some user_id) data cleanup_time current_time st up in
        r.1.1 = failure (PyStr "Prompt too long") 400
        /\ r.2 = up
        /\ in_flight r.1.2 user_id = in_flight st user_id
        /\ times r.1.2 user_id
           = (times (cleanup_old_requests cleanup_time st) user_id ++ [current_time])%list)
  /\ (forall hdr qry job_id now a,
        AiService.unauthorized token hdr qry = true ->
        POST_generate token data hdr qry job_id now a
        = (jsonify {[ "error" := PyStr "Unauthorized" ]} 401, a))
  /\ (forall hdr qry job_id now a msg,
        validate_input data = Ret (false, msg) ->
        (POST_generate token data hdr qry job_id now a).2 = a).
Proof.
  assert (Hrejected : forall user_id msg,
            (check_rate_limit (Some user_id) cleanup_time current_time st).1.1 = true ->
            truthy (PyDict data) = true ->
            validate_request_data data = Ret (false, msg) ->
            0 <= in_flight st user_id ->
            let r := generate_image post (Some user_id) data cleanup_time current_time st up in
            r.1.1 = failure (PyStr msg) 400
            /\ r.2 = up
            /\ in_flight r.1.2 user_id = in_flight st user_id
            /\ times r.1.2 user_id
               = (times (cleanup_old_requests cleanup_time st) user_id ++ [current_time])%list).
  { intros user_id msg Hadm Hdata Hbad Hpos r. unfold r.
    pose proof (admitted_user_id_nonempty _ _ _ _ Hadm) as Hne.
    rewrite (generate_image_forwarded post _ _ _ _ _ _ Hadm Hdata).
    rewrite (forward_invalid post _ _ _ _ Hbad). cbn [fst snd handlers].
    split; [done|]. split; [done|].
    rewrite rate_limit_complete_in_flight, rate_limit_complete_times.
    rewrite check_rate_limit_in_flight, check_rate_limit_times by done.
    rewrite Hadm, bool_decide_eq_true_2 by done. cbn. split; [lia|done]. }
  split; [done|]. split; [exact Hrejected|]. split; [|split].
  - intros user_id p Hadm Hp Hlen Hpos.
    destruct (prompt_too_long data p Hp Hlen) as [Hdata Hbad].
    by apply Hrejected.
  - intros hdr qry job_id now a Hun.
    unfold POST_generate, AiService.require_auth_token. by rewrite Hun.
  - intros hdr qry job_id now a msg Hbad. apply internal_rejection_keeps_state.
    intros m. rewrite Hbad. discriminate.
Qed.

(** The amended C3 on the prompt of 500 letters of the counterexample. *)
Lemma C3_rejections_witness :
  let r := generate_image (post_generate Scenario.token Delivered Scenario.job1 5)
             (Some Scenario.alice) Scenario.long_prompt 5 5 (App.initial 0) AiService.initial in
  r.1.1 = failure (PyStr "Prompt too long") 400
  /\ r.2 = AiService.initial
  /\ in_flight r.1.2 Scenario.alice = in_flight (App.initial 0) Scenario.alice
  /\ times r.1.2 Scenario.alice
     = (times (cleanup_old_requests 5 (App.initial 0)) Scenario.alice ++ [5])%list.
Proof.
  destruct (C3_rejections_and_state (post_generate Scenario.token Delivered Scenario.job1 5)
              Scenario.token Scenario.long_prompt 5 5 (App.initial 0) AiService.initial)
    as (_ & _ & Htoo_long & _).
  apply (Htoo_long Scenario.alice (Scenario.repeat_char "a" 500)).
  - vm_compute. reflexivity.
  - reflexivity.
  - vm_compute. lia.
  - vm_compute. discriminate.
Defined.

(** Counterexample to C7 as stated: a prompt with a character outside the
    allowed set passes the validation of the public tier, is rejected by
    the internal tier, and the public tier answers 500; a prompt that is a
    number and a height that is infinite raise exceptions that the
    validation does not catch, and the answer is 500; and a request with a
    prompt of 500 characters from a user who has used up the window is
    answered 429. *)
Lemma C7_answers_other_than_400 :
  validate_request_data Scenario.tagged_prompt = Ret (true, "")
  /\ validate_input (<["user_id" := PyStr Scenario.alice]> Scenario.tagged_prompt)
     = Ret (false, "Prompt contains invalid characters")
  /\ status <$> respond Scenario.token (System.initial 0)
                  (Submit (Some Scenario.alice) Scenario.tagged_prompt 1 1 Delivered Scenario.job1 1)
     = Some 500
  /\ status <$> respond Scenario.token (System.initial 0)
                  (Submit (Some Scenario.alice) Scenario.numeric_prompt 1 1 Delivered Scenario.job1 1)
     = Some 500
  /\ status <$> respond Scenario.token (System.initial 0)
                  (Submit (Some Scenario.alice) Scenario.infinite_height 1 1 Delivered Scenario.job1 1)
     = Some 500
  /\ respond Scenario.token
       (run Scenario.token Scenario.upload_folder Scenario.cwd (System.initial 0)
          Scenario.three_submissions)
       (Submit (Some Scenario.alice) Scenario.long_prompt 4 4 Delivered Scenario.job1 4)
     = Some (failure (PyStr "Rate limit exceeded. Please wait 60 seconds between requests.") 429).
Proof. vm_compute. repeat split. Qed.

(** C7 (amended): a POST /generate on the public tier that has a session,
    is admitted by the rate limiter and carries a non-empty body whose
    prompt is a string and whose height, width and number of steps are not
    infinite floats, is answered 400 with a non-empty reason whenever the
    stripped prompt is empty or longer than 200 characters, or one of
    height, width and number of steps does not convert to an integer or
    lies outside its bounds. *)
Theorem C7_public_validation_answers_400 {U : Type} (post : pydict -> U -> result response * U)
    (user_id : string) (data : pydict) (p : string)
    (cleanup_time current_time : Z) (st : App.state) (up : U) :
  (check_rate_limit (Some user_id) cleanup_time current_time st).1.1 = true ->
  truthy (PyDict data) = true ->
  dict_get data "prompt" (PyStr "") = PyStr p ->
  ~ int_overflows (dict_get data "height" (PyInt 512)) ->
  ~ int_overflows (dict_get data "width" (PyInt 512)) ->
  ~ int_overflows (dict_get data "num_inference_steps" (PyInt 50)) ->
  ~ well_formed_for_public data ->
  exists msg, msg <> ""
    /\ (generate_image post (Some user_id) data cleanup_time current_time st up).1.1
       = failure (PyStr msg) 400.
Proof.
  intros Hadm Hdata Hp Hh Hw Hs Hbad.
  destruct (validate_request_data_cases data p Hp Hh Hw Hs)
    as [[_ Hok]|[(msg & Hmsg & Hval) _]]; [done|].
  exists msg. split; [done|].
  rewrite (generate_image_forwarded post _ _ _ _ _ _ Hadm Hdata).
  by rewrite (forward_invalid post _ _ _ _ Hval).
Qed.

(** The amended C7 on a request for an image 4096 pixels high. *)
Lemma C7_public_validation_witness :
  exists msg, msg <> ""
    /\ (generate_image (post_generate Scenario.token Delivered Scenario.job1 1)
          (Some Scenario.alice) Scenario.out_of_range 1 1 (App.initial 0) AiService.initial).1.1
       = failure (PyStr msg) 400.
Proof.
  apply (C7_public_validation_answers_400 _ _ _ "a cat").
  - by vm_compute.
  - by vm_compute.
  - by vm_compute.
  - intros [m Hm]. vm_compute in Hm. discriminate.
  - intros [m Hm]. vm_compute in Hm. discriminate.
  - intros [m Hm]. vm_compute in Hm. discriminate.
  - intros (_ & (z & Hz & Hle) & _). vm_compute in Hz. injection Hz as <-. lia.
Defined.

(** ** The slot of an admitted request and the fate of a failing job (C2) *)

Lemma process_job_try_keeps_jobs upload cwd job_id data w a e :
  (process_job_try upload cwd job_id data w a).1 = Raise e ->
  jobs (process_job_try upload cwd job_id data w a).2 = jobs a.
Proof.
  unfold process_job_try.
  destruct (_ ← get_pipeline w; _) as [[[image_path seed] fs']|e0]; [|done].
  destruct (PosixPath.relpath _ _ _); [|done].
  unfold update_job; cbn. by destruct (jobs a !! job_id).
Qed.

Lemma process_job_fault upload cwd job_id data w a e j :
  (process_job_try upload cwd job_id data w a).1 = Raise e ->
  jobs a !! job_id = Some j ->
  jobs (process_job upload cwd job_id data w a) !! job_id
  = Some (Job failed (j_started_at j) (j_data j) (j_result j) (Some (str_exn e))).
Proof.
  intros Hraise Hj. unfold process_job.
  pose proof (process_job_try_keeps_jobs _ _ _ _ _ _ _ Hraise) as Hjobs.
  destruct (process_job_try upload cwd job_id data w a) as [r a1]; cbn in *. subst r.
  unfold update_job. rewrite Hjobs, Hj. cbn. by rewrite lookup_insert_eq.
Qed.

Lemma pipeline_fault_raises upload cwd job_id data w a e prompt user_id :
  ImageUtils.w_pipeline w = None ->
  ImageUtils.w_pipe w = Raise e ->
  data !! "prompt" = Some prompt ->
  data !! "user_id" = Some (PyStr user_id) ->
  (process_job_try upload cwd job_id data w a).1 = Raise e.
Proof.
  intros Hpl Hpipe Hprompt Huser. unfold process_job_try, get_pipeline, dict_item.
  rewrite Hpl, Hprompt, Huser. cbn.
  unfold ImageUtils.process_image, ImageUtils.generate_image. by rewrite Hpipe.
Qed.

(** What does hold of the slot: a request that the rate limiter admits
    and that enters the [try] block of [generate_image] (its body is not
    empty) takes one slot and gives it back by one call of
    [rate_limit_complete], whatever the validation and the call to the
    internal tier do (answer, error answer, time-out, any exception): the
    in-flight counter of the user is back at its value when the request is
    answered.  A run of the worker thread never touches the rate limiter.
    When the [try] block of [process_job] ends with an exception, as it
    does when the pipeline call raises, the job is 'failed' and its error
    is the text of the exception. *)
Theorem slot_released_when_the_request_is_answered {U : Type}
    (post : pydict -> U -> result response * U) (user_id : string) (data : pydict)
    (cleanup_time current_time : Z) (st : App.state) (up : U) :
  (check_rate_limit (Some user_id) cleanup_time current_time st).1.1 = true ->
  truthy (PyDict data) = true ->
  0 <= in_flight st user_id ->
  let st1 := (check_rate_limit (Some user_id) cleanup_time current_time st).2 in
  let st' := (generate_image post (Some user_id) data cleanup_time current_time st up).1.2 in
  in_flight st1 user_id = in_flight st user_id + 1
  /\ st' = rate_limit_complete user_id st1
  /\ in_flight st' user_id = in_flight st user_id
  /\ (forall token upload cwd sys job_id w, web (step token upload cwd sys (Work job_id w)) = web sys)
  /\ (forall upload cwd job_id job_data w a e j,
        (process_job_try upload cwd job_id job_data w a).1 = Raise e ->
        jobs a !! job_id = Some j ->
        exists j', jobs (process_job upload cwd job_id job_data w a) !! job_id = Some j'
                   /\ j_status j' = failed /\ j_error j' = Some (str_exn e))
  /\ (forall upload cwd job_id job_data w a e prompt owner,
        ImageUtils.w_pipeline w = None ->
        ImageUtils.w_pipe w = Raise e ->
        job_data !! "prompt" = Some prompt ->
        job_data !! "user_id" = Some (PyStr owner) ->
        (process_job_try upload cwd job_id job_data w a).1 = Raise e).
Proof.
  intros Hadm Hdata Hpos st1 st'.
  pose proof (admitted_user_id_nonempty _ _ _ _ Hadm) as Hne.
  assert (Hst1 : in_flight st1 user_id = in_flight st user_id + 1).
  { unfold st1. rewrite check_rate_limit_in_flight by done.
    by rewrite Hadm, bool_decide_eq_true_2. }
  assert (Hst' : st' = rate_limit_complete user_id st1).
  { unfold st'. by rewrite (generate_image_forwarded post _ _ _ _ _ _ Hadm Hdata). }
  split; [done|]. split; [done|]. split.
  { rewrite Hst', rate_limit_complete_in_flight, bool_decide_eq_true_2, Hst1 by done. lia. }
  split; [done|]. split.
  - intros upload cwd job_id job_data w a e j Hraise Hj.
    eexists. split; [by apply process_job_fault|done].
  - intros. by eapply pipeline_fault_raises.
Qed.

(** The first request of a user gives its slot back. *)
Lemma slot_released_witness :
  let st := App.initial 0 in
  let st' := (generate_image (post_generate Scenario.token Delivered Scenario.job1 1)
                (Some Scenario.alice) Scenario.a_cat 1 1 st AiService.initial).1.2 in
  in_flight (check_rate_limit (Some Scenario.alice) 1 1 st).2 Scenario.alice = 1
  /\ st' = rate_limit_complete Scenario.alice (check_rate_limit (Some Scenario.alice) 1 1 st).2
  /\ in_flight st' Scenario.alice = 0.
Proof.
  destruct (slot_released_when_the_request_is_answered
              (post_generate Scenario.token Delivered Scenario.job1 1)
              Scenario.alice Scenario.a_cat 1 1 (App.initial 0) AiService.initial)
    as (Htaken & Hreleased & Hback & _).
  - vm_compute. reflexivity.
  - vm_compute. reflexivity.
  - vm_compute. discriminate.
  - split; [|split].
    + etransitivity; [exact Htaken|]. vm_compute. reflexivity.
    + exact Hreleased.
    + etransitivity; [exact Hback|]. vm_compute. reflexivity.
Defined.

(** An admitted request with an empty body returns before the [try]
    block, and its slot is not given back. *)
Lemma empty_body_keeps_the_slot :
  let r := generate_image (post_generate Scenario.token Delivered Scenario.job1 1)
             (Some Scenario.alice) ∅ 1 1 (App.initial 0) AiService.initial in
  r.1.1 = failure (PyStr "No data provided") 400
  /\ in_flight r.1.2 Scenario.alice = 1.
Proof. vm_compute. repeat split. Qed.

(** C2 at a failing input.  A user posts the empty JSON object twice.  The
    rate limiter admits both requests and each is answered 400 "No data
    provided" by the [return] that stands before the [try] block, so that
    the [finally] which is to give the slot back "always" is not reached:
    no job exists, the in-flight counter of the user is 2, and the valid
    request that follows is answered 429 "Too many concurrent jobs".  The
    slot that is given back is given back when the request is answered,
    not when the job ends: after a valid first request the job is
    'processing' and the counter is 0 already, and the worker run that
    fails, which leaves the job 'failed' with the text of its exception,
    finds nothing to release. *)
Theorem C2_empty_body_leaks_the_slot :
  let first := Submit (Some Scenario.alice) ∅ 1 1 Delivered Scenario.job1 1 in
  let second := Submit (Some Scenario.alice) ∅ 2 2 Delivered Scenario.job2 2 in
  let third := Submit (Some Scenario.alice) Scenario.a_cat 3 3 Delivered Scenario.job3 3 in
  let st1 := step Scenario.token Scenario.upload_folder Scenario.cwd (System.initial 0) first in
  let st2 := step Scenario.token Scenario.upload_folder Scenario.cwd st1 second in
  let valid := Submit (Some Scenario.alice) Scenario.a_cat 1 1 Delivered Scenario.job1 1 in
  let st := step Scenario.token Scenario.upload_folder Scenario.cwd (System.initial 0) valid in
  let st' := step Scenario.token Scenario.upload_folder Scenario.cwd st
               (Work Scenario.job1 Scenario.out_of_memory) in
  (respond Scenario.token (System.initial 0) first
   = Some (failure (PyStr "No data provided") 400)
   /\ respond Scenario.token st1 second = Some (failure (PyStr "No data provided") 400)
   /\ in_flight (web st1) Scenario.alice = 1
   /\ in_flight (web st2) Scenario.alice = 2
   /\ jobs (ai st2) = ∅
   /\ respond Scenario.token st2 third
      = Some (failure (PyStr "Too many concurrent jobs. Please wait for your current generations to complete.") 429))
  /\ (observed_status Scenario.job1 (ai st) = Some processing
      /\ in_flight (web st) Scenario.alice = 0
      /\ (j_status <$> jobs (ai st') !! Scenario.job1) = Some failed
      /\ (j_error <$> jobs (ai st') !! Scenario.job1) = Some (Some "CUDA out of memory")
      /\ in_flight (web st') Scenario.alice = 0).
Proof. vm_compute. repeat split. Qed.

(** ** Submission on the internal tier (C4) *)

(** Runs a hypothesis on the outcome of a chain of checks through the
    chain, one test or conversion at a time. *)
Ltac step_checks H :=
  repeat (first
    [ progress cbn [mbind result_bind] in H
    | match type of H with context [mbind _ ?c] => destruct c eqn:? end
    | match type of H with context [if ?b then _ else _] => destruct b eqn:? end
    | case_match ];
    try discriminate).

(** A request that [validate_input] accepts has a prompt and a user. *)
Lemma validate_input_accepts (data : pydict) (m : string) :
  validate_input data = Ret (true, m) ->
  m = "" /\ is_Some (data !! "prompt") /\ is_Some (data !! "user_id").
Proof.
  unfold validate_input, dict_get. intros H.
  destruct (data !! "prompt") as [prompt|] eqn:Hprompt; cbn in H; [|discriminate].
  destruct (data !! "user_id") as [user_id|] eqn:Huser; cbn [default] in H.
  - split; [|eauto]. clear Hprompt Huser. step_checks H; by simplify_eq.
  - exfalso. clear Hprompt. cbn [truthy negb] in H. step_checks H.
Qed.

Lemma truthy_dict_with_key (data : pydict) (k : string) :
  is_Some (data !! k) -> truthy (PyDict data) = true.
Proof.
  intros [v Hv]. cbn. apply negb_true_iff, Nat.eqb_neq. intros Hsize.
  apply map_size_empty_iff in Hsize. subst data. by rewrite lookup_empty in Hv.
Qed.

(** C4: for an authorized and valid request, POST /generate on the
    internal tier answers 200 with [success], the job identifier and the
    status 'processing'.  When it answers, the job is in the table as
    'processing', the worker thread of the job is started and has not run
    (it is the last of the pending threads; the artifact mapping and the
    files are as before), and the answer is a function of the job
    identifier alone: it is the same for every valid request, clock reading
    and state, so nothing that the generation does later is in it. *)
Theorem C4_generate_answers_before_the_worker_runs (token : string) (data : pydict)
    (auth_header auth_query : option string) (job_id : string) (now : Z) (a : AiService.state) :
  AiService.unauthorized token auth_header auth_query = false ->
  validate_input data = Ret (true, "") ->
  let r := POST_generate token data auth_header auth_query job_id now a in
  r.1 = jsonify {[ "success" := PyBool true; "job_id" := PyStr job_id;
                   "status" := PyStr "processing" ]} 200
  /\ jobs r.2 = <[job_id := Job processing now data None None]> (jobs a)
  /\ threads r.2 = (threads a ++ [(job_id, data)])%list
  /\ file_mapping r.2 = file_mapping a
  /\ AiService.fs r.2 = AiService.fs a
  /\ observed_status job_id r.2 = Some processing
  /\ (forall data' hdr' qry' now' a',
        AiService.unauthorized token hdr' qry' = false ->
        validate_input data' = Ret (true, "") ->
        (POST_generate token data' hdr' qry' job_id now' a').1 = r.1).
Proof.
  intros Hauth Hvalid r.
  assert (Hshape : forall data' hdr' qry' now' a',
            AiService.unauthorized token hdr' qry' = false ->
            validate_input data' = Ret (true, "") ->
            POST_generate token data' hdr' qry' job_id now' a'
            = (jsonify {[ "success" := PyBool true; "job_id" := PyStr job_id;
                          "status" := PyStr "processing" ]} 200,
               AiService.State (<[job_id := Job processing now' data' None None]> (jobs a'))
                 (file_mapping a') (threads a' ++ [(job_id, data')])%list (AiService.fs a'))).
  { intros data' hdr' qry' now' a' Hauth' Hvalid'.
    destruct (validate_input_accepts _ _ Hvalid') as (_ & Hprompt & Huser).
    unfold POST_generate, AiService.require_auth_token, generate. rewrite Hauth'.
    rewrite (truthy_dict_with_key _ _ Hprompt). unfold dict_contains.
    rewrite !bool_decide_eq_true_2 by done. cbn. by rewrite Hvalid'. }
  unfold r. rewrite (Hshape _ _ _ _ _ Hauth Hvalid). cbn.
  repeat split; try done.
  - unfold observed_status. cbn. by rewrite lookup_insert_eq.
  - intros data' hdr' qry' now' a' Hauth' Hvalid'.
    by rewrite (Hshape _ _ _ _ _ Hauth' Hvalid').
Qed.

(** C4 on the request for a cat. *)
Lemma C4_generate_witness :
  (POST_generate Scenario.token (<["user_id" := PyStr Scenario.alice]> Scenario.a_cat)
     (Some Scenario.token) None Scenario.job1 1 AiService.initial).1
  = jsonify {[ "success" := PyBool true; "job_id" := PyStr Scenario.job1;
               "status" := PyStr "processing" ]} 200.
Proof.
  apply (C4_generate_answers_before_the_worker_runs Scenario.token
           (<["user_id" := PyStr Scenario.alice]> Scenario.a_cat)
           (Some Scenario.token) None Scenario.job1 1 AiService.initial).
  - vm_compute. reflexivity.
  - vm_compute. reflexivity.
Defined.

(** ** Resolution of a public identifier (C9) *)

(** What [safe_join] returns lies below the directory: it is the directory
    joined with a relative path that does not climb out of it. *)
Lemma safe_join_under (directory filename path : string) :
  directory <> "" ->
  safe_join directory filename = Some path ->
  exists rel, path = PosixPath.join directory rel
              /\ PosixPath.isabs rel = false /\ rel <> ".." /\ startswith "../" rel = false.
Proof.
  intros Hdir. unfold safe_join.
  destruct (String.eqb_spec directory "") as [|_]; [done|].
  set (rel := if String.eqb filename "" then filename else PosixPath.normpath filename).
  destruct (PosixPath.isabs rel) eqn:Habs; [done|].
  destruct (String.eqb_spec rel "..") as [|Hpar]; [done|].
  destruct (startswith "../" rel) eqn:Hup; [done|]. cbn.
  intros [= <-]. by exists rel.
Qed.

(** Settles a fact about one character on each of the 256 characters. *)
Ltac each_char c := destruct c as [[] [] [] [] [] [] [] []]; vm_compute; try reflexivity; try discriminate.

Lemma lower_char_idem c : lower_char (lower_char c) = lower_char c.
Proof. each_char c. Qed.

Lemma lower_char_hex c : is_hex c = true -> is_hex (lower_char c) = true.
Proof. each_char c. Qed.

Lemma lower_char_dash c : Ascii.eqb (lower_char c) "-" = Ascii.eqb c "-".
Proof. each_char c. Qed.

Lemma string_map_lower_idem s :
  string_map lower_char (string_map lower_char s) = string_map lower_char s.
Proof. induction s as [|c s IH]; cbn; [done|]. by rewrite lower_char_idem, IH. Qed.

Lemma split_on_lower s :
  PosixPath.split_on "-" (string_map lower_char s)
  = map (string_map lower_char) (PosixPath.split_on "-" s).
Proof.
  induction s as [|c s IH]; [done|]. cbn [string_map PosixPath.split_on].
  rewrite lower_char_dash. destruct (Ascii.eqb c "-"); cbn; [by rewrite IH|].
  rewrite IH. by destruct (PosixPath.split_on "-" s).
Qed.

Lemma string_map_length f s : String.length (string_map f s) = String.length s.
Proof. induction s as [|c s IH]; cbn; [done|]. by rewrite IH. Qed.

Lemma hex_group_lower n s :
  hex_group is_hex n s = true -> hex_group is_hex n (string_map lower_char s) = true.
Proof.
  unfold hex_group. rewrite string_map_length.
  intros [Hlen Hall]%andb_true_iff. apply andb_true_iff. split; [done|].
  clear Hlen. induction s as [|c s IH]; [done|]. cbn in *.
  apply andb_true_iff in Hall as [Hc Hs]. by rewrite lower_char_hex, IH.
Qed.

(** The converter maps its own results to themselves: the identifier that
    the public tier forwards is the one that the internal tier looks up. *)
Lemma uuid_converter_canonical segment file_id :
  uuid_converter segment = Some file_id -> uuid_converter file_id = Some file_id.
Proof.
  unfold uuid_converter. destruct (uuid_shape is_hex segment) eqn:Hshape; [|done].
  intros [= <-]. rewrite string_map_lower_idem.
  assert (Hlow : uuid_shape is_hex (string_map lower_char segment) = true); [|by rewrite Hlow].
  unfold uuid_shape in *. rewrite split_on_lower.
  destruct (PosixPath.split_on "-" segment) as [|a [|b [|c [|d [|e [|? ?]]]]]]; try done.
  cbn [map]. rewrite !andb_true_iff in Hshape. destruct Hshape as ((((Ha & Hb) & Hc) & Hd) & He).
  by rewrite !hex_group_lower.
Qed.

(** A file content in an answer of [serve_image] is read at [safe_join] of
    the upload folder and the stored path. *)
Lemma serve_image_content upload cwd file_id a content :
  payload (AiService.serve_image upload cwd file_id a).1 = FileContent content ->
  exists stored path,
    file_mapping a !! file_id = Some stored
    /\ safe_join upload stored = Some path
    /\ Fs.read cwd path (AiService.fs a) = Some content.
Proof.
  unfold AiService.serve_image.
  destruct (file_mapping a !! file_id) as [stored|] eqn:Hmap; [|cbn; intros [=]].
  destruct (Fs.isfile _ _ _); cbn [negb]; [|cbn; intros [=]].
  destruct (safe_join upload stored) as [path|] eqn:Hsafe; [|cbn; intros [=]].
  destruct (Fs.read cwd path (AiService.fs a)) as [c|] eqn:Hread; [|cbn; intros [=]].
  cbn. intros [= <-]. by exists stored, path.
Qed.

(** A file content in an answer of the public tier comes from the internal
    tier, for the identifier of the URL in its canonical form. *)
Lemma proxy_content token upload cwd segment net hdr qry a content :
  payload (App.GET_output (System.get_output token upload cwd net) token segment hdr qry a).1
  = FileContent content ->
  exists file_id stored path,
    uuid_converter segment = Some file_id
    /\ file_mapping a !! file_id = Some stored
    /\ safe_join upload stored = Some path
    /\ Fs.read cwd path (AiService.fs a) = Some content.
Proof.
  unfold App.GET_output.
  destruct (uuid_converter segment) as [file_id|] eqn:Hconv; [|cbn; intros [=]].
  unfold App.require_auth_token. destruct (App.unauthorized token hdr qry); [cbn; intros [=]|].
  unfold App.serve_image, System.get_output.
  destruct net as [|e|e]; [|destruct e; cbn; intros [=]..]. cbn [fst snd].
  destruct (raise_for_status _); [|cbn; intros [=]]. cbn [fst payload].
  unfold AiService.GET_output. rewrite (uuid_converter_canonical _ _ Hconv).
  unfold AiService.require_auth_token.
  destruct (AiService.unauthorized token (Some token) None); [cbn; intros [=]|].
  intros (stored & path & ? & ? & ?)%serve_image_content. by exists file_id, stored, path.
Qed.

(** The artifact request on the internal tier, case by case. *)
Lemma serve_image_resolution (token upload cwd segment : string)
    (auth_header auth_query : option string) (a : AiService.state) :
  upload <> "" ->
  AiService.unauthorized token auth_header auth_query = false ->
  let r := AiService.GET_output token upload cwd segment auth_header auth_query a in
  (uuid_converter segment = None -> r = (Response 404 ErrorPage, []))
  /\ (forall file_id, uuid_converter segment = Some file_id ->
        file_mapping a !! file_id = None ->
        r = (jsonify {[ "error" := PyStr "Image not found" ]} 404, []))
  /\ (forall path, path ∈ r.2 ->
        exists file_id stored,
          uuid_converter segment = Some file_id
          /\ file_mapping a !! file_id = Some stored
          /\ (path = PosixPath.join upload stored \/ safe_join upload stored = Some path))
  /\ (forall content, payload r.1 = FileContent content ->
        exists file_id stored path rel,
          uuid_converter segment = Some file_id
          /\ file_mapping a !! file_id = Some stored
          /\ safe_join upload stored = Some path
          /\ Fs.read cwd path (AiService.fs a) = Some content
          /\ path = PosixPath.join upload rel
          /\ PosixPath.isabs rel = false /\ rel <> ".." /\ startswith "../" rel = false)
  /\ uuid_converter "../../etc/passwd" = None.
Proof.
  intros Hupload Hauth r. unfold r, AiService.GET_output.
  destruct (uuid_converter segment) as [file_id|] eqn:Hconv.
  2:{ repeat split; try done.
      - intros path Hin. by apply elem_of_nil in Hin. }
  unfold AiService.require_auth_token. rewrite Hauth.
  unfold AiService.serve_image.
  destruct (file_mapping a !! file_id) as [stored|] eqn:Hmap.
  2:{ repeat split; try done.
      - intros path Hin. by apply elem_of_nil in Hin. }
  split; [done|]. split; [intros ? [= <-] ?; congruence|].
  destruct (Fs.isfile cwd (PosixPath.join upload stored) (AiService.fs a)); cbn [negb].
  2:{ repeat split; try done.
      intros path Hin. apply list_elem_of_singleton in Hin as ->.
      exists file_id, stored. eauto. }
  destruct (safe_join upload stored) as [path|] eqn:Hsafe.
  2:{ repeat split; try done.
      intros path Hin. apply list_elem_of_singleton in Hin as ->.
      exists file_id, stored. eauto. }
  assert (Htouched : forall p, p ∈ [PosixPath.join upload stored; path] ->
            exists file_id0 stored0,
              Some file_id = Some file_id0
              /\ file_mapping a !! file_id0 = Some stored0
              /\ (p = PosixPath.join upload stored0 \/ safe_join upload stored0 = Some p)).
  { intros p Hin. exists file_id, stored. split; [done|]. split; [done|].
    apply elem_of_cons in Hin as [->|Hin]; [by left|].
    apply list_elem_of_singleton in Hin as ->. by right. }
  destruct (Fs.read cwd path (AiService.fs a)) as [content|] eqn:Hread.
  - split; [exact Htouched|]. split; [|done].
    intros content' [= <-].
    destruct (safe_join_under _ _ _ Hupload Hsafe) as (rel & ? & ? & ? & ?).
    exists file_id, stored, path, rel. repeat split; done.
  - split; [exact Htouched|]. split; [|done]. intros content' [=].
Qed.

(** ** Where the stored paths point *)

Section Paths.

Lemma append_nil_l (s : string) : "" +:+ s = s.
Proof. reflexivity. Qed.

Lemma append_cons (c : ascii) (a b : string) : String c a +:+ b = String c (a +:+ b).
Proof. reflexivity. Qed.

Lemma split_on_nonempty c s : PosixPath.split_on c s <> [].
Proof.
  destruct s as [|d s]; cbn [PosixPath.split_on]; [done|].
  destruct (Ascii.eqb d c); [done|]. by destruct (PosixPath.split_on c s).
Qed.

Lemma split_on_app c a b :
  PosixPath.split_on c (a +:+ String c b)
  = (PosixPath.split_on c a ++ PosixPath.split_on c b)%list.
Proof.
  induction a as [|d a IH]; [rewrite append_nil_l|rewrite append_cons];
    cbn [PosixPath.split_on].
  - by rewrite Ascii.eqb_refl.
  - destruct (Ascii.eqb d c); [by rewrite IH|].
    rewrite IH. pose proof (split_on_nonempty c a).
    by destruct (PosixPath.split_on c a).
Qed.

Lemma split_on_no_slash s : no_slash s = true -> PosixPath.split_on "/" s = [s].
Proof.
  induction s as [|d s IH]; cbn [PosixPath.split_on no_slash string_forall]; [done|].
  intros [Hd Hs]%andb_true_iff. apply negb_true_iff in Hd.
  unfold no_slash in IH. rewrite Hd, IH; done.
Qed.

Lemma no_slash_app a b : no_slash (a +:+ b) = no_slash a && no_slash b.
Proof.
  induction a as [|d a IH]; [done|]. rewrite append_cons. cbn [no_slash string_forall].
  unfold no_slash in IH. by rewrite IH, andb_assoc.
Qed.

Lemma append_assoc (a b c : string) : (a +:+ b) +:+ c = a +:+ (b +:+ c).
Proof. induction a as [|d a IH]; [done|]. rewrite !append_cons. by rewrite IH. Qed.

Lemma append_nil_r (a : string) : a +:+ "" = a.
Proof. induction a as [|d a IH]; [done|]. rewrite append_cons. by rewrite IH. Qed.

Lemma prefix_nil s : String.prefix "" s = true.
Proof. by destruct s. Qed.

Lemma startswith_slash_app a b :
  startswith "/" a = true -> startswith "/" (a +:+ b) = true.
Proof.
  destruct a as [|d a]; [done|]. rewrite append_cons. unfold startswith. cbn [String.prefix].
  destruct (Ascii.ascii_dec "/"%char d); [|done]. by rewrite !prefix_nil.
Qed.

Lemma component_not_abs s : component s -> startswith "/" s = false.
Proof.
  intros (Hs & Hne & _). destruct s as [|d s]; [done|].
  unfold startswith, no_slash in *. cbn [String.prefix string_forall] in *.
  apply andb_true_iff in Hs as [Hd _]. apply negb_true_iff in Hd.
  destruct (Ascii.ascii_dec "/"%char d) as [<-|]; [|done]. by rewrite Ascii.eqb_refl in Hd.
Qed.

Lemma no_slash_not_endswith s : no_slash s = true -> endswith_char "/" s = false.
Proof.
  induction s as [|d s IH]; [done|]. cbn [no_slash string_forall endswith_char].
  intros [Hd Hs]%andb_true_iff.
  destruct s as [|d' s']; [|by apply IH].
  apply negb_true_iff in Hd. by rewrite Ascii.eqb_sym.
Qed.

Lemma endswith_app c a b : b <> "" -> endswith_char c (a +:+ b) = endswith_char c b.
Proof.
  intros Hb. induction a as [|d a IH]; [done|]. rewrite append_cons. cbn [endswith_char].
  destruct (a +:+ b) eqn:Hab; [|done].
  destruct a; [by rewrite append_nil_l in Hab|by rewrite append_cons in Hab].
Qed.

Lemma join_component a s :
  a <> "" -> endswith_char "/" a = false -> component s ->
  PosixPath.join a s = a +:+ "/" +:+ s.
Proof.
  intros Ha Hend Hs. unfold PosixPath.join.
  rewrite (component_not_abs s Hs), Hend.
  destruct (String.eqb_spec a ""); done.
Qed.


Lemma initial_slashes_app upload x p :
  startswith "/" upload = true -> endswith_char "/" upload = false ->
  p = "//" \/ p = "///" ->
  startswith p (upload +:+ x) = startswith p upload.
Proof.
  intros Habs Hend Hp. unfold startswith in *.
  destruct upload as [|c1 [|c2 [|c3 u]]]; [done| | |].
  - cbn [String.prefix] in Habs. cbn [endswith_char] in Hend.
    destruct (Ascii.ascii_dec "/"%char c1) as [<-|]; [|done].
    by rewrite Ascii.eqb_refl in Hend.
  - cbn [String.prefix] in Habs. cbn [endswith_char] in Hend.
    destruct (Ascii.ascii_dec "/"%char c1) as [<-|]; [|done].
    rewrite !append_cons. destruct Hp as [-> | ->]; cbn [String.prefix];
      destruct (Ascii.ascii_dec "/"%char "/"%char); try done;
      destruct (Ascii.ascii_dec "/"%char c2) as [<-|]; try done;
      by rewrite Ascii.eqb_refl in Hend.
  - rewrite !append_cons. destruct Hp as [-> | ->]; cbn [String.prefix];
      destruct (Ascii.ascii_dec "/"%char c1); try done;
      destruct (Ascii.ascii_dec "/"%char c2); try done;
      try (by rewrite !prefix_nil);
      destruct (Ascii.ascii_dec "/"%char c3); try done; by rewrite !prefix_nil.
Qed.

Lemma concat_sep_snoc l x :
  l <> [] -> PosixPath.concat_sep (l ++ [x]) = PosixPath.concat_sep l +:+ "/" +:+ x.
Proof.
  induction l as [|y l IH]; [done|]. intros _.
  destruct l as [|z l]; [done|].
  change (PosixPath.concat_sep ((y :: z :: l) ++ [x]))
    with (y +:+ "/" +:+ PosixPath.concat_sep ((z :: l) ++ [x])).
  rewrite IH by done.
  change (PosixPath.concat_sep (y :: z :: l)) with (y +:+ "/" +:+ PosixPath.concat_sep (z :: l)).
  by rewrite !append_assoc.
Qed.

Lemma norm_push_component absolute stack s :
  component s -> PosixPath.norm_push absolute stack s = s :: stack.
Proof.
  intros (_ & H1 & H2 & H3). unfold PosixPath.norm_push.
  destruct (String.eqb_spec s ""); [done|]. destruct (String.eqb_spec s "."); [done|].
  cbn. by destruct (String.eqb_spec s "..").
Qed.

Lemma component_nonempty s : component s -> PosixPath.nonempty s = true.
Proof. intros (_ & H & _). unfold PosixPath.nonempty. by destruct (String.eqb_spec s ""). Qed.

Lemma split_below upload dir file :
  component dir -> component file ->
  PosixPath.split_on "/" (upload +:+ "/" +:+ dir +:+ "/" +:+ file)
  = (PosixPath.split_on "/" upload ++ [dir; file])%list.
Proof.
  intros Hdir Hfile.
  change (upload +:+ "/" +:+ dir +:+ "/" +:+ file)
    with (upload +:+ String "/" (dir +:+ String "/" file)).
  rewrite !split_on_app.
  rewrite (split_on_no_slash dir) by apply Hdir.
  rewrite (split_on_no_slash file) by apply Hfile. done.
Qed.

Lemma normpath_below upload dir file :
  normal_root upload -> component dir -> component file ->
  PosixPath.normpath (upload +:+ "/" +:+ dir +:+ "/" +:+ file)
  = upload +:+ "/" +:+ dir +:+ "/" +:+ file.
Proof.
  intros (Habs & Hend & Hnorm) Hdir Hfile.
  pose proof (split_below upload dir file Hdir Hfile) as Hsplit.
  set (P := upload +:+ "/" +:+ dir +:+ "/" +:+ file) in *.
  assert (HP : String.eqb P "" = false).
  { unfold P. destruct upload; [done|]. by rewrite append_cons. }
  assert (Hu : String.eqb upload "" = false) by (by destruct upload).
  assert (HabsP : startswith "/" P = true) by (by apply startswith_slash_app).
  assert (H2 : startswith "//" P = startswith "//" upload)
    by (apply initial_slashes_app; auto).
  assert (H3 : startswith "///" P = startswith "///" upload)
    by (apply initial_slashes_app; auto).
  unfold PosixPath.normpath in *. cbv zeta in *.
  rewrite HP, HabsP, H2, H3, Hsplit. rewrite Hu, Habs in Hnorm. cbn [negb] in *.
  set (initial := if startswith "//" upload && negb (startswith "///" upload) then "//" else "/") in *.
  assert (Hinit : String.eqb initial "" = false)
    by (unfold initial; by destruct (_ && _)).
  rewrite Hinit in *. cbn [negb] in *.
  rewrite fold_left_app. cbn [fold_left].
  set (S := fold_left (PosixPath.norm_push true) (PosixPath.split_on "/" upload) []) in *.
  rewrite (norm_push_component _ _ dir Hdir), (norm_push_component _ _ file Hfile).
  cbn [rev].
  assert (Hcons : forall x, String.eqb (initial +:+ x) "" = false).
  { intros x. unfold initial. by destruct (_ && _). }
  rewrite Hcons in *.
  assert (HS : rev S <> []).
  { intros HS. rewrite HS in Hnorm. cbn [PosixPath.concat_sep] in Hnorm.
    rewrite append_nil_r in Hnorm. rewrite <- Hnorm in Hend.
    unfold initial in Hend. by destruct (_ && _). }
  rewrite concat_sep_snoc by (by destruct (rev S)).
  rewrite concat_sep_snoc by done.
  unfold P. rewrite <- Hnorm at 1. by rewrite !append_assoc.
Qed.


Lemma commonprefix_len_app l r : PosixPath.commonprefix_len l (l ++ r) = length l.
Proof. induction l as [|x l IH]; [by destruct r|]. cbn. by rewrite String.eqb_refl, IH. Qed.

Lemma below_nonempty upload dir file :
  String.eqb (upload +:+ "/" +:+ dir +:+ "/" +:+ file) "" = false.
Proof. destruct upload; [done|]. by rewrite append_cons. Qed.

Lemma join_below upload dir file :
  normal_root upload -> component dir -> component file ->
  PosixPath.join (PosixPath.join upload dir) file = upload +:+ "/" +:+ dir +:+ "/" +:+ file.
Proof.
  intros (Habs & Hend & _) Hdir Hfile.
  assert (Hu : upload <> "") by (by destruct upload).
  rewrite (join_component upload dir) by done.
  rewrite join_component; [by rewrite !append_assoc| |
    |done].
  - destruct upload; [done|]. by rewrite append_cons.
  - rewrite endswith_app.
    + change ("/" +:+ dir) with (String "/" dir). cbn [endswith_char].
      destruct Hdir as (Hns & Hne & _). destruct dir; [done|].
      by apply no_slash_not_endswith.
    + done.
Qed.

Lemma relpath_below cwd upload dir file :
  normal_root upload -> component dir -> component file ->
  PosixPath.relpath cwd (PosixPath.join (PosixPath.join upload dir) file) upload
  = Ret (dir +:+ "/" +:+ file).
Proof.
  intros Hroot Hdir Hfile. rewrite join_below by done.
  pose proof Hroot as (Habs & Hend & Hnorm).
  unfold PosixPath.relpath. rewrite below_nonempty.
  unfold PosixPath.abspath, PosixPath.isabs.
  rewrite (startswith_slash_app upload _ Habs), Habs.
  rewrite normpath_below by done. rewrite Hnorm, split_below by done.
  rewrite filter_app.
  set (L := filter (fun x => Is_true (PosixPath.nonempty x)) (PosixPath.split_on "/" upload)).
  assert (Hrest : filter (fun x => Is_true (PosixPath.nonempty x)) [dir; file] = [dir; file]).
  { rewrite !filter_cons, filter_nil.
    rewrite !decide_True; [done|..]; apply Is_true_true; by apply component_nonempty. }
  rewrite Hrest. cbv zeta. rewrite commonprefix_len_app, Nat.sub_diag, drop_app_length.
  cbn [replicate app fold_left].
  f_equal. apply join_component; [by destruct Hdir as (_ & ? & _)| |done].
  apply no_slash_not_endswith, Hdir.
Qed.

Lemma startswith_component p s x :
  s <> "" -> String.length p = 1%nat ->
  startswith p (s +:+ x) = startswith p s.
Proof.
  intros Hs Hp. destruct p as [|c [|? ?]]; try done.
  destruct s as [|d s]; [done|]. rewrite append_cons. unfold startswith. cbn [String.prefix].
  destruct (Ascii.ascii_dec c d); [|done]. by rewrite !prefix_nil.
Qed.

Lemma no_parent_prefix dir x :
  component dir -> startswith "../" (dir +:+ "/" +:+ x) = false.
Proof.
  intros (Hns & Hne & Hdot & Hdots). unfold startswith, no_slash in *.
  change ("/" +:+ x) with (String "/" x).
  destruct dir as [|c1 [|c2 [|c3 dir]]]; [done| | |];
    rewrite !append_cons, ?append_nil_l; cbn [String.prefix string_forall] in *.
  - destruct (Ascii.ascii_dec "."%char c1); [|done].
    by destruct (Ascii.ascii_dec "."%char "/"%char).
  - destruct (Ascii.ascii_dec "."%char c1) as [<-|]; [|done].
    destruct (Ascii.ascii_dec "."%char c2) as [<-|]; [|done]. by destruct Hdots.
  - destruct (Ascii.ascii_dec "."%char c1); [|done].
    destruct (Ascii.ascii_dec "."%char c2); [|done].
    destruct (Ascii.ascii_dec "/"%char c3) as [<-|]; [|done].
    rewrite Ascii.eqb_refl in Hns. cbn [negb] in Hns. by rewrite !andb_false_r in Hns.
Qed.

Lemma normpath_relative dir file :
  component dir -> component file ->
  PosixPath.normpath (dir +:+ "/" +:+ file) = dir +:+ "/" +:+ file.
Proof.
  intros Hdir Hfile.
  assert (Hne : String.eqb (dir +:+ "/" +:+ file) "" = false).
  { destruct Hdir as (_ & ? & _). destruct dir; [done|]. by rewrite append_cons. }
  assert (Hrel : startswith "/" (dir +:+ "/" +:+ file) = false).
  { rewrite startswith_component; [by apply component_not_abs|by destruct Hdir as (_ & ? & _)|done]. }
  assert (Hcomps : rev (fold_left (PosixPath.norm_push false)
                          (PosixPath.split_on "/" (dir +:+ "/" +:+ file)) []) = [dir; file]).
  { change (dir +:+ "/" +:+ file) with (dir +:+ String "/" file).
    rewrite split_on_app, (split_on_no_slash dir), (split_on_no_slash file)
      by (apply Hdir || apply Hfile).
    cbn [app fold_left].
    by rewrite (norm_push_component _ _ dir Hdir), (norm_push_component _ _ file Hfile). }
  unfold PosixPath.normpath. cbv zeta. rewrite Hne, Hrel. cbn [negb String.eqb].
  rewrite Hcomps. cbn [PosixPath.concat_sep]. by rewrite append_nil_l, Hne.
Qed.

Lemma safe_join_below upload dir file :
  normal_root upload -> component dir -> component file ->
  safe_join upload (dir +:+ "/" +:+ file)
  = Some (upload +:+ "/" +:+ dir +:+ "/" +:+ file)
  /\ PosixPath.join upload (dir +:+ "/" +:+ file) = upload +:+ "/" +:+ dir +:+ "/" +:+ file.
Proof.
  intros (Habs & Hend & _) Hdir Hfile.
  assert (Hu : String.eqb upload "" = false) by (by destruct upload).
  assert (Hne : String.eqb (dir +:+ "/" +:+ file) "" = false).
  { destruct Hdir as (_ & ? & _). destruct dir; [done|]. by rewrite append_cons. }
  assert (Hrel : startswith "/" (dir +:+ "/" +:+ file) = false).
  { rewrite startswith_component; [by apply component_not_abs|by destruct Hdir as (_ & ? & _)|done]. }
  assert (Hjoin : PosixPath.join upload (dir +:+ "/" +:+ file)
                  = upload +:+ "/" +:+ dir +:+ "/" +:+ file).
  { unfold PosixPath.join. by rewrite Hrel, Hu, Hend. }
  split; [|done].
  unfold safe_join. rewrite Hu, Hne, normpath_relative by done.
  unfold PosixPath.isabs. rewrite Hrel, no_parent_prefix by done.
  destruct (String.eqb_spec (dir +:+ "/" +:+ file) "..") as [Heq|_]; [|by rewrite Hjoin].
  exfalso. assert (Hns : no_slash (dir +:+ "/" +:+ file) = true) by (by rewrite Heq).
  rewrite !no_slash_app in Hns. cbn in Hns. by rewrite andb_false_r in Hns.
Qed.


Lemma string_forall_impl (P Q : ascii -> bool) s :
  (forall c, P c = true -> Q c = true) -> string_forall P s = true -> string_forall Q s = true.
Proof.
  intros HPQ. induction s as [|c s IH]; [done|]. cbn.
  intros [Hc Hs]%andb_true_iff. by rewrite (HPQ c Hc), IH.
Qed.

Lemma split_forall (P : ascii -> bool) c s :
  P c = true ->
  Forall (fun w => string_forall P w = true) (PosixPath.split_on c s) ->
  string_forall P s = true.
Proof.
  intros Hc. induction s as [|d s IH]; [done|]. cbn [PosixPath.split_on string_forall].
  destruct (Ascii.eqb_spec d c) as [->|Hne].
  - intros [_ Hrest]%Forall_cons. by rewrite Hc, IH.
  - pose proof (split_on_nonempty c s). destruct (PosixPath.split_on c s) as [|w ws]; [done|].
    intros [Hw Hrest]%Forall_cons. cbn in Hw. apply andb_true_iff in Hw as [Hd Hw].
    rewrite Hd, IH; [done|]. by apply Forall_cons.
Qed.

Lemma hex_not_slash c : is_hex_lower c = true -> negb (Ascii.eqb c "/") = true.
Proof. each_char c. Qed.

Lemma uuid_shape_no_slash s : uuid_shape is_hex_lower s = true -> no_slash s = true.
Proof.
  unfold uuid_shape, no_slash. intros Hshape. apply (split_forall _ "-"%char); [done|].
  destruct (PosixPath.split_on "-" s) as [|a [|b [|c [|d [|e [|? ?]]]]]]; try done.
  rewrite !andb_true_iff in Hshape. destruct Hshape as ((((Ha & Hb) & Hc) & Hd) & He).
  unfold hex_group in *. rewrite !andb_true_iff in *.
  rewrite !Forall_cons. repeat split; try done;
    (eapply string_forall_impl; [apply hex_not_slash|tauto]).
Qed.

Lemma endswith_drop_last c s :
  endswith_char c s = true -> s = drop_last s +:+ String c "".
Proof.
  induction s as [|d s IH]; [done|]. cbn [endswith_char drop_last].
  destruct s as [|d' s'].
  - intros ->%Ascii.eqb_eq. done.
  - intros H. rewrite append_cons. by rewrite <- IH.
Qed.

Lemma user_id_component (uid : string) :
  re_anchored (uuid_shape is_hex_lower) uid = true -> component uid.
Proof.
  intros Hmatch. split; [|repeat split; intros ->; by vm_compute in Hmatch].
  unfold re_anchored in Hmatch. apply orb_true_iff in Hmatch as [Hshape|Hnl].
  - by apply uuid_shape_no_slash.
  - apply andb_true_iff in Hnl as [Hend Hshape].
    rewrite (endswith_drop_last _ _ Hend), no_slash_app.
    by rewrite (uuid_shape_no_slash _ Hshape).
Qed.

Lemma digit_char_not_slash d : negb (Ascii.eqb (ImageUtils.digit_char d) "/") = true.
Proof.
  unfold ImageUtils.digit_char.
  pose proof (Z.mod_pos_bound d 10 ltac:(lia)) as Hk. set (k := d mod 10) in *.
  assert (Hcases : k = 0 \/ k = 1 \/ k = 2 \/ k = 3 \/ k = 4 \/ k = 5 \/ k = 6 \/ k = 7
                   \/ k = 8 \/ k = 9) by lia.
  clearbody k. by destruct Hcases as [->|[->|[->|[->|[->|[->|[->|[->|[->| ->]]]]]]]]].
Qed.

Lemma strftime_no_slash now : no_slash (ImageUtils.strftime now) = true.
Proof.
  unfold ImageUtils.strftime, ImageUtils.pad4, ImageUtils.pad2.
  rewrite !no_slash_app. unfold no_slash. cbn [string_forall].
  by rewrite !digit_char_not_slash.
Qed.

Lemma sanitized_not_slash c :
  negb (ImageUtils.invalid_char c) = true ->
  negb (Ascii.eqb (if code c =? 32 then "_"%char else c) "/") = true.
Proof. each_char c. Qed.

Lemma sanitized_no_slash p :
  no_slash (ImageUtils.replace_spaces (ImageUtils.re_sub_invalid p)) = true.
Proof.
  unfold no_slash, ImageUtils.replace_spaces, ImageUtils.re_sub_invalid.
  induction p as [|c p IH]; [done|]. cbn [string_filter].
  destruct (negb (ImageUtils.invalid_char c)) eqn:Hc; [|done].
  cbn [string_map string_forall]. by rewrite (sanitized_not_slash c Hc), IH.
Qed.

Lemma length_append (a b : string) :
  String.length (a +:+ b) = (String.length a + String.length b)%nat.
Proof. induction a as [|c a IH]; [done|]. rewrite append_cons. cbn. by rewrite IH. Qed.

Lemma filename_component p now :
  component (ImageUtils.replace_spaces (ImageUtils.re_sub_invalid (prefix 10 p))
             +:+ "-" +:+ ImageUtils.strftime now +:+ ".png").
Proof.
  split.
  - rewrite !no_slash_app, sanitized_no_slash, strftime_no_slash. done.
  - assert (Hlen : (5 <= String.length
                           (ImageUtils.replace_spaces (ImageUtils.re_sub_invalid (prefix 10 p))
                            +:+ "-" +:+ ImageUtils.strftime now +:+ ".png"))%nat).
    { rewrite !length_append. cbn. lia. }
    repeat split; intros Heq; rewrite Heq in Hlen; cbn in Hlen; lia.
Qed.

End Paths.

(** A request that [validate_input] accepts has a prompt that is a string
    and a user identifier that is a string of the shape of a UUID. *)
Lemma validate_input_strings (data : pydict) (m : string) :
  validate_input data = Ret (true, m) ->
  exists p uid, data !! "prompt" = Some (PyStr p) /\ data !! "user_id" = Some (PyStr uid)
                /\ re_anchored (uuid_shape is_hex_lower) uid = true.
Proof.
  unfold validate_input, dict_get. intros H.
  destruct (data !! "prompt") as [prompt|] eqn:Hprompt; cbn in H; [|discriminate].
  destruct prompt as [| | | |p| |]; try (cbn in H; discriminate).
  destruct (data !! "user_id") as [user_id|] eqn:Huser; cbn [default] in H.
  - destruct user_id as [| |z|f|uid|l|d].
    + exfalso. clear Hprompt Huser. cbn [user_id_match truthy] in H. step_checks H.
    + exfalso. clear Hprompt Huser. cbn [user_id_match truthy] in H. step_checks H.
    + exfalso. clear Hprompt Huser. cbn [user_id_match truthy] in H. step_checks H.
    + exfalso. clear Hprompt Huser. cbn [user_id_match truthy] in H. step_checks H.
    + exists p, uid. split; [done|]. split; [done|].
      destruct (re_anchored (uuid_shape is_hex_lower) uid) eqn:Hm; [done|].
      exfalso. clear Hprompt Huser. cbn [user_id_match id] in H. rewrite Hm in H. step_checks H.
    + exfalso. clear Hprompt Huser. cbn [user_id_match truthy] in H. step_checks H.
    + exfalso. clear Hprompt Huser. cbn [user_id_match truthy] in H. step_checks H.
  - exfalso. clear Hprompt. cbn [truthy negb] in H. step_checks H.
Qed.

Lemma take_thread_spec job_id (l : list (string * pydict)) data rest :
  take_thread job_id l = Some (data, rest) ->
  (job_id, data) ∈ l /\ (NoDup l.*1 -> (job_id ∉ rest.*1) /\ NoDup rest.*1)
  /\ (forall x, x ∈ rest -> x ∈ l).
Proof.
  revert data rest. induction l as [|[j d] l IH]; intros data rest; cbn; [done|].
  destruct (String.eqb_spec j job_id) as [->|Hne].
  - intros [= <- <-]. split; [apply elem_of_cons; by left|].
    split; [by intros [? ?]%NoDup_cons|]. intros x Hx. apply elem_of_cons. by right.
  - destruct (take_thread job_id l) as [[d' rest']|] eqn:Htake; [|done].
    intros [= <- <-]. destruct (IH _ _ eq_refl) as (Hin & Hnd & Hall).
    split; [apply elem_of_cons; by right|]. split.
    + intros [Hj Hl]%NoDup_cons. destruct (Hnd Hl) as [Hnot Hrest]. cbn. split.
      * rewrite not_elem_of_cons. by split.
      * apply NoDup_cons. split; [|done]. intros Hjr. apply Hj.
        apply list_elem_of_fmap in Hjr as ([j' d''] & -> & Hx).
        apply list_elem_of_fmap. exists (j', d''). split; [done|]. by apply Hall.
    + intros x [->|Hx]%elem_of_cons; apply elem_of_cons; [by left|right; by apply Hall].
Qed.

Section StoredPaths.
Variables token upload cwd : string.
Hypothesis Hroot : normal_root upload.

Lemma process_job_mapping job_id data w a :
  validate_input data = Ret (true, "") ->
  threads (process_job upload cwd job_id data w a) = threads a
  /\ (file_mapping (process_job upload cwd job_id data w a) = file_mapping a
      \/ exists dir file, component dir /\ component file
           /\ file_mapping (process_job upload cwd job_id data w a)
              = <[job_id := dir +:+ "/" +:+ file]> (file_mapping a)).
Proof.
  intros (p & uid & Hp & Hu & Hmatch)%validate_input_strings.
  apply user_id_component in Hmatch.
  unfold process_job, process_job_try, get_pipeline, dict_item, update_job.
  rewrite Hp, Hu. cbn [mbind result_bind ensure_user_directory].
  destruct (ImageUtils.w_pipeline w); cbn [mbind result_bind].
  { destruct (jobs a !! job_id); cbn; auto. }
  unfold ImageUtils.process_image, ImageUtils.generate_image, ImageUtils.save_image,
    ImageUtils.setup_output_directory.
  destruct (ImageUtils.w_pipe w); cbn [mbind result_bind].
  2:{ destruct (jobs a !! job_id); cbn; auto. }
  destruct (ImageUtils.w_disk w); cbn [mbind result_bind].
  { destruct (jobs a !! job_id); cbn; auto. }
  cbv zeta.
  rewrite (relpath_below cwd upload uid _ Hroot Hmatch (filename_component p _)).
  cbn [jobs file_mapping threads fs].
  destruct (jobs a !! job_id) eqn:Hj; cbn [jobs file_mapping threads fs];
    rewrite ?Hj; cbn [jobs file_mapping threads fs];
    (split; [reflexivity|]); right; exists uid; eexists;
    (split; [exact Hmatch|]); (split; [apply (filename_component p)|reflexivity]).
Qed.

Lemma stored_paths_inv_initial : stored_paths_inv AiService.initial.
Proof.
  split; cbn.
  - intros job_id stored Hin. by rewrite lookup_empty in Hin.
  - intros job_id data Hin. by apply elem_of_nil in Hin.
Qed.

Lemma generate_stored_paths data job_id now a :
  stored_paths_inv a -> stored_paths_inv (generate data job_id now a).2.
Proof.
  intros [Hmap Hthreads]. unfold generate. destruct (_ || _); [done|].
  destruct (validate_input data) as [[[] m]|e] eqn:Hvalid; [|done..].
  destruct (validate_input_accepts _ _ Hvalid) as [-> _].
  split; cbn; [exact Hmap|].
  intros j d [Hin|Hin]%elem_of_app; [by eapply Hthreads|].
  by apply list_elem_of_singleton in Hin as [= -> ->].
Qed.

Lemma POST_generate_stored_paths data hdr qry job_id now a :
  stored_paths_inv a -> stored_paths_inv (POST_generate token data hdr qry job_id now a).2.
Proof.
  intros Hinv. unfold POST_generate, AiService.require_auth_token.
  destruct (AiService.unauthorized token hdr qry); [done|]. by apply generate_stored_paths.
Qed.

Lemma forward_stored_paths net user_id data job_id now a :
  stored_paths_inv a ->
  stored_paths_inv (forward (post_generate token net job_id now) user_id data a).2.
Proof.
  intros Hinv. unfold forward. destruct (validate_request_data data) as [[[] m]|e]; [|done..].
  set (data' := <["user_id" := PyStr user_id]> data).
  unfold post_generate.
  pose proof (POST_generate_stored_paths data' (Some token) None job_id now a Hinv) as H.
  destruct net, (POST_generate token data' (Some token) None job_id now a) as [r a'];
    cbn in *; try done; by repeat case_match.
Qed.

Lemma run_thread_stored_paths job_id w a :
  stored_paths_inv a -> stored_paths_inv (run_thread upload cwd job_id w a).
Proof.
  intros [Hmap Hthreads]. unfold run_thread.
  destruct (take_thread job_id (threads a)) as [[data rest]|] eqn:Htake; [|done].
  destruct (take_thread_spec _ _ _ _ Htake) as (Hin & _ & Hall).
  set (a0 := AiService.State (jobs a) (file_mapping a) rest (AiService.fs a)).
  destruct (process_job_mapping job_id data w a0 (Hthreads _ _ Hin)) as [Hthr Hfm].
  split.
  - intros i stored. destruct Hfm as [->|(dir & file & Hdir & Hfile & ->)]; cbn.
    + apply Hmap.
    + destruct (decide (job_id = i)) as [->|Hne].
      * rewrite lookup_insert_eq. intros [= <-]. by exists dir, file.
      * rewrite lookup_insert_ne by done. apply Hmap.
  - rewrite Hthr. cbn. intros i d Hi. eapply Hthreads, Hall, Hi.
Qed.

Lemma step_stored_paths st ev :
  stored_paths_inv (ai st) -> stored_paths_inv (ai (step token upload cwd st ev)).
Proof.
  intros Hinv. destruct ev as [session data tc t net job_id now|data hdr qry job_id now|job_id w].
  - unfold step, generate_image. destruct session as [user_id|]; [|done].
    destruct (check_rate_limit _ _ _ _) as [[can err] st1].
    destruct can; cbn [negb]; [|done].
    destruct (truthy (PyDict data)); cbn [negb]; [|done].
    pose proof (forward_stored_paths net user_id data job_id now (ai st) Hinv) as H.
    destruct (forward _ _ _ _) as [outcome a']. exact H.
  - cbn [step ai]. by apply POST_generate_stored_paths.
  - cbn [step ai]. by apply run_thread_stored_paths.
Qed.

Lemma run_stored_paths evs : forall st,
  stored_paths_inv (ai st) -> stored_paths_inv (ai (run token upload cwd st evs)).
Proof.
  induction evs as [|ev evs IH]; intros st Hinv; [done|].
  cbn. apply IH. by apply step_stored_paths.
Qed.

Lemma touched_below segment hdr qry a path :
  stored_paths_inv a ->
  path ∈ (AiService.GET_output token upload cwd segment hdr qry a).2 ->
  below upload path.
Proof.
  intros [Hmap _]. unfold AiService.GET_output.
  destruct (uuid_converter segment) as [file_id|]; [|by intros ?%elem_of_nil].
  unfold AiService.require_auth_token.
  destruct (AiService.unauthorized token hdr qry); [by intros ?%elem_of_nil|].
  unfold AiService.serve_image.
  destruct (file_mapping a !! file_id) as [stored|] eqn:Hstored; [|by intros ?%elem_of_nil].
  destruct (Hmap _ _ Hstored) as (dir & file & Hdir & Hfile & ->).
  destruct (safe_join_below upload dir file Hroot Hdir Hfile) as [Hsafe Hjoin].
  rewrite Hsafe, Hjoin.
  assert (Hbelow : below upload (upload +:+ "/" +:+ dir +:+ "/" +:+ file)).
  { by exists dir, file. }
  destruct (negb _); [by intros ->%list_elem_of_singleton|].
  destruct (Fs.read _ _ _); (intros [->|Hin]%elem_of_cons; [done|]);
    by apply list_elem_of_singleton in Hin as ->.
Qed.

End StoredPaths.

(** C9: for an authorized artifact request on the internal tier, whatever
    the identifier in the URL is.  An identifier that is not shaped like a
    UUID does not reach the handler: 404 and no file system call (the route
    answers before the token is looked at).  A UUID that is not a key of
    [file_mapping] is answered 404 "Image not found" with no file system
    call.  Every path handed to the file system is built from the path
    stored in [file_mapping] under the identifier: the upload folder joined
    with it, or the result of [safe_join] on them.  A file content in the
    answer is the content of the file at [safe_join] of the upload folder
    and the stored path, which is the upload folder joined with a relative
    path that does not start with a parent directory.  The identifier
    "../../etc/passwd" is not shaped like a UUID.  On the public tier, which
    forwards the request, an identifier that is not shaped like a UUID is
    answered 404 without a call to the internal tier, and a file content in
    an answer is the content of the file stored for the identifier.  In a
    state that a run of the system reaches from its start, the upload
    folder being absolute and normalised, every path handed to the file
    system is a file in a directory of the upload folder. *)
Theorem C9_resolution_is_a_lookup (token upload cwd segment : string)
    (auth_header auth_query : option string) (a : AiService.state) :
  upload <> "" ->
  AiService.unauthorized token auth_header auth_query = false ->
  let r := AiService.GET_output token upload cwd segment auth_header auth_query a in
  (uuid_converter segment = None -> r = (Response 404 ErrorPage, []))
  /\ (forall file_id, uuid_converter segment = Some file_id ->
        file_mapping a !! file_id = None ->
        r = (jsonify {[ "error" := PyStr "Image not found" ]} 404, []))
  /\ (forall path, path ∈ r.2 ->
        exists file_id stored,
          uuid_converter segment = Some file_id
          /\ file_mapping a !! file_id = Some stored
          /\ (path = PosixPath.join upload stored \/ safe_join upload stored = Some path))
  /\ (forall content, payload r.1 = FileContent content ->
        exists file_id stored path rel,
          uuid_converter segment = Some file_id
          /\ file_mapping a !! file_id = Some stored
          /\ safe_join upload stored = Some path
          /\ Fs.read cwd path (AiService.fs a) = Some content
          /\ path = PosixPath.join upload rel
          /\ PosixPath.isabs rel = false /\ rel <> ".." /\ startswith "../" rel = false)
  /\ uuid_converter "../../etc/passwd" = None
  /\ (forall net hdr qry,
        uuid_converter segment = None ->
        App.GET_output (System.get_output token upload cwd net) token segment hdr qry a
        = (Response 404 ErrorPage, a))
  /\ (forall net hdr qry content,
        payload (App.GET_output (System.get_output token upload cwd net) token segment hdr qry a).1
        = FileContent content ->
        exists file_id stored path,
          uuid_converter segment = Some file_id
          /\ file_mapping a !! file_id = Some stored
          /\ safe_join upload stored = Some path
          /\ Fs.read cwd path (AiService.fs a) = Some content)
  /\ (forall start evs path,
        normal_root upload ->
        a = ai (run token upload cwd (System.initial start) evs) ->
        path ∈ r.2 -> below upload path).
Proof.
  intros Hupload Hauth r.
  destruct (serve_image_resolution token upload cwd segment auth_header auth_query a
              Hupload Hauth) as (H1 & H2 & H3 & H4 & H5).
  split; [exact H1|]. split; [exact H2|]. split; [exact H3|]. split; [exact H4|].
  split; [exact H5|]. split; [|split].
  - intros net hdr qry Hconv. unfold App.GET_output. by rewrite Hconv.
  - intros net hdr qry content. apply proxy_content.
  - intros start evs path Hroot -> Hin.
    eapply (touched_below token upload cwd Hroot); [|exact Hin].
    apply run_stored_paths; [exact Hroot|]. apply stored_paths_inv_initial.
Qed.

(** C9 on a UUID that no job was given, and on the job of a run whose
    worker has stored a path: the path that the artifact request hands to
    the file system is a file in the directory of the user. *)
Lemma C9_resolution_witness :
  AiService.GET_output Scenario.token Scenario.upload_folder Scenario.cwd Scenario.job2
    (Some Scenario.token) None AiService.initial
  = (jsonify {[ "error" := PyStr "Image not found" ]} 404, [])
  /\ below Scenario.upload_folder
       "/srv/app/output/123e4567-e89b-12d3-a456-426614174000/a_cat-20250102-120001.png".
Proof.
  split.
  - destruct (C9_resolution_is_a_lookup Scenario.token Scenario.upload_folder Scenario.cwd
                Scenario.job2 (Some Scenario.token) None AiService.initial)
      as (_ & Hunregistered & _).
    + vm_compute. discriminate.
    + vm_compute. reflexivity.
    + apply (Hunregistered Scenario.job2); vm_compute; reflexivity.
  - destruct (C9_resolution_is_a_lookup Scenario.token Scenario.upload_folder Scenario.cwd
                Scenario.job1 (Some Scenario.token) None
                (ai (run Scenario.token Scenario.upload_folder Scenario.cwd (System.initial 0)
                       [ Submit (Some Scenario.alice) Scenario.a_cat 1 1 Delivered Scenario.job1 1;
                         Work Scenario.job1 Scenario.across_a_second ])))
      as (_ & _ & _ & _ & _ & _ & _ & Hbelow).
    + vm_compute. discriminate.
    + vm_compute. reflexivity.
    + apply (Hbelow 0 [ Submit (Some Scenario.alice) Scenario.a_cat 1 1 Delivered Scenario.job1 1;
                        Work Scenario.job1 Scenario.across_a_second ]).
      * vm_compute. repeat split.
      * reflexivity.
      * vm_compute. apply list_elem_of_here.
Defined.

(** ** The life of a job (C8) *)
Section JobTable.
Variables token upload cwd : string.

Lemma generate_outcome data job_id now a :
  (generate data job_id now a).2 = a \/ (generate data job_id now a).2 = started job_id now data a.
Proof.
  unfold generate. destruct (_ || _); [by left|].
  destruct (validate_input data) as [[[] m]|e]; [by right|by left..].
Qed.

Lemma POST_generate_outcome data hdr qry job_id now a :
  (POST_generate token data hdr qry job_id now a).2 = a
  \/ (POST_generate token data hdr qry job_id now a).2 = started job_id now data a.
Proof.
  unfold POST_generate, AiService.require_auth_token.
  destruct (AiService.unauthorized token hdr qry); [by left|]. apply generate_outcome.
Qed.

Lemma forward_outcome net user_id data job_id now a :
  (forward (post_generate token net job_id now) user_id data a).2 = a
  \/ exists data', (forward (post_generate token net job_id now) user_id data a).2
                   = started job_id now data' a.
Proof.
  unfold forward. destruct (validate_request_data data) as [[[] m]|e]; [|by left..].
  set (data' := <["user_id" := PyStr user_id]> data).
  unfold post_generate.
  destruct (POST_generate_outcome data' (Some token) None job_id now a) as [H|H];
    destruct net, (POST_generate token data' (Some token) None job_id now a) as [r a'];
    cbn in *; subst; eauto.
Qed.

Lemma submit_outcome st session data cleanup_time current_time net job_id now :
  ai (step token upload cwd st (Submit session data cleanup_time current_time net job_id now)) = ai st
  \/ exists data',
       ai (step token upload cwd st (Submit session data cleanup_time current_time net job_id now))
       = started job_id now data' (ai st).
Proof.
  unfold step, generate_image. destruct session as [user_id|]; [|by left].
  destruct (check_rate_limit _ _ _ _) as [[can err] st1].
  destruct can; cbn [negb]; [|by left].
  destruct (truthy (PyDict data)); cbn [negb]; [|by left].
  pose proof (forward_outcome net user_id data job_id now (ai st)) as H.
  destruct (forward _ _ _ _) as [outcome a']. exact H.
Qed.

Lemma process_job_outcome job_id data w a j :
  jobs a !! job_id = Some j ->
  exists j', jobs (process_job upload cwd job_id data w a) = <[job_id := j']> (jobs a)
             /\ j_status j' <> processing /\ settled j'
             /\ threads (process_job upload cwd job_id data w a) = threads a.
Proof.
  intros Hj. unfold process_job, process_job_try.
  destruct (_ ← get_pipeline w; _) as [[[image_path seed] fs']|e0].
  2:{ unfold update_job. rewrite Hj. eexists. cbn. repeat split; [done|by eexists]. }
  destruct (PosixPath.relpath _ _ _) as [rel|e1].
  2:{ unfold update_job. cbn. rewrite Hj. eexists. repeat split; [done|by eexists]. }
  unfold update_job. cbn. rewrite Hj. eexists. repeat split; [done|].
  eexists. split; [done|]. by vm_compute.
Qed.

Lemma advances_refl a : advances a a.
Proof. intros job_id j Hj. exists j. split; [done|by left]. Qed.

Lemma advances_trans a1 a2 a3 : advances a1 a2 -> advances a2 a3 -> advances a1 a3.
Proof.
  intros H12 H23 job_id j Hj.
  destruct (H12 _ _ Hj) as (j2 & Hj2 & Hs2). destruct (H23 _ _ Hj2) as (j3 & Hj3 & Hs3).
  exists j3. split; [done|].
  destruct Hs2 as [Hs2|[Hp Hs2]], Hs3 as [Hs3|[Hp3 Hs3]]; try (left; congruence);
    try (right; split; congruence).
Qed.

Lemma job_table_inv_initial : job_table_inv ∅ AiService.initial.
Proof.
  split; cbn.
  - intros ? ? Hin. by apply elem_of_nil in Hin.
  - constructor.
  - intros job_id [j Hj]. by rewrite lookup_empty in Hj.
  - intros job_id j Hj. by rewrite lookup_empty in Hj.
Qed.

Lemma started_inv used a job_id now data :
  job_table_inv used a -> job_id ∉ used ->
  job_table_inv ({[job_id]} ∪ used) (started job_id now data a)
  /\ advances a (started job_id now data a).
Proof.
  intros [Hpending Hone Hdrawn Hsettled] Hfresh.
  assert (Hnew : jobs a !! job_id = None).
  { destruct (jobs a !! job_id) eqn:Hj; [|done]. destruct Hfresh. apply Hdrawn. by eexists. }
  split; [split; cbn|].
  - intros j d [Hin|Hin]%elem_of_app.
    + destruct (Hpending _ _ Hin) as (job & Hjob & Hst). exists job.
      rewrite lookup_insert_ne; [done|]. intros ->. congruence.
    + apply list_elem_of_singleton in Hin as [= -> ->]. eexists.
      by rewrite lookup_insert_eq.
  - rewrite fmap_app. apply NoDup_app. split; [done|]. split; [|apply NoDup_singleton].
    intros j Hj [= ->]%list_elem_of_singleton.
    apply list_elem_of_fmap in Hj as ([j' d] & Heq & Hin). cbn in Heq. subst j'.
    destruct (Hpending _ _ Hin) as (job & Hjob & _). congruence.
  - intros j [job Hjob]. destruct (decide (job_id = j)) as [->|Hne]; [set_solver|].
    rewrite lookup_insert_ne in Hjob by done. apply elem_of_union_r, Hdrawn. by eexists.
  - intros j job Hjob. destruct (decide (job_id = j)) as [->|Hne].
    + rewrite lookup_insert_eq in Hjob. by injection Hjob as <-.
    + rewrite lookup_insert_ne in Hjob by done. by eapply Hsettled.
  - intros j job Hjob. exists job. split; [|by left].
    cbn. rewrite lookup_insert_ne; [done|]. intros ->. congruence.
Qed.

Lemma job_table_inv_mono used used' a :
  used ⊆ used' -> job_table_inv used a -> job_table_inv used' a.
Proof. intros Hsub [? ? Hdrawn ?]. split; [done..| |done]. intros j Hj. by apply Hsub, Hdrawn. Qed.

Lemma run_thread_inv used a job_id w :
  job_table_inv used a ->
  job_table_inv used (run_thread upload cwd job_id w a)
  /\ advances a (run_thread upload cwd job_id w a).
Proof.
  intros [Hpending Hone Hdrawn Hsettled]. unfold run_thread.
  destruct (take_thread job_id (threads a)) as [[data rest]|] eqn:Htake.
  2:{ split; [done|apply advances_refl]. }
  destruct (take_thread_spec _ _ _ _ Htake) as (Hin & Hnd & Hall).
  destruct (Hnd Hone) as [Hnot Hrest].
  destruct (Hpending _ _ Hin) as (j & Hj & Hproc).
  set (a0 := AiService.State (jobs a) (file_mapping a) rest (AiService.fs a)).
  destruct (process_job_outcome job_id data w a0 j Hj) as (j' & Hjobs & Hterm & Hset & Hthreads).
  split; [split|].
  - rewrite Hthreads, Hjobs. cbn. intros i d Hi.
    destruct (Hpending i d (Hall _ Hi)) as (job & Hjob & Hst). exists job.
    rewrite lookup_insert_ne; [done|]. intros ->. apply Hnot.
    apply list_elem_of_fmap. by exists (i, d).
  - by rewrite Hthreads.
  - rewrite Hjobs. cbn. intros i [job Hjob]. apply Hdrawn.
    destruct (decide (job_id = i)) as [->|Hne]; [by eexists|].
    rewrite lookup_insert_ne in Hjob by done. by eexists.
  - rewrite Hjobs. cbn. intros i job Hjob. destruct (decide (job_id = i)) as [->|Hne].
    + rewrite lookup_insert_eq in Hjob. by injection Hjob as <-.
    + rewrite lookup_insert_ne in Hjob by done. by eapply Hsettled.
  - intros i job Hjob. rewrite Hjobs. cbn. destruct (decide (job_id = i)) as [->|Hne].
    + exists j'. rewrite lookup_insert_eq. split; [done|]. right. split; congruence.
    + exists job. rewrite lookup_insert_ne by done. split; [done|by left].
Qed.

Lemma step_inv used st ev :
  job_table_inv used (ai st) -> fresh_ids used [ev] ->
  exists used', used ⊆ used'
    /\ job_table_inv used' (ai (step token upload cwd st ev))
    /\ advances (ai st) (ai (step token upload cwd st ev))
    /\ (forall evs, fresh_ids used (ev :: evs) -> fresh_ids used' evs).
Proof.
  intros Hinv Hfresh. destruct ev as [session data tc t net job_id now|data hdr qry job_id now|job_id w].
  - cbn in Hfresh. destruct Hfresh as [Hfresh _].
    exists ({[job_id]} ∪ used). split; [set_solver|].
    destruct (submit_outcome st session data tc t net job_id now) as [Heq|[data' Heq]];
      rewrite Heq.
    + split; [eapply job_table_inv_mono; [|done]; set_solver|].
      split; [apply advances_refl|]. by intros evs [_ ?].
    + destruct (started_inv used (ai st) job_id now data' Hinv Hfresh) as [? ?].
      split; [done|]. split; [done|]. by intros evs [_ ?].
  - cbn in Hfresh. destruct Hfresh as [Hfresh _].
    exists ({[job_id]} ∪ used). split; [set_solver|]. cbn [step ai].
    destruct (POST_generate_outcome data hdr qry job_id now (ai st)) as [Heq|Heq];
      rewrite Heq.
    + split; [eapply job_table_inv_mono; [|done]; set_solver|].
      split; [apply advances_refl|]. by intros evs [_ ?].
    + destruct (started_inv used (ai st) job_id now data Hinv Hfresh) as [? ?].
      split; [done|]. split; [done|]. by intros evs [_ ?].
  - exists used. split; [done|]. cbn [step ai].
    destruct (run_thread_inv used (ai st) job_id w Hinv) as [? ?]. done.
Qed.

Lemma run_inv evs : forall used st,
  job_table_inv used (ai st) -> fresh_ids used evs ->
  exists used', used ⊆ used'
    /\ job_table_inv used' (ai (run token upload cwd st evs))
    /\ advances (ai st) (ai (run token upload cwd st evs))
    /\ (forall evs', fresh_ids used (evs ++ evs') -> fresh_ids used' evs').
Proof.
  induction evs as [|ev evs IH]; intros used st Hinv Hfresh.
  - exists used. split; [done|]. split; [done|]. split; [apply advances_refl|done].
  - assert (Hev : fresh_ids used [ev]).
    { cbn in *. destruct (draws ev); [by destruct Hfresh|done]. }
    destruct (step_inv used st ev Hinv Hev) as (used1 & Hsub1 & Hinv1 & Hadv1 & Hrest1).
    destruct (IH used1 (step token upload cwd st ev) Hinv1 (Hrest1 _ Hfresh))
      as (used2 & Hsub2 & Hinv2 & Hadv2 & Hrest2).
    exists used2. split; [set_solver|]. split; [done|].
    split; [by eapply advances_trans|].
    intros evs' Hall. apply Hrest2, Hrest1. exact Hall.
Qed.








End JobTable.


(** ** Admissions per window (C6) *)
Section Windows.

Lemma filter_length_mono {A : Type} (P Q : A -> Prop)
    `{!forall x, Decision (P x)} `{!forall x, Decision (Q x)} (l : list A) :
  (forall x, P x -> Q x) -> (length (filter P l) <= length (filter Q l))%nat.
Proof.
  intros HPQ. induction l as [|x l IH]; [done|].
  rewrite !filter_cons. destruct (decide (P x)) as [HP|HP].
  - rewrite decide_True by auto. cbn. lia.
  - destruct (decide (Q x)); cbn; lia.
Qed.

Lemma log_times_app u log log' : log_times u (log ++ log') = (log_times u log ++ log_times u log')%list.
Proof. unfold log_times. by rewrite filter_app, fmap_app. Qed.

Lemma log_times_cons u e log :
  log_times u (e :: log) = if decide (e.1 = u) then e.2 :: log_times u log else log_times u log.
Proof. unfold log_times. rewrite filter_cons. by destruct (decide (e.1 = u)). Qed.

Lemma by_user_as_times u a log :
  admitted_by_user_in_window u a log
  = length (filter (fun t => Is_true (in_window a t)) (log_times u log)).
Proof.
  unfold admitted_by_user_in_window. induction log as [|e log IH]; [done|].
  rewrite log_times_cons, filter_cons.
  destruct (decide (e.1 = u)) as [He|He].
  - rewrite filter_cons. destruct (decide (Is_true (in_window a e.2))) as [Hw|Hw].
    + rewrite decide_True by done. cbn. by rewrite IH.
    + rewrite decide_False by (by intros [_ ?]). done.
  - rewrite decide_False by (by intros [? _]). done.
Qed.

Lemma total_requests_all_empty (d : gmap string (list Z)) :
  (forall u, default [] (d !! u) = []) -> total_requests d = 0.
Proof.
  intros Hd. unfold total_requests.
  assert (Hall : Forall (fun kv : string * list Z => kv.2 = []) (map_to_list d)).
  { apply Forall_forall. intros [k l] Hin%elem_of_map_to_list.
    specialize (Hd k). by rewrite Hin in Hd. }
  induction Hall as [|[k l] rest Hl _ IH]; [done|].
  cbn in *. subst l. cbn. lia.
Qed.

(** The sum of the lengths of the stored lists is the number of log entries
    that the stored lists keep. *)
Lemma total_of_log (P : Z -> Prop) `{!forall t, Decision (P t)} log :
  forall d : gmap string (list Z),
    (forall u, default [] (d !! u) = filter P (log_times u log)) ->
    total_requests d = Z.of_nat (length (filter (fun e => P e.2) log)).
Proof.
  induction log as [|[u0 t0] log IH]; intros d Hd.
  - by apply total_requests_all_empty.
  - rewrite filter_cons. cbn [snd].
    destruct (decide (P t0)) as [HP|HP].
    + set (d' := <[u0 := filter P (log_times u0 log)]> d).
      assert (Hd' : forall u, default [] (d' !! u) = filter P (log_times u log)).
      { intros u. unfold d'. destruct (decide (u0 = u)) as [->|Hne].
        - by rewrite lookup_insert_eq.
        - rewrite lookup_insert_ne by done. rewrite Hd, log_times_cons.
          cbn [fst]. by rewrite decide_False. }
      specialize (IH d' Hd'). unfold d' in IH. rewrite total_requests_insert in IH.
      rewrite (Hd u0), log_times_cons in IH. cbn [fst snd] in IH.
      rewrite decide_True, filter_cons, decide_True in IH by done.
      cbn [length] in *. lia.
    + apply IH. intros u. rewrite Hd, log_times_cons. cbn [fst snd].
      destruct (decide (u0 = u)); [|done]. by rewrite filter_cons, decide_False.
Qed.


Lemma cleanup_keeps_record st log now :
  recorded log st -> last_cleanup st <= now ->
  recorded log (cleanup_old_requests now st)
  /\ last_cleanup st <= last_cleanup (cleanup_old_requests now st) <= now.
Proof.
  intros Hrec Hle. split.
  - intros u. rewrite times_cleanup, last_cleanup_cleanup, (Hrec u).
    destruct (now - last_cleanup st <? 10); [done|].
    unfold in_trailing_window. apply list_filter_filter_l. intros x. lia.
  - rewrite last_cleanup_cleanup. destruct (now - last_cleanup st <? 10); lia.
Qed.

Lemma within_limits_nil : within_limits [].
Proof. intros a. split; [intros u|]; cbn; unfold MAX_REQUESTS_PER_USER, GLOBAL_RATE_LIMIT; lia. Qed.

(** One admission check: the rate limiter still keeps the log, extended by
    the request if it is admitted, and the extended log is within limits. *)
Lemma check_keeps_record st log now u cleanup_time current_time :
  recorded log st -> last_cleanup st <= now ->
  now <= cleanup_time -> cleanup_time <= current_time ->
  u <> "" -> within_limits log ->
  let r := check_rate_limit (Some u) cleanup_time current_time st in
  let log' := (log ++ (if r.1.1 then [(u, current_time)] else []))%list in
  recorded log' r.2 /\ last_cleanup r.2 <= current_time /\ within_limits log'.
Proof.
  intros Hrec Hlc Hnow Hread Hne Hlim r log'.
  destruct (cleanup_keeps_record st log cleanup_time Hrec ltac:(lia)) as [Hrec0 Hlc0].
  set (st0 := cleanup_old_requests cleanup_time st) in *.
  assert (Hlast : last_cleanup r.2 = last_cleanup st0)
    by apply check_rate_limit_last_cleanup.
  assert (Htimes : forall v, times r.2 v
            = if r.1.1 && bool_decide (v = u)
              then (times st0 v ++ [current_time])%list else times st0 v)
    by (intros v; by apply check_rate_limit_times).
  assert (Hdec : r.1 = decision st0 u) by (by apply check_rate_limit_decision).
  split; [|split; [lia|]].
  - intros v. rewrite Htimes, Hlast. unfold log'. rewrite log_times_app, filter_app, <- (Hrec0 v).
    destruct r.1.1; cbn [andb].
    + rewrite log_times_cons. cbn [fst snd log_times filter fmap].
      case_bool_decide as Hv.
      * subst v. rewrite decide_True by done.
        rewrite filter_cons, decide_True by (unfold RATE_LIMIT_WINDOW; lia). done.
      * rewrite decide_False by congruence. cbn. by rewrite app_nil_r.
    + cbn. by rewrite app_nil_r.
  - unfold log'. destruct r.1.1 eqn:Hadm; [|by rewrite app_nil_r].
    assert (Hroom : Z.of_nat (length (times st0 u)) < MAX_REQUESTS_PER_USER
                    /\ total_requests (user_request_times st0) < GLOBAL_RATE_LIMIT).
    { rewrite Hdec in Hadm. unfold decision in Hadm.
      destruct (Z.leb_spec MAX_REQUESTS_PER_USER (Z.of_nat (length (times st0 u)))); [done|].
      destruct (MAX_CONCURRENT_JOBS <=? in_flight st0 u); [done|].
      destruct (Z.leb_spec GLOBAL_RATE_LIMIT (total_requests (user_request_times st0))); [done|].
      done. }
    destruct Hroom as [Hroom_user Hroom_all].
    rewrite (total_of_log (fun t => last_cleanup st0 - RATE_LIMIT_WINDOW < t) log
               (user_request_times st0) Hrec0) in Hroom_all.
    rewrite (Hrec0 u) in Hroom_user.
    intros a. destruct (Hlim a) as [Hlim_user Hlim_all].
    unfold MAX_REQUESTS_PER_USER, GLOBAL_RATE_LIMIT, RATE_LIMIT_WINDOW in *. split.
    + intros v. unfold admitted_by_user_in_window. rewrite filter_app, length_app.
      fold (admitted_by_user_in_window v a log).
      rewrite filter_cons, filter_nil. cbn [fst snd].
      destruct (decide (u = v /\ Is_true (in_window a current_time))) as [[-> Hin]|Hout];
        [|specialize (Hlim_user v); cbn; lia].
      cbn [length]. rewrite by_user_as_times.
      assert (Hmono : Nat.le
                (length (filter (fun t => Is_true (in_window a t)) (log_times v log)))
                (length (filter (fun t => last_cleanup st0 - 60 < t) (log_times v log)))).
      { apply filter_length_mono. intros x Hx. unfold in_window in *.
        apply andb_prop_elim in Hx as [Hx1 Hx2], Hin as [Hin1 Hin2].
        apply Is_true_true, Z.leb_le in Hx1. apply Is_true_true, Z.ltb_lt in Hin2.
        unfold RATE_LIMIT_WINDOW in *. lia. }
      lia.
    + unfold admitted_in_window. rewrite filter_app, length_app.
      fold (admitted_in_window a log). rewrite filter_cons, filter_nil. cbn [snd].
      destruct (decide (Is_true (in_window a current_time))) as [Hin|Hout]; [|cbn; lia].
      cbn [length].
      assert (Hmono : Nat.le (admitted_in_window a log)
                (length (filter (fun e : string * Z => last_cleanup st0 - 60 < e.2) log))).
      { apply filter_length_mono. intros x Hx. unfold in_window in *.
        apply andb_prop_elim in Hx as [Hx1 Hx2], Hin as [Hin1 Hin2].
        apply Is_true_true, Z.leb_le in Hx1. apply Is_true_true, Z.ltb_lt in Hin2.
        unfold RATE_LIMIT_WINDOW in *. lia. }
      lia.
Qed.


Lemma recorded_rate_limit_complete log st u :
  recorded log st -> recorded log (rate_limit_complete u st).
Proof. intros Hrec v. exact (Hrec v). Qed.

Variables token upload cwd : string.

Lemma submit_web st u data cleanup_time current_time net job_id now :
  let r := check_rate_limit (Some u) cleanup_time current_time (web st) in
  let st' := step token upload cwd st (Submit (Some u) data cleanup_time current_time net job_id now) in
  web st' = r.2 \/ web st' = rate_limit_complete u r.2.
Proof.
  cbn zeta. unfold step, generate_image.
  destruct (check_rate_limit _ _ _ _) as [[can err] st1]. cbn [fst snd].
  destruct can; cbn [negb]; [|by left].
  destruct (truthy (PyDict data)); cbn [negb]; [|by left].
  destruct (forward _ _ _ _) as [outcome a']. by right.
Qed.

Lemma forward_never_429 {U : Type} (post : pydict -> U -> result response * U) u data (up : U) :
  status (handlers (forward post u data up).1) <> 429.
Proof.
  unfold forward. destruct (validate_request_data data) as [[[] m]|e]; cbn.
  - destruct (post _ up) as [[r|e] up']; cbn.
    + unfold raise_for_status. destruct (_ && _); cbn; [done|].
      unfold json. destruct (payload r); cbn; [|done..].
      by destruct (truthy _).
    + by destruct e.
  - done.
  - by destruct e.
Qed.

(** The admitted requests are those that are not answered 429. *)
Lemma admitted_iff_not_rate_limited {U : Type} (post : pydict -> U -> result response * U)
    u data cleanup_time current_time st (up : U) :
  (check_rate_limit (Some u) cleanup_time current_time st).1.1 = true
  <-> status (generate_image post (Some u) data cleanup_time current_time st up).1.1 <> 429.
Proof.
  unfold generate_image.
  destruct (check_rate_limit _ _ _ _) as [[can err] st1]. cbn [fst snd].
  destruct can; cbn [negb]; [|by split].
  split; [intros _|done].
  destruct (truthy (PyDict data)); cbn [negb]; [|done].
  pose proof (forward_never_429 post u data up) as H.
  by destruct (forward _ _ _ _) as [outcome up'].
Qed.

Lemma run_windows evs : forall st now log,
  recorded log (web st) -> last_cleanup (web st) <= now ->
  monotone now (clock_readings evs) -> within_limits log ->
  within_limits (log ++ admitted token upload cwd st evs).
Proof.
  induction evs as [|ev evs IH]; intros st now log Hrec Hlc Hmono Hlim.
  - cbn. by rewrite app_nil_r.
  - destruct ev as [[u|] data tc t net job_id started|data hdr qry job_id started|job_id w].
    + cbn [admitted clock_readings monotone] in *. destruct Hmono as (Hnow & Hread & Hmono).
      rewrite app_assoc.
      set (r := check_rate_limit (Some u) tc t (web st)).
      set (st' := step token upload cwd st (Submit (Some u) data tc t net job_id started)).
      assert (Hkeep : recorded (log ++ (if r.1.1 then [(u, t)] else [])) r.2
                      /\ last_cleanup r.2 <= t
                      /\ within_limits (log ++ (if r.1.1 then [(u, t)] else []))).
      { destruct (decide (u = "")) as [->|Hne].
        - destruct (cleanup_keeps_record (web st) log tc Hrec ltac:(lia)) as [Hrec0 Hlc0].
          unfold r, check_rate_limit. cbn. rewrite app_nil_r.
          split; [done|]. split; [lia|done].
        - by apply (check_keeps_record (web st) log now u tc t). }
      destruct Hkeep as (Hrec' & Hlc' & Hlim').
      apply (IH st' t); [|  |done|done].
      * destruct (submit_web st u data tc t net job_id started) as [Heq|Heq];
          fold st' r in Heq; rewrite Heq; [done|by apply recorded_rate_limit_complete].
      * destruct (submit_web st u data tc t net job_id started) as [Heq|Heq];
          fold st' r in Heq; by rewrite Heq.
    + cbn [admitted clock_readings] in *. cbn [app]. by apply (IH _ now).
    + cbn [admitted clock_readings] in *. cbn [app]. by apply (IH _ now).
    + cbn [admitted clock_readings] in *. cbn [app]. by apply (IH _ now).
Qed.

(** What does hold of the windows: in every run of the system from its
    start in which the clock readings come in the order in which the
    handlers take the lock and never go back, and for every window of 60
    seconds (the time stamps [t] with [a <= t < a + 60]): the admitted
    requests of any one user with a time stamp in the window are at most
    3, and the admitted requests of all users with a time stamp in the
    window are at most 10. *)
Theorem admissions_within_limits_in_sequence (start : Z) (evs : list event) :
  monotone start (clock_readings evs) ->
  let log := admitted token upload cwd (System.initial start) evs in
  forall a,
    (forall u, Z.of_nat (admitted_by_user_in_window u a log) <= MAX_REQUESTS_PER_USER)
    /\ Z.of_nat (admitted_in_window a log) <= GLOBAL_RATE_LIMIT.
Proof.
  intros Hmono log.
  apply (run_windows evs (System.initial start) start []); [|done|done|apply within_limits_nil].
  intros u. done.
Qed.

End Windows.

(** Four submissions of one user within four seconds. *)
Lemma admissions_in_sequence_witness :
  Z.of_nat (admitted_by_user_in_window Scenario.alice 0
              (admitted Scenario.token Scenario.upload_folder Scenario.cwd (System.initial 0)
                 (Scenario.three_submissions
                  ++ [Submit (Some Scenario.alice) Scenario.a_cat 4 4 Delivered Scenario.job1 4])))
  <= MAX_REQUESTS_PER_USER.
Proof.
  refine (proj1 (admissions_within_limits_in_sequence Scenario.token Scenario.upload_folder Scenario.cwd 0
                   (Scenario.three_submissions
                    ++ [Submit (Some Scenario.alice) Scenario.a_cat 4 4 Delivered Scenario.job1 4])
                   _ 0) Scenario.alice).
  cbn. lia.
Defined.

(** The window is half open, as the trailing window of the clean-up
    is: a time stamp that is exactly 60 seconds old is pruned, so that a
    user admitted three times at 0 is admitted again at 60. *)
Lemma a_request_at_the_end_of_the_window_is_admitted :
  admitted Scenario.token Scenario.upload_folder Scenario.cwd (System.initial 0)
    [ Submit (Some Scenario.alice) Scenario.a_cat 0 0 Delivered Scenario.job1 0;
      Submit (Some Scenario.alice) Scenario.a_cat 0 0 Delivered Scenario.job2 0;
      Submit (Some Scenario.alice) Scenario.a_cat 0 0 Delivered Scenario.job3 0;
      Submit (Some Scenario.alice) Scenario.a_cat 60 60 Delivered Scenario.job4 60 ]
  = [ (Scenario.alice, 0); (Scenario.alice, 0); (Scenario.alice, 0); (Scenario.alice, 60) ].
Proof. vm_compute. reflexivity. Qed.

(** C6 at a failing input.  A user is admitted three times at the clock
    reading 50, and a second user at 100, where the clean-up runs.  The
    thread of a fourth request of the first user reads the clock at 109:
    its call of [cleanup_old_requests] returns at the throttle, and it
    reads 109 again in [check_rate_limit], before it asks for the lock.
    The thread of a third user, which reads 110, takes the lock first:
    its clean-up prunes the three time stamps, which are 60 seconds old at
    110.  The thread of the first user then takes the lock, finds an empty
    list and is admitted with its reading 109 (its clean-up, returning at
    the throttle in that state too, changes nothing about the check).  The
    first user is admitted four times with time stamps in the window from
    50 to 110. *)
Theorem C6_fourth_admission_within_a_window :
  let st := web (run Scenario.token Scenario.upload_folder Scenario.cwd (System.initial 0)
                   Scenario.a_full_window) in
  let st' := web (run Scenario.token Scenario.upload_folder Scenario.cwd (System.initial 0)
                    (Scenario.a_full_window ++ [Scenario.overtaking])) in
  let log := admitted Scenario.token Scenario.upload_folder Scenario.cwd (System.initial 0)
               (Scenario.a_full_window ++ [Scenario.overtaking; Scenario.overtaken]) in
  (times st Scenario.alice = [50; 50; 50]
   /\ last_cleanup st = 100
   /\ cleanup_old_requests 109 st = st)
  /\ (times st' Scenario.alice = []
      /\ last_cleanup st' = 110
      /\ cleanup_old_requests 109 st' = st'
      /\ (check_rate_limit (Some Scenario.alice) 109 109 st').1 = (true, ""))
  /\ log = [ (Scenario.alice, 50); (Scenario.alice, 50); (Scenario.alice, 50);
             (Scenario.carol, 100); (Scenario.bob, 110); (Scenario.alice, 109) ]
  /\ admitted_by_user_in_window Scenario.alice 50 log = 4%nat
  /\ MAX_REQUESTS_PER_USER < Z.of_nat (admitted_by_user_in_window Scenario.alice 50 log).
Proof. vm_compute. repeat split. Qed.

(** ** The in-flight counters are never negative *)
Section Counters.
Variables token upload cwd : string.

Lemma check_rate_limit_nonneg st session cleanup_time current_time :
  (forall u, 0 <= in_flight st u) ->
  forall u, 0 <= in_flight (check_rate_limit session cleanup_time current_time st).2 u.
Proof.
  intros Hpos u. destruct session as [user_id|].
  - destruct (decide (user_id = "")) as [->|Hne].
    + unfold check_rate_limit. cbn. rewrite in_flight_cleanup. apply Hpos.
    + rewrite check_rate_limit_in_flight by done. specialize (Hpos u).
      destruct (_ && _); lia.
  - unfold check_rate_limit. cbn. rewrite in_flight_cleanup. apply Hpos.
Qed.

Lemma step_nonneg st ev :
  (forall u, 0 <= in_flight (web st) u) ->
  forall u, 0 <= in_flight (web (step token upload cwd st ev)) u.
Proof.
  intros Hpos u.
  destruct ev as [[user_id|] data tc t net job_id started|data hdr qry job_id started|job_id w];
    [|apply Hpos..].
  pose proof (check_rate_limit_nonneg (web st) (Some user_id) tc t Hpos) as Hcheck.
  destruct (submit_web token upload cwd st user_id data tc t net job_id started) as [Heq|Heq];
    rewrite Heq; [apply Hcheck|].
  rewrite rate_limit_complete_in_flight. specialize (Hcheck u). case_bool_decide; lia.
Qed.

Lemma in_flight_nonneg (start : Z) (evs : list event) (u : string) :
  0 <= in_flight (web (run token upload cwd (System.initial start) evs)) u.
Proof.
  assert (Hgen : forall st, (forall v, 0 <= in_flight (web st) v) ->
                   forall v, 0 <= in_flight (web (run token upload cwd st evs)) v).
  { induction evs as [|ev evs' IH]; intros st Hpos; [done|].
    cbn. apply IH. by apply step_nonneg. }
  apply Hgen. intros v. done.
Qed.

End Counters.

(** ** The artifact path when the clock does not tick *)

(** When both readings of the wall clock fall in the same second, the path
    that [process_image] returns is the path of the file it saved. *)
Lemma same_second_same_path cwd w prompt height width steps seed output_dir fs path seed' fs' :
  ImageUtils.strftime (ImageUtils.w_now_save w) = ImageUtils.strftime (ImageUtils.w_now_path w) ->
  ImageUtils.process_image cwd w prompt height width steps seed output_dir fs
  = Ret (path, seed', fs') ->
  exists image, fs' = Fs.write cwd path image fs.
Proof.
  intros Hsame. unfold ImageUtils.process_image, ImageUtils.generate_image.
  destruct (ImageUtils.w_pipe w) as [image|e]; [|done]. cbn.
  unfold ImageUtils.save_image, ImageUtils.setup_output_directory.
  destruct prompt; try done. destruct (ImageUtils.w_disk w); [done|]. cbn.
  rewrite Hsame. intros [= <- <- <-]. by exists image.
Qed.

(* ===================================================================== *)
(** * Part III: further properties of the code *)
(* ===================================================================== *)

(** ** Who is authorized *)

(** X1: the decorator [require_auth_token], which is the same in both
    files, lets a request through exactly when the configured token is not
    empty and is the token of the request, the token of the request being
    the header [X-Auth-Token] if it is there and not empty, and the query
    parameter [auth] otherwise.  A header that is there and wrong is not
    made good by a right query parameter. *)
Theorem authorized_exactly (token : string) (auth_header auth_query : option string) :
  (AiService.unauthorized token auth_header auth_query = false
   <-> token <> ""
       /\ (auth_header = Some token
           \/ ((auth_header = None \/ auth_header = Some "") /\ auth_query = Some token)))
  /\ App.unauthorized token auth_header auth_query
     = AiService.unauthorized token auth_header auth_query.
Proof.
  split; [|done]. unfold AiService.unauthorized, PosixPath.nonempty.
  destruct auth_header as [h|], auth_query as [q|]; cbn;
    repeat match goal with
    | |- context [String.eqb ?a ?b] => destruct (String.eqb_spec a b); subst; cbn
    end;
    split; try discriminate; try done; intros; try (split; [congruence|]); eauto;
    try (destruct_and?; destruct_or?; destruct_and?; destruct_or?; congruence).
Qed.

Lemma own_token_is_authorized (token : string) :
  token <> "" -> AiService.unauthorized token (Some token) None = false.
Proof.
  intros Hne. unfold AiService.unauthorized, PosixPath.nonempty.
  destruct (String.eqb_spec token "") as [|_]; [done|]. cbn.
  rewrite String.eqb_refl. by destruct (String.eqb_spec token "").
Qed.

Lemma authorized_token_nonempty (token : string) hdr qry :
  App.unauthorized token hdr qry = false -> token <> "".
Proof.
  unfold App.unauthorized, PosixPath.nonempty. intros Hauth ->.
  destruct hdr as [h|], qry as [q|]; cbn in Hauth;
    repeat match type of Hauth with
    | context [String.eqb ?a ?b] => destruct (String.eqb_spec a b); subst; cbn in Hauth
    end; done.
Qed.

(** ** What the rate limiter stores *)
Section Bounds.
Variables token upload cwd : string.

Lemma total_requests_omap (keep : list Z -> option (list Z)) (d : gmap string (list Z)) :
  (forall l l', keep l = Some l' -> (length l' <= length l)%nat) ->
  total_requests (omap keep d) <= total_requests d.
Proof.
  intros Hkeep. induction d as [|k l d Hk _ IH] using map_first_key_ind.
  - by rewrite omap_empty.
  - rewrite (total_requests_insert_fresh d k l Hk).
    destruct (keep l) as [l'|] eqn:Hl.
    + rewrite (omap_insert_Some keep d k l l' Hl).
      rewrite total_requests_insert_fresh by (by rewrite lookup_omap, Hk).
      specialize (Hkeep _ _ Hl). lia.
    + rewrite (omap_insert_None keep d k l Hl).
      rewrite delete_id by (by rewrite lookup_omap, Hk). lia.
Qed.

Lemma total_requests_cleanup st now :
  total_requests (user_request_times (cleanup_old_requests now st))
  <= total_requests (user_request_times st).
Proof.
  unfold cleanup_old_requests. destruct (now - last_cleanup st <? 10); [done|]. cbn.
  apply total_requests_omap. intros l l' Hl.
  destruct (filter _ l) as [|x kept] eqn:Hf; [done|]. injection Hl as <-.
  rewrite <- Hf. apply length_filter.
Qed.

Lemma check_rate_limit_total st user_id cleanup_time current_time :
  user_id <> "" ->
  let r := check_rate_limit (Some user_id) cleanup_time current_time st in
  total_requests (user_request_times r.2)
  = total_requests (user_request_times (cleanup_old_requests cleanup_time st))
    + (if r.1.1 then 1 else 0).
Proof.
  intros Hne. unfold check_rate_limit.
  set (st0 := cleanup_old_requests cleanup_time st).
  destruct (String.eqb_spec user_id "") as [|_]; [done|].
  pose proof (total_requests_dd_get (user_request_times st0) user_id) as Hdd.
  unfold dd_get in *; cbn in *.
  destruct (MAX_REQUESTS_PER_USER <=? _); cbn; [lia|].
  destruct (MAX_CONCURRENT_JOBS <=? _); cbn; [lia|].
  destruct (GLOBAL_RATE_LIMIT <=? _); cbn; [lia|].
  rewrite total_requests_insert, lookup_insert_eq. cbn. rewrite length_app. cbn. lia.
Qed.

Lemma admitted_below_limits st user_id cleanup_time current_time :
  (check_rate_limit (Some user_id) cleanup_time current_time st).1.1 = true ->
  let st0 := cleanup_old_requests cleanup_time st in
  Z.of_nat (length (times st0 user_id)) < MAX_REQUESTS_PER_USER
  /\ in_flight st0 user_id < MAX_CONCURRENT_JOBS
  /\ total_requests (user_request_times st0) < GLOBAL_RATE_LIMIT.
Proof.
  intros Hadm st0.
  pose proof (admitted_user_id_nonempty _ _ _ _ Hadm) as Hne.
  rewrite (check_rate_limit_decision st user_id cleanup_time current_time Hne) in Hadm.
  unfold decision in Hadm. fold st0 in Hadm.
  destruct (Z.leb_spec MAX_REQUESTS_PER_USER (Z.of_nat (length (times st0 user_id)))); [done|].
  destruct (Z.leb_spec MAX_CONCURRENT_JOBS (in_flight st0 user_id)); [done|].
  destruct (Z.leb_spec GLOBAL_RATE_LIMIT (total_requests (user_request_times st0))); [done|].
  lia.
Qed.

Lemma cleanup_bounds st now : limiter_bounds st -> limiter_bounds (cleanup_old_requests now st).
Proof.
  intros (Htimes & Hflight & Htotal). split; [|split].
  - intros u. rewrite times_cleanup. destruct (now - last_cleanup st <? 10); [apply Htimes|].
    unfold in_trailing_window.
    pose proof (length_filter (fun t => now - RATE_LIMIT_WINDOW < t) (times st u)).
    specialize (Htimes u). lia.
  - intros u. rewrite in_flight_cleanup. apply Hflight.
  - pose proof (total_requests_cleanup st now). lia.
Qed.

Lemma check_rate_limit_bounds st session cleanup_time current_time :
  limiter_bounds st -> limiter_bounds (check_rate_limit session cleanup_time current_time st).2.
Proof.
  intros Hinv.
  pose proof (cleanup_bounds st cleanup_time Hinv) as (Htimes0 & Hflight0 & Htotal0).
  destruct session as [user_id|]; [|by apply cleanup_bounds].
  destruct (decide (user_id = "")) as [->|Hne]; [by apply cleanup_bounds|].
  pose proof (admitted_below_limits st user_id cleanup_time current_time) as Hadm.
  split; [|split].
  - intros u. rewrite check_rate_limit_times by done.
    destruct ((check_rate_limit _ _ _ _).1.1) eqn:Hcan; cbn; [|apply Htimes0].
    case_bool_decide as Hu; [|apply Htimes0]. subst u.
    destruct (Hadm eq_refl) as (Hn & _). rewrite length_app. cbn. lia.
  - intros u. rewrite check_rate_limit_in_flight by done.
    rewrite <- (in_flight_cleanup st cleanup_time u).
    destruct ((check_rate_limit _ _ _ _).1.1) eqn:Hcan; cbn; [|apply Hflight0].
    case_bool_decide as Hu; [|apply Hflight0]. subst u.
    destruct (Hadm eq_refl) as (_ & Hc & _). specialize (Hflight0 user_id). lia.
  - rewrite check_rate_limit_total by done.
    destruct ((check_rate_limit _ _ _ _).1.1) eqn:Hcan; [|lia].
    destruct (Hadm eq_refl) as (_ & _ & Hg). lia.
Qed.

Lemma rate_limit_complete_bounds st u :
  limiter_bounds st -> limiter_bounds (rate_limit_complete u st).
Proof.
  intros (Htimes & Hflight & Htotal). split; [|split].
  - exact Htimes.
  - intros v. rewrite rate_limit_complete_in_flight. specialize (Hflight v).
    case_bool_decide; lia.
  - exact Htotal.
Qed.

Lemma step_bounds st ev :
  limiter_bounds (web st) -> limiter_bounds (web (step token upload cwd st ev)).
Proof.
  intros Hinv.
  destruct ev as [[user_id|] data tc t net job_id started|data hdr qry job_id started|job_id w];
    [|exact Hinv..].
  pose proof (check_rate_limit_bounds (web st) (Some user_id) tc t Hinv) as Hcheck.
  destruct (submit_web token upload cwd st user_id data tc t net job_id started) as [Heq|Heq];
    rewrite Heq; [exact Hcheck|]. by apply rate_limit_complete_bounds.
Qed.

Lemma limiter_bounds_initial start : limiter_bounds (App.initial start).
Proof.
  split; [|split]; cbn.
  - intros u. unfold times. cbn. rewrite lookup_empty. cbn. unfold MAX_REQUESTS_PER_USER. lia.
  - intros u. unfold in_flight. cbn. rewrite lookup_empty. cbn. unfold MAX_CONCURRENT_JOBS. lia.
  - rewrite total_requests_empty. unfold GLOBAL_RATE_LIMIT. lia.
Qed.

(** X2: whatever requests arrive and whatever the clock reads, the rate
    limiter never stores more than 3 time stamps for a user nor more than
    10 in all, and the counter of jobs in flight of a user stays between
    0 and 2. *)
Theorem limiter_state_is_bounded (start : Z) (evs : list event) :
  let st := web (run token upload cwd (System.initial start) evs) in
  (forall u, Z.of_nat (length (times st u)) <= MAX_REQUESTS_PER_USER)
  /\ (forall u, 0 <= in_flight st u <= MAX_CONCURRENT_JOBS)
  /\ total_requests (user_request_times st) <= GLOBAL_RATE_LIMIT.
Proof.
  assert (Hgen : forall st, limiter_bounds (web st) ->
                   limiter_bounds (web (run token upload cwd st evs))).
  { induction evs as [|ev evs' IH]; intros st Hinv; [done|].
    cbn. apply IH. by apply step_bounds. }
  apply Hgen, limiter_bounds_initial.
Qed.

(** X3: a request that the rate limiter turns down is answered 429, does
    not reach the internal tier, and is not counted: the time stamps and
    the counters in flight of every user, and the total, are those that
    the clean-up left. *)
Theorem denied_request_leaves_no_trace {U : Type} (post : pydict -> U -> result response * U)
    (user_id : string) (data : pydict) (cleanup_time current_time : Z) (st : App.state) (up : U) :
  (check_rate_limit (Some user_id) cleanup_time current_time st).1.1 = false ->
  let r := generate_image post (Some user_id) data cleanup_time current_time st up in
  status r.1.1 = 429
  /\ r.2 = up
  /\ (forall u, times r.1.2 u = times (cleanup_old_requests cleanup_time st) u)
  /\ (forall u, in_flight r.1.2 u = in_flight st u)
  /\ total_requests (user_request_times r.1.2)
     = total_requests (user_request_times (cleanup_old_requests cleanup_time st)).
Proof.
  intros Hden r. unfold r. rewrite (generate_image_denied post _ _ _ _ _ _ Hden). cbn [fst snd].
  split; [done|]. split; [done|].
  destruct (decide (user_id = "")) as [->|Hne].
  { unfold check_rate_limit. cbn. split; [done|]. split; [|done].
    intros u. apply in_flight_cleanup. }
  split; [|split].
  - intros u. rewrite check_rate_limit_times by done. by rewrite Hden.
  - intros u. rewrite check_rate_limit_in_flight by done. by rewrite Hden.
  - rewrite check_rate_limit_total by done. rewrite Hden. lia.
Qed.


End Bounds.

(** X3 on the fourth request of a user within four seconds. *)
Lemma denied_request_witness :
  status (generate_image (post_generate Scenario.token Delivered Scenario.job4 4)
            (Some Scenario.alice) Scenario.a_cat 4 4
            (web (run Scenario.token Scenario.upload_folder Scenario.cwd (System.initial 0)
                    Scenario.three_submissions))
            AiService.initial).1.1
  = 429.
Proof.
  destruct (denied_request_leaves_no_trace
              (post_generate Scenario.token Delivered Scenario.job4 4)
              Scenario.alice Scenario.a_cat 4 4
              (web (run Scenario.token Scenario.upload_folder Scenario.cwd (System.initial 0)
                      Scenario.three_submissions))
              AiService.initial) as (Hstatus & _).
  - vm_compute. reflexivity.
  - exact Hstatus.
Defined.



(** ** What the two validations accept, reject and raise *)

(** Closes a case in which the outcome of a chain of checks cannot be an
    acceptance. *)
Ltac reject H :=
  solve [ cbn in H;
          repeat match type of H with
                 | context [if ?c then _ else _] => destruct c; cbn in H
                 | context [match ?f with S754_zero _ => _ | _ => _ end] => destruct f; cbn in H
                 end;
          discriminate ].

Lemma validate_input_sound (data : pydict) (m : string) :
  validate_input data = Ret (true, m) -> well_formed_for_internal data.
Proof.
  unfold validate_input, well_formed_for_internal, well_formed_for_public, int_within, seed_ok.
  intros H.
  destruct (dict_get data "prompt" (PyStr "")) as [| | | |p| |] eqn:Hp; try reject H.
  cbn [strip_val mbind result_bind] in H.
  destruct (String.eqb_spec (strip p) "") as [Hblank|Hblank]; [discriminate|].
  destruct (Z.ltb_spec MAX_PROMPT_LENGTH (Z.of_nat (String.length (strip p)))) as [Hlong|Hlong];
    [discriminate|].
  destruct (ALLOWED_CHARS (strip p)) eqn:Hchars; [|discriminate]. cbn [negb] in H.
  destruct (int (dict_get data "height" (PyInt 512))) as [h|e] eqn:Hh;
    [|cbn [mbind result_bind] in H; destruct e; discriminate].
  cbn [mbind result_bind] in H.
  destruct (int (dict_get data "width" (PyInt 512))) as [w|e] eqn:Hw;
    [|cbn [mbind result_bind] in H; destruct e; discriminate].
  cbn [mbind result_bind] in H.
  destruct (negb _) eqn:Hdim in H; [discriminate|].
  apply negb_false_iff in Hdim. rewrite !andb_true_iff in Hdim.
  destruct (int (dict_get data "num_inference_steps" (PyInt 50))) as [n|e] eqn:Hn;
    [|cbn [mbind result_bind] in H; destruct e; discriminate].
  cbn [mbind result_bind] in H.
  destruct (negb _) eqn:Hsteps in H; [discriminate|].
  apply negb_false_iff in Hsteps. rewrite !andb_true_iff in Hsteps.
  destruct (dict_get data "user_id" PyNone) as [| | | |uid| |] eqn:Hu0; try reject H.
  assert (Hu : data !! "user_id" = Some (PyStr uid)).
  { unfold dict_get in Hu0. destruct (data !! "user_id"); cbn in Hu0; congruence. }
  destruct (truthy (PyStr uid)) eqn:Htruthy; [|discriminate]. cbn [negb] in H.
  cbn [user_id_match mbind result_bind] in H.
  destruct (re_anchored (uuid_shape is_hex_lower) uid) eqn:Hmatch; [|discriminate].
  cbn [negb] in H.
  unfold MIN_DIMENSION, MAX_DIMENSION, MIN_STEPS, MAX_STEPS, MAX_PROMPT_LENGTH in *.
  split; [|split; [|split]].
  - split; [exists p; repeat split; [done|lia]|].
    split; [exists h; split; [done|lia]|]. split; [exists w; split; [done|lia]|].
    exists n; split; [done|lia].
  - by exists p.
  - by exists uid.
  - destruct (dict_get data "seed" PyNone) as [|b|z|f|s|l|d] eqn:Hseed; [by left|..]; right.
    all: destruct (int _) as [seed|e] eqn:Hint in H; [|destruct e; discriminate].
    all: destruct (negb _) eqn:Hrange in H; [discriminate|].
    all: apply negb_false_iff in Hrange; rewrite !andb_true_iff in Hrange.
    all: exists seed; split; [exact Hint|lia].
Qed.

Lemma validate_input_complete (data : pydict) :
  well_formed_for_internal data -> validate_input data = Ret (true, "").
Proof.
  unfold well_formed_for_internal, well_formed_for_public, int_within, seed_ok.
  intros (((p & Hp & Hblank & Hlong) & (h & Hh & Hhr) & (w & Hw & Hwr) & (n & Hn & Hnr))
          & (p' & Hp' & Hchars) & (uid & Hu & Hmatch) & Hseed).
  rewrite Hp in Hp'. injection Hp' as <-.
  unfold validate_input. rewrite Hp, Hh, Hw, Hn. cbn [strip_val mbind result_bind].
  destruct (String.eqb_spec (strip p) "") as [|_]; [done|].
  unfold MIN_DIMENSION, MAX_DIMENSION, MIN_STEPS, MAX_STEPS, MAX_PROMPT_LENGTH.
  destruct (Z.ltb_spec 200 (Z.of_nat (String.length (strip p)))) as [|_]; [lia|].
  rewrite Hchars. cbn [negb].
  replace ((64 <=? h) && (h <=? 1024) && (64 <=? w) && (w <=? 1024)) with true
    by (symmetry; rewrite !andb_true_iff; lia).
  replace ((1 <=? n) && (n <=? 100)) with true by (symmetry; rewrite !andb_true_iff; lia).
  cbn [negb].
  assert (Hget : dict_get data "user_id" PyNone = PyStr uid) by (unfold dict_get; by rewrite Hu).
  rewrite Hget. cbn [truthy].
  assert (Hne : String.eqb uid "" = false).
  { destruct uid; [by vm_compute in Hmatch|done]. }
  rewrite Hne. cbn [negb user_id_match mbind result_bind]. rewrite Hmatch. cbn [negb].
  destruct Hseed as [->|(seed & Hint & Hrange)]; [done|].
  assert (Hrange' : negb ((0 <=? seed) && (seed <=? 2 ^ 32 - 1)) = false).
  { apply negb_false_iff. rewrite !andb_true_iff. lia. }
  destruct (dict_get data "seed" PyNone) as [|b|z|f|s|l|d]; [done|..];
    cbn [int] in Hint |- *; try discriminate;
    try (injection Hint as <-); rewrite ?Hint, ?Hrange'; done.
Qed.

Lemma well_formed_public_accepted (data : pydict) :
  well_formed_for_public data -> validate_request_data data = Ret (true, "").
Proof.
  unfold well_formed_for_public, int_within.
  intros ((p & Hp & Hblank & Hlong) & (h & Hh & Hhr) & (w & Hw & Hwr) & (n & Hn & Hnr)).
  unfold validate_request_data. rewrite Hp, Hh, Hw, Hn. cbn [strip_val mbind result_bind].
  destruct (String.eqb_spec (strip p) "") as [|_]; [done|].
  destruct (Z.ltb_spec 200 (Z.of_nat (String.length (strip p)))) as [|_]; [lia|].
  replace ((64 <=? h) && (h <=? 1024) && (64 <=? w) && (w <=? 1024)) with true
    by (symmetry; rewrite !andb_true_iff; lia).
  replace ((1 <=? n) && (n <=? 100)) with true by (symmetry; rewrite !andb_true_iff; lia).
  done.
Qed.

(** X6: [validate_input] accepts a request exactly when its prompt is a
    string that, stripped, is not empty, has at most 200 characters and
    only characters of the allowed set; height and width convert to
    integers from 64 to 1024 and the number of steps to one from 1 to
    100; the user identifier is a string that the pattern of a lower-case
    UUID matches; and the seed is absent, null, or converts to an integer
    from 0 to 2^32 - 1. *)
Theorem internal_validation_accepts_exactly (data : pydict) :
  validate_input data = Ret (true, "") <-> well_formed_for_internal data.
Proof. split; [apply validate_input_sound|apply validate_input_complete]. Qed.

(** X7: the checks of the public tier are among those of the internal
    tier: a request that [validate_input] accepts is accepted by
    [validate_request_data], with or without its 'user_id' entry. *)
Theorem internal_validation_is_stricter (data : pydict) (m : string) :
  validate_input data = Ret (true, m) ->
  validate_request_data data = Ret (true, "")
  /\ validate_request_data (delete "user_id" data) = Ret (true, "").
Proof.
  intros [Hpublic _]%validate_input_sound. split; [by apply well_formed_public_accepted|].
  apply well_formed_public_accepted. unfold well_formed_for_public, dict_get in *.
  by rewrite !lookup_delete_ne.
Qed.

(** X7 on the request for a cat of a user. *)
Lemma internal_validation_is_stricter_witness :
  validate_request_data (<["user_id" := PyStr Scenario.alice]> Scenario.a_cat) = Ret (true, "")
  /\ validate_request_data (delete "user_id" (<["user_id" := PyStr Scenario.alice]> Scenario.a_cat))
     = Ret (true, "").
Proof.
  apply (internal_validation_is_stricter _ "").
  vm_compute. reflexivity.
Defined.

Ltac int_fault H Hint :=
  cbn [mbind result_bind] in H;
  let m := fresh "m" in
  destruct (int_raises _ _ Hint) as [[m ->]|[[m ->]|[m ->]]]; [discriminate..|].

Lemma validate_input_raises (data : pydict) (e : exn) :
  validate_input data = Raise e ->
  (exists m, e = AttributeError m /\ ~ prompt_is_a_string data)
  \/ (exists m, e = OverflowError m /\ prompt_is_a_string data
                /\ (a_size_overflows data \/ int_overflows (dict_get data "seed" PyNone))).
Proof.
  unfold validate_input, prompt_is_a_string, a_size_overflows, int_overflows. intros H.
  destruct (dict_get data "prompt" (PyStr "")) as [| | | |p| |] eqn:Hp;
    try (cbn in H; injection H as <-; left; eexists; split; [done|]; by intros [? [=]]).
  right. cbn [strip_val mbind result_bind] in H.
  destruct (String.eqb (strip p) ""); [discriminate|].
  destruct (MAX_PROMPT_LENGTH <? _); [discriminate|].
  destruct (negb (ALLOWED_CHARS (strip p))); [discriminate|].
  destruct (int (dict_get data "height" (PyInt 512))) as [h|e0] eqn:Hh.
  2:{ int_fault H Hh. injection H as <-. eexists. split; [done|]. split; [by eexists|].
      left; left. by eexists. }
  cbn [mbind result_bind] in H.
  destruct (int (dict_get data "width" (PyInt 512))) as [w|e0] eqn:Hw.
  2:{ int_fault H Hw. injection H as <-. eexists. split; [done|]. split; [by eexists|].
      left; right; left. by eexists. }
  cbn [mbind result_bind] in H.
  destruct (negb _) in H; [discriminate|].
  destruct (int (dict_get data "num_inference_steps" (PyInt 50))) as [n|e0] eqn:Hn.
  2:{ int_fault H Hn. injection H as <-. eexists. split; [done|]. split; [by eexists|].
      left; right; right. by eexists. }
  cbn [mbind result_bind] in H.
  destruct (negb _) in H; [discriminate|].
  destruct (negb (truthy _)) in H; [discriminate|].
  destruct (user_id_match _) as [matched|e0] eqn:Hm in H.
  2:{ cbn [mbind result_bind] in H. unfold user_id_match in Hm.
      destruct (dict_get data "user_id" PyNone); try discriminate; injection Hm as <-; discriminate. }
  cbn [mbind result_bind] in H.
  destruct (negb matched); [discriminate|].
  destruct (dict_get data "seed" PyNone) as [|b|z|f|s|l|d] eqn:Hs; [discriminate|..].
  all: destruct (int _) as [seed|e0] eqn:Hint in H; [destruct (negb _) in H; discriminate|].
  all: int_fault H Hint; injection H as <-.
  all: eexists; split; [done|]; split; [by eexists|]; right; by eexists.
Qed.

Lemma validate_request_data_raises (data : pydict) (e : exn) :
  validate_request_data data = Raise e ->
  (exists m, e = AttributeError m /\ ~ prompt_is_a_string data)
  \/ (exists m, e = OverflowError m /\ prompt_is_a_string data /\ a_size_overflows data).
Proof.
  unfold validate_request_data, prompt_is_a_string, a_size_overflows, int_overflows. intros H.
  destruct (dict_get data "prompt" (PyStr "")) as [| | | |p| |] eqn:Hp;
    try (cbn in H; injection H as <-; left; eexists; split; [done|]; by intros [? [=]]).
  right. cbn [strip_val mbind result_bind] in H.
  destruct (String.eqb (strip p) ""); [discriminate|].
  destruct (200 <? _); [discriminate|].
  destruct (int (dict_get data "height" (PyInt 512))) as [h|e0] eqn:Hh.
  2:{ int_fault H Hh. injection H as <-. eexists. split; [done|]. split; [by eexists|].
      left. by eexists. }
  cbn [mbind result_bind] in H.
  destruct (int (dict_get data "width" (PyInt 512))) as [w|e0] eqn:Hw.
  2:{ int_fault H Hw. injection H as <-. eexists. split; [done|]. split; [by eexists|].
      right; left. by eexists. }
  cbn [mbind result_bind] in H.
  destruct (negb _) in H; [discriminate|].
  destruct (int (dict_get data "num_inference_steps" (PyInt 50))) as [n|e0] eqn:Hn.
  2:{ int_fault H Hn. injection H as <-. eexists. split; [done|]. split; [by eexists|].
      right; right. by eexists. }
  cbn [mbind result_bind] in H.
  destruct (negb _) in H; discriminate.
Qed.

(** X8: the two validations turn every [ValueError] and [TypeError] into
    a rejection, so they raise in two cases only: [AttributeError] when
    the prompt is not a string (a number, a list, null), and
    [OverflowError] when the prompt is a string and one of the numbers is
    an infinite float.  The handlers answer these two with 500.  A prompt
    that is not a string makes both validations raise. *)
Theorem validations_raise_on_two_kinds_of_input (data : pydict) :
  (forall e, validate_input data = Raise e ->
     (exists m, e = AttributeError m /\ ~ prompt_is_a_string data)
     \/ (exists m, e = OverflowError m /\ prompt_is_a_string data
                   /\ (a_size_overflows data \/ int_overflows (dict_get data "seed" PyNone))))
  /\ (forall e, validate_request_data data = Raise e ->
        (exists m, e = AttributeError m /\ ~ prompt_is_a_string data)
        \/ (exists m, e = OverflowError m /\ prompt_is_a_string data /\ a_size_overflows data))
  /\ (~ prompt_is_a_string data ->
      exists m, validate_input data = Raise (AttributeError m)
                /\ validate_request_data data = Raise (AttributeError m))
  /\ (forall job_id now a e, validate_input data = Raise e ->
        status (generate data job_id now a).1 = 400 \/ status (generate data job_id now a).1 = 500).
Proof.
  split; [apply validate_input_raises|]. split; [apply validate_request_data_raises|]. split.
  - unfold prompt_is_a_string, validate_input, validate_request_data. intros Hp.
    destruct (dict_get data "prompt" (PyStr "")) as [| | | |p| |];
      try (eexists; split; reflexivity).
    destruct Hp. by exists p.
  - intros job_id now a e He. unfold generate. destruct (_ || _); [by left|].
    rewrite He. by right.
Qed.

(** ** A submission from the session to the job *)
Section EndToEnd.
Variables token upload cwd : string.

Lemma POST_generate_accepts data hdr qry job_id now a :
  AiService.unauthorized token hdr qry = false ->
  validate_input data = Ret (true, "") ->
  POST_generate token data hdr qry job_id now a
  = (jsonify {[ "success" := PyBool true; "job_id" := PyStr job_id;
                "status" := PyStr "processing" ]} 200,
     started job_id now data a).
Proof.
  intros Hauth Hvalid.
  destruct (validate_input_accepts _ _ Hvalid) as (_ & Hprompt & Huser).
  unfold POST_generate, AiService.require_auth_token, generate. rewrite Hauth.
  rewrite (truthy_dict_with_key _ _ Hprompt). unfold dict_contains.
  rewrite !bool_decide_eq_true_2 by done. cbn. by rewrite Hvalid.
Qed.

Lemma POST_generate_rejects data hdr qry job_id now a :
  AiService.unauthorized token hdr qry = false ->
  (forall m, validate_input data <> Ret (true, m)) ->
  let r := POST_generate token data hdr qry job_id now a in
  (status r.1 = 400 \/ status r.1 = 500) /\ r.2 = a.
Proof.
  intros Hauth Hbad. unfold POST_generate, AiService.require_auth_token, generate. rewrite Hauth.
  destruct (_ || _); [split; [by left|done]|].
  destruct (validate_input data) as [[[] m]|e]; cbn.
  - by destruct (Hbad m).
  - split; [by left|done].
  - split; [by right|done].
Qed.

Lemma validate_request_data_ignores_user_id data v :
  validate_request_data (<["user_id" := v]> data) = validate_request_data data.
Proof.
  unfold validate_request_data, dict_get. by rewrite !lookup_insert_ne.
Qed.

(** X9: a visitor whose session got its user identifier from [index] (the
    one it had, or a new UUID) sends a request that the rate limiter admits
    and that the internal tier accepts once the identifier is written into
    it.  Over a working network the answer is that of the internal tier,
    200 with the job identifier and 'processing'; the job is created from
    the body with the 'user_id' of the session, whatever 'user_id' the body
    carried, so it belongs to the user of the session; and the slot of the
    request is given back. *)
Theorem valid_submission_starts_a_job_of_the_session_user
    (session : option string) (uuid4 user_id : string) (data : pydict)
    (cleanup_time current_time : Z) (job_id : string) (now : Z)
    (st : App.state) (a : AiService.state) :
  token <> "" ->
  App.index session uuid4 = Some user_id ->
  (check_rate_limit (Some user_id) cleanup_time current_time st).1.1 = true ->
  validate_input (<["user_id" := PyStr user_id]> data) = Ret (true, "") ->
  let r := generate_image (post_generate token Delivered job_id now)
             (App.index session uuid4) data cleanup_time current_time st a in
  r.1.1 = jsonify {[ "success" := PyBool true; "job_id" := PyStr job_id;
                     "status" := PyStr "processing" ]} 200
  /\ r.2 = started job_id now (<["user_id" := PyStr user_id]> data) a
  /\ r.1.2 = rate_limit_complete user_id
               (check_rate_limit (Some user_id) cleanup_time current_time st).2
  /\ (owned_by user_id <$> jobs r.2 !! job_id) = Some true
  /\ (session = None -> user_id = uuid4)
  /\ (forall u, session = Some u -> user_id = u).
Proof.
  intros Htoken Hindex Hadm Hvalid r. unfold r. rewrite Hindex.
  assert (Hpublic : validate_request_data data = Ret (true, "")).
  { rewrite <- (validate_request_data_ignores_user_id data (PyStr user_id)).
    apply well_formed_public_accepted. by apply validate_input_sound in Hvalid as [? _]. }
  assert (Hdata : truthy (PyDict data) = true).
  { destruct (validate_input_accepts _ _ Hvalid) as (_ & Hprompt & _).
    rewrite lookup_insert_ne in Hprompt by done. by eapply truthy_dict_with_key. }
  rewrite (generate_image_forwarded _ _ _ _ _ _ _ Hadm Hdata).
  unfold forward. rewrite Hpublic. unfold post_generate.
  rewrite (POST_generate_accepts _ _ _ job_id now a (own_token_is_authorized token Htoken) Hvalid).
  cbn. split; [done|]. split; [done|]. split; [done|]. split.
  - rewrite lookup_insert_eq. cbn. unfold owned_by. cbn.
    rewrite lookup_insert_eq. by rewrite String.eqb_refl.
  - unfold App.index in Hindex. split.
    + intros ->. by injection Hindex as <-.
    + intros u ->. by injection Hindex as <-.
Qed.

(** X10: the public tier answers 500 to every request that passes its own
    validation and that the internal tier does not accept (a character
    outside the allowed set, a seed out of range, ...): the 400 or 500 of
    the internal tier makes [raise_for_status] raise.  No job is created
    and the slot of the request is given back. *)
Theorem internal_rejection_becomes_500 (user_id : string) (data : pydict)
    (cleanup_time current_time : Z) (job_id : string) (now : Z)
    (st : App.state) (a : AiService.state) (m : string) :
  token <> "" ->
  (check_rate_limit (Some user_id) cleanup_time current_time st).1.1 = true ->
  truthy (PyDict data) = true ->
  validate_request_data data = Ret (true, m) ->
  (forall m', validate_input (<["user_id" := PyStr user_id]> data) <> Ret (true, m')) ->
  let r := generate_image (post_generate token Delivered job_id now)
             (Some user_id) data cleanup_time current_time st a in
  status r.1.1 = 500
  /\ (exists reason, payload r.1.1 = Json {[ "success" := PyBool false; "error" := PyStr reason ]})
  /\ r.2 = a
  /\ r.1.2 = rate_limit_complete user_id
               (check_rate_limit (Some user_id) cleanup_time current_time st).2.
Proof.
  intros Htoken Hadm Hdata Hpublic Hbad r. unfold r.
  rewrite (generate_image_forwarded _ _ _ _ _ _ _ Hadm Hdata).
  unfold forward. rewrite Hpublic. unfold post_generate.
  destruct (POST_generate_rejects (<["user_id" := PyStr user_id]> data) (Some token) None
              job_id now a (own_token_is_authorized token Htoken) Hbad) as [Hstatus Hstate].
  destruct (POST_generate token _ (Some token) None job_id now a) as [resp a'].
  cbn in Hstatus, Hstate. subst a'. cbn [fst snd].
  unfold raise_for_status.
  destruct Hstatus as [-> | ->]; cbn; (split; [done|]); (split; [by eexists|done]).
Qed.

End EndToEnd.

(** X9 on the first visit of a user. *)
Lemma valid_submission_witness :
  (generate_image (post_generate Scenario.token Delivered Scenario.job1 1)
     (App.index None Scenario.alice) Scenario.a_cat 1 1 (App.initial 0) AiService.initial).1.1
  = jsonify {[ "success" := PyBool true; "job_id" := PyStr Scenario.job1;
               "status" := PyStr "processing" ]} 200.
Proof.
  destruct (valid_submission_starts_a_job_of_the_session_user Scenario.token
              None Scenario.alice Scenario.alice Scenario.a_cat 1 1 Scenario.job1 1
              (App.initial 0) AiService.initial) as (Hanswer & _).
  - discriminate.
  - reflexivity.
  - vm_compute. reflexivity.
  - vm_compute. reflexivity.
  - exact Hanswer.
Defined.

(** X10 on a prompt with angle brackets. *)
Lemma internal_rejection_witness :
  status (generate_image (post_generate Scenario.token Delivered Scenario.job1 1)
            (Some Scenario.alice) Scenario.tagged_prompt 1 1 (App.initial 0) AiService.initial).1.1
  = 500.
Proof.
  destruct (internal_rejection_becomes_500 Scenario.token Scenario.alice Scenario.tagged_prompt
              1 1 Scenario.job1 1 (App.initial 0) AiService.initial "") as (Hstatus & _).
  - discriminate.
  - vm_compute. reflexivity.
  - vm_compute. reflexivity.
  - vm_compute. reflexivity.
  - intros m' Hm'. vm_compute in Hm'. discriminate.
  - exact Hstatus.
Defined.

(** ** What a worker run leaves behind *)

Lemma string_forall_app P a b :
  string_forall P (a +:+ b) = string_forall P a && string_forall P b.
Proof.
  induction a as [|c a IH]; [done|]. rewrite append_cons. cbn. by rewrite IH, andb_assoc.
Qed.

Lemma sanitized_plain_char c :
  negb (ImageUtils.invalid_char c) = true ->
  plain_char (if code c =? 32 then "_"%char else c) = true.
Proof. each_char c. Qed.

Lemma sanitized_plain p :
  string_forall plain_char (ImageUtils.replace_spaces (ImageUtils.re_sub_invalid p)) = true.
Proof.
  unfold ImageUtils.replace_spaces, ImageUtils.re_sub_invalid.
  induction p as [|c p IH]; [done|]. cbn [string_filter].
  destruct (negb (ImageUtils.invalid_char c)) eqn:Hc; [|done].
  cbn [string_map string_forall]. by rewrite (sanitized_plain_char c Hc), IH.
Qed.

Lemma digit_char_plain d : plain_char (ImageUtils.digit_char d) = true.
Proof.
  unfold ImageUtils.digit_char.
  pose proof (Z.mod_pos_bound d 10 ltac:(lia)) as Hk. set (k := d mod 10) in *.
  assert (Hcases : k = 0 \/ k = 1 \/ k = 2 \/ k = 3 \/ k = 4 \/ k = 5 \/ k = 6 \/ k = 7
                   \/ k = 8 \/ k = 9) by lia.
  clearbody k. by destruct Hcases as [->|[->|[->|[->|[->|[->|[->|[->|[->| ->]]]]]]]]].
Qed.

Lemma strftime_plain now : string_forall plain_char (ImageUtils.strftime now) = true.
Proof.
  unfold ImageUtils.strftime, ImageUtils.pad4, ImageUtils.pad2.
  rewrite !string_forall_app. cbn [string_forall].
  rewrite !digit_char_plain. done.
Qed.

Lemma strftime_length now : String.length (ImageUtils.strftime now) = 15%nat.
Proof.
  unfold ImageUtils.strftime, ImageUtils.pad4, ImageUtils.pad2. by rewrite !length_append.
Qed.

Lemma prefix_length n s : (String.length (prefix n s) <= n)%nat.
Proof.
  revert s. induction n as [|n IH]; intros [|c s]; cbn; try lia. specialize (IH s). lia.
Qed.

Lemma string_filter_length P s : (String.length (string_filter P s) <= String.length s)%nat.
Proof. induction s as [|c s IH]; [done|]. cbn. destruct (P c); cbn; lia. Qed.

(** X11: when the disk takes the file, [save_image] writes the image to
    one file, in the output directory, under a name made of the first ten
    characters of the prompt without the characters of the forbidden class
    and with its spaces turned to underscores, a dash, the time stamp, and
    ".png".  The name is a single path component (no slash, not empty,
    neither "." nor ".."), has between 20 and 30 characters, and holds no
    character of the forbidden class and no space. *)
Theorem saved_file_has_a_safe_name (cwd : string) (w : ImageUtils.worker_env) (image : Fs.image)
    (p output_path : string) (fs : Fs.files) :
  ImageUtils.w_disk w = None ->
  let name := file_name p (ImageUtils.w_now_save w) in
  ImageUtils.save_image cwd w image (PyStr p) output_path fs
  = Ret (Fs.write cwd (PosixPath.join output_path name) image fs)
  /\ component name
  /\ (20 <= String.length name <= 30)%nat
  /\ string_forall plain_char name = true.
Proof.
  intros Hdisk name. split; [|split; [|split]].
  - unfold ImageUtils.save_image. by rewrite Hdisk.
  - apply filename_component.
  - unfold name, file_name. rewrite !length_append, strftime_length.
    unfold ImageUtils.replace_spaces, ImageUtils.re_sub_invalid. rewrite string_map_length.
    pose proof (string_filter_length (fun c => negb (ImageUtils.invalid_char c)) (prefix 10 p)).
    pose proof (prefix_length 10 p). cbn [String.length]. lia.
  - unfold name, file_name. rewrite !string_forall_app, sanitized_plain, strftime_plain. done.
Qed.

(** X11 on a prompt with a slash and a question mark. *)
Lemma saved_file_witness :
  ImageUtils.save_image Scenario.cwd Scenario.within_a_second "PNG" (PyStr "a/b c? d")
    "/srv/app/output/u" ∅
  = Ret (Fs.write Scenario.cwd
           (PosixPath.join "/srv/app/output/u"
              (file_name "a/b c? d" (ImageUtils.w_now_save Scenario.within_a_second)))
           "PNG" ∅).
Proof.
  destruct (saved_file_has_a_safe_name Scenario.cwd Scenario.within_a_second "PNG" "a/b c? d"
              "/srv/app/output/u" ∅) as (Hsaved & _).
  - reflexivity.
  - exact Hsaved.
Defined.

Section Worker.
Variables token upload cwd : string.
Hypothesis Hroot : normal_root upload.

Lemma process_job_spec job_id data w a j p uid :
  data !! "prompt" = Some (PyStr p) ->
  data !! "user_id" = Some (PyStr uid) ->
  component uid ->
  jobs a !! job_id = Some j ->
  process_job upload cwd job_id data w a
  = match worker_fault w, ImageUtils.w_pipe w with
    | None, Ret image =>
        AiService.State
          (<[job_id := Job completed (j_started_at j) (j_data j)
                         (Some (job_result job_id (seed_used data w))) (j_error j)]> (jobs a))
          (<[job_id := uid +:+ "/" +:+ file_name p (ImageUtils.w_now_path w)]> (file_mapping a))
          (threads a)
          (<[upload +:+ "/" +:+ uid +:+ "/" +:+ file_name p (ImageUtils.w_now_save w) := image]>
             (AiService.fs a))
    | Some e, _ | None, Raise e =>
        AiService.State
          (<[job_id := Job failed (j_started_at j) (j_data j) (j_result j) (Some (str_exn e))]>
             (jobs a))
          (file_mapping a) (threads a) (AiService.fs a)
    end.
Proof.
  intros Hp Hu Huid Hj.
  unfold process_job, process_job_try, get_pipeline, dict_item, update_job, worker_fault.
  rewrite Hp, Hu. cbn [mbind result_bind ensure_user_directory].
  destruct (ImageUtils.w_pipeline w) as [e|]; cbn [mbind result_bind].
  { rewrite Hj. by destruct a. }
  unfold ImageUtils.process_image, ImageUtils.generate_image, ImageUtils.save_image,
    ImageUtils.setup_output_directory.
  destruct (ImageUtils.w_pipe w) as [image|e]; cbn [mbind result_bind].
  2:{ rewrite Hj. by destruct a. }
  destruct (ImageUtils.w_disk w) as [e|]; cbn [mbind result_bind].
  { rewrite Hj. by destruct a. }
  cbv zeta. fold (file_name p (ImageUtils.w_now_path w)) (file_name p (ImageUtils.w_now_save w)).
  assert (Hfile : forall now, component (file_name p now)) by (intros; apply filename_component).
  rewrite (relpath_below cwd upload uid _ Hroot Huid (Hfile _)).
  cbn [jobs file_mapping threads fs]. rewrite Hj. cbn [jobs file_mapping threads fs].
  unfold Fs.write, Fs.locate, PosixPath.abspath, PosixPath.isabs.
  rewrite (join_below upload uid _ Hroot Huid (Hfile _)).
  destruct Hroot as (Habs & _).
  rewrite (startswith_slash_app upload _ Habs).
  rewrite (normpath_below upload uid _ Hroot Huid (Hfile _)).
  unfold job_result, seed_used. done.
Qed.

Lemma locate_below dir file :
  component dir -> component file ->
  Fs.locate cwd (upload +:+ "/" +:+ dir +:+ "/" +:+ file) = upload +:+ "/" +:+ dir +:+ "/" +:+ file.
Proof.
  intros Hdir Hfile. unfold Fs.locate, PosixPath.abspath, PosixPath.isabs.
  destruct Hroot as (Habs & _). rewrite (startswith_slash_app upload _ Habs).
  by apply normpath_below.
Qed.

Lemma stored_file_is_served segment file_id dir file hdr qry a :
  component dir -> component file ->
  uuid_converter segment = Some file_id ->
  AiService.unauthorized token hdr qry = false ->
  file_mapping a !! file_id = Some (dir +:+ "/" +:+ file) ->
  (AiService.GET_output token upload cwd segment hdr qry a).1
  = match AiService.fs a !! (upload +:+ "/" +:+ dir +:+ "/" +:+ file) with
    | Some content => Response 200 (FileContent content)
    | None => jsonify {[ "error" := PyStr "Image not found" ]} 404
    end.
Proof.
  intros Hdir Hfile Hconv Hauth Hmap.
  unfold AiService.GET_output, AiService.require_auth_token, AiService.serve_image.
  rewrite Hconv, Hauth, Hmap.
  destruct (safe_join_below upload dir file Hroot Hdir Hfile) as [-> ->].
  unfold Fs.isfile, Fs.read. rewrite locate_below by done.
  destruct (AiService.fs a !! _) as [content|] eqn:Hfile'.
  - by rewrite bool_decide_eq_true_2.
  - by rewrite bool_decide_eq_false_2 by (by intros [? ?]).
Qed.

Lemma run_thread_spec job_id data rest w a j :
  take_thread job_id (threads a) = Some (data, rest) ->
  validate_input data = Ret (true, "") ->
  jobs a !! job_id = Some j ->
  exists p uid,
    data !! "prompt" = Some (PyStr p) /\ data !! "user_id" = Some (PyStr uid) /\ component uid
    /\ run_thread upload cwd job_id w a
       = match worker_fault w, ImageUtils.w_pipe w with
         | None, Ret image =>
             AiService.State
               (<[job_id := Job completed (j_started_at j) (j_data j)
                              (Some (job_result job_id (seed_used data w))) (j_error j)]> (jobs a))
               (<[job_id := uid +:+ "/" +:+ file_name p (ImageUtils.w_now_path w)]> (file_mapping a))
               rest
               (<[upload +:+ "/" +:+ uid +:+ "/" +:+ file_name p (ImageUtils.w_now_save w) := image]>
                  (AiService.fs a))
         | Some e, _ | None, Raise e =>
             AiService.State
               (<[job_id := Job failed (j_started_at j) (j_data j) (j_result j) (Some (str_exn e))]>
                  (jobs a))
               (file_mapping a) rest (AiService.fs a)
         end.
Proof.
  intros Htake Hvalid Hj.
  destruct (validate_input_strings _ _ Hvalid) as (p & uid & Hp & Hu & Hmatch).
  apply user_id_component in Hmatch.
  exists p, uid. split; [done|]. split; [done|]. split; [done|].
  unfold run_thread. rewrite Htake.
  by rewrite (process_job_spec job_id data w
                (AiService.State (jobs a) (file_mapping a) rest (AiService.fs a))
                j p uid Hp Hu Hmatch Hj).
Qed.


Lemma proxy_relays segment file_id hdr qry a content :
  uuid_converter segment = Some file_id ->
  App.unauthorized token hdr qry = false ->
  (AiService.GET_output token upload cwd file_id (Some token) None a).1
  = Response 200 (FileContent content) ->
  App.GET_output (System.get_output token upload cwd Delivered) token segment hdr qry a
  = (Response 200 (FileContent content), a).
Proof.
  intros Hconv Hauth Hup. unfold App.GET_output, App.require_auth_token, App.serve_image.
  rewrite Hconv, Hauth. unfold System.get_output. by rewrite Hup.
Qed.

(** X13: the image that a worker run generates is the image that the
    artifact endpoint serves for the job, on the internal tier and through
    the proxy of the public tier, when the run meets no exception and both
    of its clock readings fall in the same second.  The job is the one of a
    request that the internal tier accepted, its identifier is a UUID in
    the form of [str(uuid.uuid4())], and the caller is authorized. *)
Theorem generated_image_is_served job_id data rest w a j image hdr qry hdr' qry' :
  take_thread job_id (threads a) = Some (data, rest) ->
  validate_input data = Ret (true, "") ->
  jobs a !! job_id = Some j ->
  worker_fault w = None ->
  ImageUtils.w_pipe w = Ret image ->
  ImageUtils.strftime (ImageUtils.w_now_save w) = ImageUtils.strftime (ImageUtils.w_now_path w) ->
  uuid_converter job_id = Some job_id ->
  AiService.unauthorized token hdr qry = false ->
  App.unauthorized token hdr' qry' = false ->
  let a' := run_thread upload cwd job_id w a in
  observed_status job_id a' = Some completed
  /\ (AiService.GET_output token upload cwd job_id hdr qry a').1 = Response 200 (FileContent image)
  /\ App.GET_output (System.get_output token upload cwd Delivered) token job_id hdr' qry' a'
     = (Response 200 (FileContent image), a').
Proof.
  intros Htake Hvalid Hj Hfault Hpipe Hsame Hconv Hauth Hauth' a'.
  destruct (run_thread_spec job_id data rest w a j Htake Hvalid Hj)
    as (p & uid & Hp & Hu & Huid & Hrun).
  rewrite Hfault, Hpipe in Hrun. fold a' in Hrun.
  assert (Hname : file_name p (ImageUtils.w_now_save w) = file_name p (ImageUtils.w_now_path w)).
  { unfold file_name. by rewrite Hsame. }
  assert (Hfile : component (file_name p (ImageUtils.w_now_path w))) by apply filename_component.
  assert (Hmap : file_mapping a' !! job_id
                 = Some (uid +:+ "/" +:+ file_name p (ImageUtils.w_now_path w))).
  { rewrite Hrun. cbn. by rewrite lookup_insert_eq. }
  assert (Hfs : AiService.fs a' !! (upload +:+ "/" +:+ uid +:+ "/" +:+ file_name p (ImageUtils.w_now_path w))
                = Some image).
  { rewrite Hrun. cbn. rewrite Hname. by rewrite lookup_insert_eq. }
  assert (Hserved : forall h q, AiService.unauthorized token h q = false ->
            (AiService.GET_output token upload cwd job_id h q a').1
            = Response 200 (FileContent image)).
  { intros h q Hhq.
    rewrite (stored_file_is_served job_id job_id uid _ h q a' Huid Hfile Hconv Hhq Hmap).
    by rewrite Hfs. }
  split; [|split].
  - unfold observed_status. rewrite Hrun. cbn. by rewrite lookup_insert_eq.
  - by apply Hserved.
  - apply (proxy_relays job_id job_id); [done..|]. apply Hserved.
    apply own_token_is_authorized. by eapply authorized_token_nonempty.
Qed.

(** X14: the file of an image is named after the user, the first ten
    characters of the prompt and the second, and nothing else.  When two
    jobs of one user, whose prompts agree on their first ten characters,
    are run without exception within one second, the second run writes
    over the file of the first, and the artifact endpoint serves the image
    of the second job for the identifier of the first. *)
Theorem same_name_same_file id1 id2 data1 data2 rest1 rest2 w1 w2 a j1 j2 p1 p2 uid
    image1 image2 hdr qry :
  id1 <> id2 ->
  take_thread id1 (threads a) = Some (data1, rest1) ->
  take_thread id2 rest1 = Some (data2, rest2) ->
  validate_input data1 = Ret (true, "") ->
  validate_input data2 = Ret (true, "") ->
  jobs a !! id1 = Some j1 ->
  jobs a !! id2 = Some j2 ->
  data1 !! "prompt" = Some (PyStr p1) -> data2 !! "prompt" = Some (PyStr p2) ->
  data1 !! "user_id" = Some (PyStr uid) -> data2 !! "user_id" = Some (PyStr uid) ->
  prefix 10 p1 = prefix 10 p2 ->
  worker_fault w1 = None -> ImageUtils.w_pipe w1 = Ret image1 ->
  worker_fault w2 = None -> ImageUtils.w_pipe w2 = Ret image2 ->
  ImageUtils.strftime (ImageUtils.w_now_path w1) = ImageUtils.strftime (ImageUtils.w_now_save w2) ->
  uuid_converter id1 = Some id1 ->
  AiService.unauthorized token hdr qry = false ->
  let a' := run_thread upload cwd id2 w2 (run_thread upload cwd id1 w1 a) in
  observed_status id1 a' = Some completed
  /\ (AiService.GET_output token upload cwd id1 hdr qry a').1 = Response 200 (FileContent image2).
Proof.
  intros Hne Htake1 Htake2 Hvalid1 Hvalid2 Hj1 Hj2 Hp1 Hp2 Hu1 Hu2 Hprefix
    Hfault1 Hpipe1 Hfault2 Hpipe2 Hsame Hconv Hauth a'.
  destruct (run_thread_spec id1 data1 rest1 w1 a j1 Htake1 Hvalid1 Hj1)
    as (p1' & uid1 & Hp1' & Hu1' & Huid & Hrun1).
  rewrite Hp1 in Hp1'. rewrite Hu1 in Hu1'. injection Hp1' as <-. injection Hu1' as <-.
  rewrite Hfault1, Hpipe1 in Hrun1.
  set (a1 := run_thread upload cwd id1 w1 a) in *.
  assert (Htake2' : take_thread id2 (threads a1) = Some (data2, rest2)) by (by rewrite Hrun1).
  assert (Hj2' : jobs a1 !! id2 = Some j2).
  { rewrite Hrun1. cbn. by rewrite lookup_insert_ne. }
  destruct (run_thread_spec id2 data2 rest2 w2 a1 j2 Htake2' Hvalid2 Hj2')
    as (p2' & uid2 & Hp2' & Hu2' & _ & Hrun2).
  rewrite Hp2 in Hp2'. rewrite Hu2 in Hu2'. injection Hp2' as <-. injection Hu2' as <-.
  rewrite Hfault2, Hpipe2 in Hrun2. fold a' in Hrun2.
  assert (Hname : file_name p2 (ImageUtils.w_now_save w2) = file_name p1 (ImageUtils.w_now_path w1)).
  { unfold file_name. by rewrite Hsame, Hprefix. }
  assert (Hfile : component (file_name p1 (ImageUtils.w_now_path w1))) by apply filename_component.
  split.
  - unfold observed_status. rewrite Hrun2. cbn. rewrite lookup_insert_ne by done.
    rewrite Hrun1. cbn. by rewrite lookup_insert_eq.
  - rewrite (stored_file_is_served id1 id1 uid (file_name p1 (ImageUtils.w_now_path w1))
               hdr qry a' Huid Hfile Hconv Hauth).
    + rewrite Hrun2. cbn. rewrite Hname. by rewrite lookup_insert_eq.
    + rewrite Hrun2. cbn. rewrite lookup_insert_ne by done.
      rewrite Hrun1. cbn. by rewrite lookup_insert_eq.
Qed.

End Worker.


(** X13 on the job of a first request, run within one second. *)
Lemma generated_image_witness :
  let a := ai (run Scenario.token Scenario.upload_folder Scenario.cwd (System.initial 0)
                 [ Submit (Some Scenario.alice) Scenario.a_cat 1 1 Delivered Scenario.job1 1 ]) in
  let a' := run_thread Scenario.upload_folder Scenario.cwd Scenario.job1
              Scenario.within_a_second a in
  (AiService.GET_output Scenario.token Scenario.upload_folder Scenario.cwd Scenario.job1
     (Some Scenario.token) None a').1
  = Response 200 (FileContent "PNG").
Proof.
  set (data := <["user_id" := PyStr Scenario.alice]> Scenario.a_cat).
  destruct (generated_image_is_served Scenario.token Scenario.upload_folder Scenario.cwd
              ltac:(vm_compute; repeat split)
              Scenario.job1 data [] Scenario.within_a_second
              (ai (run Scenario.token Scenario.upload_folder Scenario.cwd (System.initial 0)
                     [ Submit (Some Scenario.alice) Scenario.a_cat 1 1 Delivered Scenario.job1 1 ]))
              (Job processing 1 data None None) "PNG"
              (Some Scenario.token) None (Some Scenario.token) None) as (_ & Hserved & _).
  - vm_compute. reflexivity.
  - vm_compute. reflexivity.
  - vm_compute. reflexivity.
  - reflexivity.
  - reflexivity.
  - reflexivity.
  - vm_compute. reflexivity.
  - vm_compute. reflexivity.
  - vm_compute. reflexivity.
  - exact Hserved.
Defined.

(** X14 on two requests of a user, for a cat on a mat and for a cat on a
    hat, both run within one second: the first identifier serves the
    second image. *)
Lemma same_name_witness :
  let a := ai (run Scenario.token Scenario.upload_folder Scenario.cwd (System.initial 0)
                 [ Submit (Some Scenario.alice) Scenario.a_cat_on_a_mat 1 1 Delivered Scenario.job1 1;
                   Submit (Some Scenario.alice) Scenario.a_cat_on_a_hat 2 2 Delivered Scenario.job2 2 ]) in
  let a' := run_thread Scenario.upload_folder Scenario.cwd Scenario.job2
              Scenario.within_the_same_second
              (run_thread Scenario.upload_folder Scenario.cwd Scenario.job1
                 Scenario.within_a_second a) in
  (AiService.GET_output Scenario.token Scenario.upload_folder Scenario.cwd Scenario.job1
     (Some Scenario.token) None a').1
  = Response 200 (FileContent "PNG2").
Proof.
  set (data1 := <["user_id" := PyStr Scenario.alice]> Scenario.a_cat_on_a_mat).
  set (data2 := <["user_id" := PyStr Scenario.alice]> Scenario.a_cat_on_a_hat).
  destruct (same_name_same_file Scenario.token Scenario.upload_folder Scenario.cwd
              ltac:(vm_compute; repeat split)
              Scenario.job1 Scenario.job2 data1 data2 [(Scenario.job2, data2)] []
              Scenario.within_a_second Scenario.within_the_same_second
              (ai (run Scenario.token Scenario.upload_folder Scenario.cwd (System.initial 0)
                     [ Submit (Some Scenario.alice) Scenario.a_cat_on_a_mat 1 1 Delivered Scenario.job1 1;
                       Submit (Some Scenario.alice) Scenario.a_cat_on_a_hat 2 2 Delivered Scenario.job2 2 ]))
              (Job processing 1 data1 None None) (Job processing 2 data2 None None)
              "a cat on a mat" "a cat on a hat" Scenario.alice "PNG" "PNG2"
              (Some Scenario.token) None) as (_ & Hserved).
  - discriminate.
  - vm_compute. reflexivity.
  - vm_compute. reflexivity.
  - vm_compute. reflexivity.
  - vm_compute. reflexivity.
  - vm_compute. reflexivity.
  - vm_compute. reflexivity.
  - vm_compute. reflexivity.
  - vm_compute. reflexivity.
  - vm_compute. reflexivity.
  - vm_compute. reflexivity.
  - reflexivity.
  - reflexivity.
  - reflexivity.
  - reflexivity.
  - reflexivity.
  - reflexivity.
  - vm_compute. reflexivity.
  - vm_compute. reflexivity.
  - exact Hserved.
Defined.

(** ** Stored artifact paths and shown results over a run *)
Section Results.
Variables token upload cwd : string.

Lemma process_job_general job_id data w a :
  let a' := process_job upload cwd job_id data w a in
  (forall k, is_Some (file_mapping a !! k) -> is_Some (file_mapping a' !! k))
  /\ (jobs a' = jobs a
      \/ exists j', jobs a' = <[job_id := j']> (jobs a) /\ entry_ok a' job_id j'
                    /\ j_status j' <> processing).
Proof.
  unfold process_job, process_job_try.
  destruct (_ ← get_pipeline w; _) as [[[image_path seed] fs']|e0].
  2:{ unfold update_job. destruct (jobs a !! job_id) as [j|] eqn:Hj; cbn.
      - split; [done|]. right. eexists. split; [done|]. split; [by eexists|done].
      - split; [done|]. by left. }
  destruct (PosixPath.relpath _ _ _) as [rel|e1].
  2:{ unfold update_job. cbn. destruct (jobs a !! job_id) as [j|] eqn:Hj; cbn.
      - split; [done|]. right. eexists. split; [done|]. split; [by eexists|done].
      - split; [done|]. by left. }
  unfold update_job. cbn. destruct (jobs a !! job_id) as [j|] eqn:Hj; cbn.
  - split.
    + intros k Hk. destruct (decide (job_id = k)) as [->|Hne];
        [by rewrite lookup_insert_eq|by rewrite lookup_insert_ne].
    + right. eexists. split; [done|]. split; [|done]. split; [by eexists|].
      cbn. by rewrite lookup_insert_eq.
  - rewrite Hj. cbn. split.
    + intros k Hk. destruct (decide (job_id = k)) as [->|Hne];
        [by rewrite lookup_insert_eq|by rewrite lookup_insert_ne].
    + by left.
Qed.

Lemma entry_ok_mono a a' job_id j :
  (forall k, is_Some (file_mapping a !! k) -> is_Some (file_mapping a' !! k)) ->
  entry_ok a job_id j -> entry_ok a' job_id j.
Proof.
  intros Hmono. unfold entry_ok. destruct (j_status j); [done| |done].
  intros [? ?]. split; [done|]. by apply Hmono.
Qed.

Lemma results_inv_initial : results_inv AiService.initial.
Proof. intros job_id j Hj. cbn in Hj. by rewrite lookup_empty in Hj. Qed.

Lemma started_results job_id now data a :
  results_inv a -> results_inv (started job_id now data a).
Proof.
  intros Hinv i j. cbn. destruct (decide (job_id = i)) as [->|Hne].
  - rewrite lookup_insert_eq. by intros [= <-].
  - rewrite lookup_insert_ne by done. intros Hj. exact (Hinv _ _ Hj).
Qed.

Lemma run_thread_results job_id w a :
  results_inv a -> results_inv (run_thread upload cwd job_id w a).
Proof.
  intros Hinv. unfold run_thread.
  destruct (take_thread job_id (threads a)) as [[data rest]|]; [|done].
  set (a0 := AiService.State (jobs a) (file_mapping a) rest (AiService.fs a)).
  destruct (process_job_general job_id data w a0) as [Hmono Hjobs].
  intros i j Hi.
  destruct Hjobs as [Heq|(j' & Heq & Hok & _)]; rewrite Heq in Hi.
  - eapply entry_ok_mono; [exact Hmono|]. exact (Hinv _ _ Hi).
  - destruct (decide (job_id = i)) as [->|Hne].
    + rewrite lookup_insert_eq in Hi. by injection Hi as <-.
    + rewrite lookup_insert_ne in Hi by done.
      eapply entry_ok_mono; [exact Hmono|]. exact (Hinv _ _ Hi).
Qed.

Lemma step_results st ev :
  results_inv (ai st) -> results_inv (ai (step token upload cwd st ev)).
Proof.
  intros Hinv. destruct ev as [session data tc t net job_id now|data hdr qry job_id now|job_id w].
  - destruct (submit_outcome token upload cwd st session data tc t net job_id now)
      as [Heq|[data' Heq]]; rewrite Heq; [done|]. by apply started_results.
  - cbn [step ai].
    destruct (POST_generate_outcome token data hdr qry job_id now (ai st)) as [Heq|Heq];
      rewrite Heq; [done|]. by apply started_results.
  - cbn [step ai]. by apply run_thread_results.
Qed.

Lemma run_results evs : forall st,
  results_inv (ai st) -> results_inv (ai (run token upload cwd st evs)).
Proof.
  induction evs as [|ev evs IH]; intros st Hinv; [done|].
  cbn. apply IH. by apply step_results.
Qed.

(** X15: in every state that a run of the system reaches, the status
    endpoint of the internal tier answers 404 "Job not found" for an
    identifier that is not in the job table and 200 for one that is, never
    500.  The answer for a job holds its status and the time it was
    started at; for a failed job also the text of its error; for a
    completed job also the job identifier, the path "/output/<job_id>" and
    the seed, and that identifier is then a key of the artifact mapping. *)
Theorem status_endpoint_answers (start : Z) (evs : list event) (job_id : string) :
  let a := ai (run token upload cwd (System.initial start) evs) in
  match jobs a !! job_id with
  | None => get_job_status job_id a = jsonify {[ "error" := PyStr "Job not found" ]} 404
  | Some j =>
      exists answer,
        get_job_status job_id a = jsonify answer 200
        /\ answer !! "status" = Some (PyStr (status_str (j_status j)))
        /\ answer !! "started_at" = Some (PyInt (j_started_at j))
        /\ (j_status j = failed -> exists e, j_error j = Some e /\ answer !! "error" = Some (PyStr e))
        /\ (j_status j = completed ->
            answer !! "job_id" = Some (PyStr job_id)
            /\ answer !! "image_path" = Some (PyStr ("/output/" +:+ job_id))
            /\ is_Some (answer !! "seed")
            /\ is_Some (file_mapping a !! job_id))
  end.
Proof.
  intros a.
  pose proof (run_results evs (System.initial start) results_inv_initial) as Hinv. fold a in Hinv.
  unfold get_job_status. destruct (jobs a !! job_id) as [j|] eqn:Hj; [|done].
  specialize (Hinv _ _ Hj). unfold entry_ok in Hinv.
  destruct (j_status j) eqn:Hstatus.
  - eexists. split; [done|]. cbn. done.
  - destruct Hinv as [[seed ->] Hmapped]. eexists. split; [done|].
    unfold job_result. cbn. repeat split; done.
  - destruct Hinv as [e ->]. eexists. split; [done|]. cbn.
    repeat split; try done; intros _; by exists e.
Qed.

Lemma process_job_file_mapping job_id data w a :
  file_mapping (process_job upload cwd job_id data w a) = file_mapping a
  \/ exists stored, file_mapping (process_job upload cwd job_id data w a)
                    = <[job_id := stored]> (file_mapping a).
Proof.
  unfold process_job, process_job_try.
  destruct (_ ← get_pipeline w; _) as [[[image_path seed] fs']|e0].
  2:{ unfold update_job. destruct (jobs a !! job_id); cbn; by left. }
  destruct (PosixPath.relpath _ _ _) as [rel|e1].
  2:{ unfold update_job. cbn. destruct (jobs a !! job_id); cbn; by left. }
  unfold update_job. cbn. destruct (jobs a !! job_id) as [j|] eqn:Hj; cbn.
  - right. by eexists.
  - rewrite Hj. cbn. right. by eexists.
Qed.

Lemma started_mapping used a job_id now data :
  job_table_inv used a -> mapping_inv a -> job_id ∉ used ->
  mapping_inv (started job_id now data a).
Proof.
  intros [_ _ Hdrawn _] Hmap Hfresh id Hid. cbn in *.
  destruct (Hmap id Hid) as [Hjob Hthread].
  assert (Hne : id <> job_id) by (intros ->; by apply Hfresh, Hdrawn).
  split; [by rewrite lookup_insert_ne|].
  rewrite fmap_app. cbn. intros [?|Hin]%elem_of_app; [done|].
  by apply list_elem_of_singleton in Hin.
Qed.

Lemma run_thread_mapping used a job_id w :
  job_table_inv used a -> mapping_inv a ->
  mapping_inv (run_thread upload cwd job_id w a)
  /\ (forall id stored, file_mapping a !! id = Some stored ->
        file_mapping (run_thread upload cwd job_id w a) !! id = Some stored).
Proof.
  intros [Hpending Hone _ _] Hmap. unfold run_thread.
  destruct (take_thread job_id (threads a)) as [[data rest]|] eqn:Htake; [|done].
  destruct (take_thread_spec _ _ _ _ Htake) as (Hin & Hnd & Hall).
  destruct (Hnd Hone) as [Hnot Hrest].
  destruct (Hpending _ _ Hin) as (j & Hj & _).
  set (a0 := AiService.State (jobs a) (file_mapping a) rest (AiService.fs a)).
  destruct (process_job_outcome upload cwd job_id data w a0 j Hj)
    as (j' & Hjobs & _ & _ & Hthreads).
  assert (Hunmapped : file_mapping a !! job_id = None).
  { destruct (file_mapping a !! job_id) eqn:Hm; [|done].
    destruct (Hmap job_id ltac:(by eexists)) as [_ Hno]. destruct Hno.
    apply list_elem_of_fmap. by exists (job_id, data). }
  split.
  - intros id Hid. rewrite Hjobs, Hthreads. cbn.
    destruct (decide (id = job_id)) as [->|Hne].
    + split; [by rewrite lookup_insert_eq|done].
    + assert (Hbefore : is_Some (file_mapping a !! id)).
      { destruct (process_job_file_mapping job_id data w a0) as [Heq|[stored Heq]];
          rewrite Heq in Hid; [done|]. by rewrite lookup_insert_ne in Hid. }
      destruct (Hmap id Hbefore) as [Hjob Hthread].
      split; [by rewrite lookup_insert_ne|].
      intros Hin'. apply Hthread. apply list_elem_of_fmap in Hin' as (x & -> & Hx).
      apply list_elem_of_fmap. exists x. split; [done|]. by apply Hall.
  - intros id stored Hid.
    destruct (process_job_file_mapping job_id data w a0) as [Heq|[stored' Heq]]; rewrite Heq;
      [done|]. cbn. rewrite lookup_insert_ne; [done|]. intros <-. congruence.
Qed.

Lemma step_mapping used st ev :
  job_table_inv used (ai st) -> mapping_inv (ai st) -> fresh_ids used [ev] ->
  mapping_inv (ai (step token upload cwd st ev))
  /\ (forall id stored, file_mapping (ai st) !! id = Some stored ->
        file_mapping (ai (step token upload cwd st ev)) !! id = Some stored).
Proof.
  intros Hinv Hmap Hfresh.
  destruct ev as [session data tc t net job_id now|data hdr qry job_id now|job_id w].
  - cbn in Hfresh. destruct Hfresh as [Hfresh _].
    destruct (submit_outcome token upload cwd st session data tc t net job_id now)
      as [Heq|[data' Heq]]; rewrite Heq; [done|].
    split; [by eapply started_mapping|done].
  - cbn in Hfresh. destruct Hfresh as [Hfresh _]. cbn [step ai].
    destruct (POST_generate_outcome token data hdr qry job_id now (ai st)) as [Heq|Heq];
      rewrite Heq; [done|].
    split; [by eapply started_mapping|done].
  - cbn [step ai]. by eapply run_thread_mapping.
Qed.

Lemma run_mapping evs : forall used st,
  job_table_inv used (ai st) -> mapping_inv (ai st) -> fresh_ids used evs ->
  mapping_inv (ai (run token upload cwd st evs))
  /\ (forall id stored, file_mapping (ai st) !! id = Some stored ->
        file_mapping (ai (run token upload cwd st evs)) !! id = Some stored).
Proof.
  induction evs as [|ev evs IH]; intros used st Hinv Hmap Hfresh; [done|].
  assert (Hev : fresh_ids used [ev]).
  { cbn in *. destruct (draws ev); [by destruct Hfresh|done]. }
  destruct (step_inv token upload cwd used st ev Hinv Hev) as (used1 & _ & Hinv1 & _ & Hrest1).
  destruct (step_mapping used st ev Hinv Hmap Hev) as [Hmap1 Hkeep].
  destruct (IH used1 _ Hinv1 Hmap1 (Hrest1 _ Hfresh)) as [Hmap2 Hkeep2].
  cbn [run fold_left]. split; [exact Hmap2|].
  intros id stored Hid. by apply Hkeep2, Hkeep.
Qed.

(** X16: in a run in which every job identifier drawn is new, the path
    stored in the artifact mapping for a job is stored once: from the
    moment it is there it stays the same through the rest of the run. *)
Theorem stored_artifact_path_is_final (start : Z) (evs evs' : list event)
    (job_id stored : string) :
  fresh_ids ∅ (evs ++ evs') ->
  file_mapping (ai (run token upload cwd (System.initial start) evs)) !! job_id = Some stored ->
  file_mapping (ai (run token upload cwd (System.initial start) (evs ++ evs'))) !! job_id
  = Some stored.
Proof.
  intros Hfresh Hstored.
  assert (Hfresh1 : fresh_ids ∅ evs).
  { clear -Hfresh. revert Hfresh. generalize (∅ : gset string).
    induction evs as [|ev evs0 IH]; intros used; cbn; [done|].
    destruct (draws ev); [intros [? ?]; split; [done|by apply IH]|apply IH]. }
  assert (Hmap0 : mapping_inv (ai (System.initial start))).
  { intros id [x Hx]. cbn in Hx. by rewrite lookup_empty in Hx. }
  destruct (run_inv token upload cwd evs ∅ (System.initial start) job_table_inv_initial Hfresh1)
    as (used & _ & Hinv & _ & Hrest).
  destruct (run_mapping evs ∅ (System.initial start) job_table_inv_initial Hmap0 Hfresh1)
    as [Hmap _].
  unfold run. rewrite fold_left_app.
  destruct (run_mapping evs' used _ Hinv Hmap (Hrest _ Hfresh)) as [_ Hkeep].
  by apply Hkeep.
Qed.

End Results.

(** X16 on a job that is run, followed by a second attempt to run it and
    by another job of the same user and prompt. *)
Lemma stored_artifact_path_witness :
  file_mapping
    (ai (run Scenario.token Scenario.upload_folder Scenario.cwd (System.initial 0)
           ([ Submit (Some Scenario.alice) Scenario.a_cat 1 1 Delivered Scenario.job1 1;
              Work Scenario.job1 Scenario.within_a_second ]
            ++ [ Work Scenario.job1 Scenario.across_a_second;
                 Submit (Some Scenario.alice) Scenario.a_cat 2 2 Delivered Scenario.job2 2;
                 Work Scenario.job2 Scenario.across_a_second ])))
    !! Scenario.job1
  = Some "123e4567-e89b-12d3-a456-426614174000/a_cat-20250102-120000.png".
Proof.
  apply (stored_artifact_path_is_final Scenario.token Scenario.upload_folder Scenario.cwd 0
           [ Submit (Some Scenario.alice) Scenario.a_cat 1 1 Delivered Scenario.job1 1;
             Work Scenario.job1 Scenario.within_a_second ]
           [ Work Scenario.job1 Scenario.across_a_second;
             Submit (Some Scenario.alice) Scenario.a_cat 2 2 Delivered Scenario.job2 2;
             Work Scenario.job2 Scenario.across_a_second ]).
  - cbn. repeat split; by (apply (bool_decide_unpack _); vm_compute).
  - vm_compute. reflexivity.
Defined.

(** ** The endpoints that relay: status, artifact, health *)
Section Relays.
Variables token upload cwd : string.

(** X17: the status endpoint of the public tier, for an authorized caller
    and a job identifier in the form of a UUID.  Over a working network it
    passes on the answer of the internal tier when that is 200; for an
    identifier that the internal tier does not know, whose answer there is
    404, it answers 500 "Failed to check job status", as it does when the
    network call times out or fails.  It changes nothing. *)
Theorem public_status_relays_or_fails (net : network) (job_id : string)
    (hdr qry : option string) (a : AiService.state) :
  uuid_converter job_id = Some job_id ->
  App.unauthorized token hdr qry = false ->
  let public := (App.Proxy.GET_status (System.get_status token net) token job_id hdr qry a).1 in
  let internal := AiService.get_job_status job_id a in
  let failed := jsonify {[ "error" := PyStr "Failed to check job status" ]} 500 in
  (App.Proxy.GET_status (System.get_status token net) token job_id hdr qry a).2 = a
  /\ (net = Delivered ->
      (status internal = 200 -> public = internal)
      /\ (jobs a !! job_id = None -> public = failed))
  /\ (forall m, net = Unreachable (Timeout m) \/ net = Unreachable (RequestException m)
                \/ net = ResponseLost (Timeout m) \/ net = ResponseLost (RequestException m) ->
      public = failed).
Proof.
  intros _ Hauth. cbn zeta. unfold App.Proxy.GET_status, App.require_auth_token. rewrite Hauth.
  pose proof (own_token_is_authorized token (authorized_token_nonempty token hdr qry Hauth))
    as Htoken.
  split; [|split].
  - unfold App.Proxy.get_job_status, System.get_status.
    destruct net as [|e|e]; cbn; [|by destruct e..].
    by repeat case_match.
  - intros ->. unfold App.Proxy.get_job_status, System.get_status.
    unfold AiService.GET_status, AiService.require_auth_token. rewrite Htoken. split.
    + unfold raise_for_status, AiService.get_job_status.
      destruct (jobs a !! job_id) as [j|]; [|done].
      destruct (j_status j), (j_result j), (j_error j); cbn; done.
    + intros Hnone. unfold AiService.get_job_status. by rewrite Hnone.
  - intros m Hnet. unfold App.Proxy.get_job_status, System.get_status.
    by destruct Hnet as [->|[->|[->| ->]]].
Qed.

(** X18: the health endpoint of the public tier answers 200 or 503 and
    never raises.  It answers 200 'healthy' exactly when the network call
    comes through and the internal tier can obtain its pipeline.  When the
    internal tier cannot, its 500 with the text of the exception becomes
    503 with the reason "AI service reported unhealthy" (the text is under
    'error', the public tier looks under 'reason'); when the call times
    out or fails the reason is "Failed to connect to AI service".
    [check_ai_service] returns [True] in the first case and [False] in the
    others. *)
Theorem public_health_follows_the_pipeline (net : network) (w : ImageUtils.worker_env)
    (a : AiService.state) :
  token <> "" ->
  let public := (App.Proxy.health_check (System.get_health token net w) a).1 in
  let check := (App.Proxy.check_ai_service (System.get_health token net w) a).1 in
  let unhealthy reason :=
    jsonify {[ "status" := PyStr "unhealthy"; "reason" := PyStr reason ]} 503 in
  (status public = 200 \/ status public = 503)
  /\ (public = jsonify {[ "status" := PyStr "healthy" ]} 200
      <-> net = Delivered /\ ImageUtils.w_pipeline w = None)
  /\ (net = Delivered -> forall e, ImageUtils.w_pipeline w = Some e ->
      public = unhealthy "AI service reported unhealthy" /\ check = Ret false)
  /\ (net = Delivered -> ImageUtils.w_pipeline w = None -> check = Ret true)
  /\ (forall m, net = Unreachable (Timeout m) \/ net = Unreachable (RequestException m)
                \/ net = ResponseLost (Timeout m) \/ net = ResponseLost (RequestException m) ->
      public = unhealthy "Failed to connect to AI service" /\ check = Ret false).
Proof.
  intros Htoken. cbn zeta.
  pose proof (own_token_is_authorized token Htoken) as Hauth.
  unfold App.Proxy.health_check, App.Proxy.check_ai_service, System.get_health,
    AiService.GET_health, AiService.require_auth_token, AiService.health_check,
    AiService.get_pipeline.
  rewrite Hauth.
  destruct net as [|e|e].
  - destruct (ImageUtils.w_pipeline w) as [e|]; cbn.
    + split; [by right|]. split; [split; [done|by intros [_ ?]]|].
      split; [done|]. split; [done|]. intros m [?|[?|[?|?]]]; done.
    + split; [by left|]. split; [done|]. split; [done|]. split; [done|].
      intros m [?|[?|[?|?]]]; done.
  - split; [destruct e; by right|]. split; [split; [by destruct e|by intros [? _]]|].
    split; [done|]. split; [done|].
    intros m [[= ->]|[[= ->]|[?|?]]]; done.
  - split; [destruct e; by right|]. split; [split; [by destruct e|by intros [? _]]|].
    split; [done|]. split; [done|].
    intros m [?|[?|[[= ->]|[= ->]]]]; done.
Qed.

(** X19: the artifact endpoint of the public tier answers an authorized
    caller with what the internal tier answers when that is 200, and with
    404 "Image not found" in every other case: an answer of the internal
    tier that is not 200, a call that times out or fails.  An identifier
    that is not shaped like a UUID is answered 404 by the route, a caller
    without the token 401.  It changes nothing. *)
Theorem public_artifact_errors_are_404 (net : network) (segment : string)
    (hdr qry : option string) (a : AiService.state) :
  token <> "" ->
  let public := App.GET_output (System.get_output token upload cwd net) token segment hdr qry a in
  let internal file_id :=
    (AiService.GET_output token upload cwd file_id (Some token) None a).1 in
  let not_found := jsonify {[ "error" := PyStr "Image not found" ]} 404 in
  public.2 = a
  /\ (uuid_converter segment = None -> public.1 = Response 404 ErrorPage)
  /\ (forall file_id, uuid_converter segment = Some file_id ->
      (App.unauthorized token hdr qry = true ->
         public.1 = jsonify {[ "error" := PyStr "Unauthorized" ]} 401)
      /\ (App.unauthorized token hdr qry = false -> net = Delivered ->
          (status (internal file_id) = 200 -> public.1 = internal file_id)
          /\ (status (internal file_id) <> 200 -> public.1 = not_found))
      /\ (App.unauthorized token hdr qry = false ->
          forall m, net = Unreachable (Timeout m) \/ net = Unreachable (RequestException m)
                    \/ net = ResponseLost (Timeout m) \/ net = ResponseLost (RequestException m) ->
          public.1 = not_found)).
Proof.
  intros Htoken. cbn zeta. unfold App.GET_output.
  destruct (uuid_converter segment) as [file_id|] eqn:Hconv; [|done].
  unfold App.require_auth_token.
  destruct (App.unauthorized token hdr qry) eqn:Hauth.
  { split; [done|]. split; [done|]. intros ? [= <-]. done. }
  unfold App.serve_image, System.get_output.
  split; [|split; [done|]].
  - destruct net as [|e|e]; cbn; [|by destruct e..]. by destruct (raise_for_status _).
  - intros ? [= <-]. split; [done|]. split.
    + intros _ ->. cbn [fst snd].
      pose proof (uuid_converter_canonical _ _ Hconv) as Hcanon.
      unfold AiService.GET_output. rewrite Hcanon.
      unfold AiService.require_auth_token.
      rewrite (own_token_is_authorized token Htoken).
      unfold AiService.serve_image, raise_for_status.
      destruct (file_mapping a !! file_id) as [stored|]; cbn; [|done].
      destruct (negb _); cbn; [done|].
      destruct (safe_join upload stored) as [path|]; cbn; [|done].
      destruct (Fs.read cwd path (AiService.fs a)); cbn; done.
    + intros _ m [->|[->|[->| ->]]]; done.
Qed.

End Relays.

(** X17 on an identifier that no job was given. *)
Lemma public_status_witness :
  (App.Proxy.GET_status (System.get_status Scenario.token Delivered) Scenario.token
     Scenario.job2 (Some Scenario.token) None AiService.initial).1
  = jsonify {[ "error" := PyStr "Failed to check job status" ]} 500.
Proof.
  destruct (public_status_relays_or_fails Scenario.token Delivered Scenario.job2
              (Some Scenario.token) None AiService.initial) as (_ & Hdelivered & _).
  - vm_compute. reflexivity.
  - vm_compute. reflexivity.
  - destruct (Hdelivered eq_refl) as [_ Hunknown]. apply Hunknown. reflexivity.
Defined.

(** X18 on an internal tier that is out of memory when it loads the
    pipeline. *)
Lemma public_health_witness :
  (App.Proxy.health_check
     (System.get_health Scenario.token Delivered
        (ImageUtils.WorkerEnv (Some (Exception "CUDA out of memory")) (Ret "PNG") 7
           (ImageUtils.Datetime 2025 1 2 12 0 0) (ImageUtils.Datetime 2025 1 2 12 0 0) None))
     AiService.initial).1
  = jsonify {[ "status" := PyStr "unhealthy";
               "reason" := PyStr "AI service reported unhealthy" ]} 503.
Proof.
  destruct (public_health_follows_the_pipeline Scenario.token Delivered
              (ImageUtils.WorkerEnv (Some (Exception "CUDA out of memory")) (Ret "PNG") 7
                 (ImageUtils.Datetime 2025 1 2 12 0 0) (ImageUtils.Datetime 2025 1 2 12 0 0) None)
              AiService.initial) as (_ & _ & Hunhealthy & _).
  - discriminate.
  - destruct (Hunhealthy eq_refl (Exception "CUDA out of memory") eq_refl) as [Hpublic _].
    exact Hpublic.
Defined.

(** X19 on an artifact request during which the internal tier cannot be
    reached. *)
Lemma public_artifact_witness :
  (App.GET_output
     (System.get_output Scenario.token Scenario.upload_folder Scenario.cwd
        (Unreachable (RequestException "Connection refused")))
     Scenario.token Scenario.job1 (Some Scenario.token) None AiService.initial).1
  = jsonify {[ "error" := PyStr "Image not found" ]} 404.
Proof.
  destruct (public_artifact_errors_are_404 Scenario.token Scenario.upload_folder Scenario.cwd
              (Unreachable (RequestException "Connection refused")) Scenario.job1
              (Some Scenario.token) None AiService.initial) as (_ & _ & Hshaped).
  - discriminate.
  - destruct (Hshaped Scenario.job1) as (_ & _ & Hfails).
    + vm_compute. reflexivity.
    + apply (Hfails ltac:(vm_compute; reflexivity) "Connection refused"). right. by left.
Defined.

(** ** cleanup_output.py: emptying the output folder *)
Section Folder.

Lemma is_name_component n : Fs.is_name n = true <-> component n.
Proof.
  unfold Fs.is_name, component, no_slash. rewrite !andb_true_iff, !negb_true_iff.
  destruct (String.eqb_spec n ""), (String.eqb_spec n "."), (String.eqb_spec n "..");
    split; try (intros (((? & ?) & ?) & ?)); try (intros (? & ? & ? & ?)); done.
Qed.

Lemma child_app dir n : Fs.child dir n = Fs.child dir "" +:+ n.
Proof.
  unfold Fs.child. destruct (endswith_char "/" dir);
    by rewrite ?append_assoc, ?append_nil_r, ?append_nil_l.
Qed.

Lemma append_inv_head (a x y : string) : a +:+ x = a +:+ y -> x = y.
Proof. induction a as [|c a IH]; [done|]. rewrite !append_cons. intros [= H]. by apply IH. Qed.

Lemma strip_prefix_app p s : Fs.strip_prefix p (p +:+ s) = Some s.
Proof. induction p as [|c p IH]; [done|]. rewrite append_cons. cbn. by rewrite Ascii.eqb_refl. Qed.

Lemma strip_prefix_Some p s r : Fs.strip_prefix p s = Some r -> s = p +:+ r.
Proof.
  revert s. induction p as [|c p IH]; intros s; cbn; [by intros [= ->]|].
  destruct s as [|d s]; [done|].
  destruct (Ascii.eqb_spec c d) as [->|]; [|done]. intros H%IH. by rewrite append_cons, H.
Qed.

Lemma entry_name_Some dir k n :
  Fs.entry_name dir k = Some n <-> Fs.is_name n = true /\ k = Fs.child dir n.
Proof.
  unfold Fs.entry_name. split.
  - destruct (Fs.strip_prefix _ k) as [r|] eqn:Hr; [|done].
    destruct (Fs.is_name r) eqn:Hname; [|done]. intros [= <-]. split; [done|].
    rewrite (child_app dir r). by apply strip_prefix_Some.
  - intros [Hname ->]. rewrite (child_app dir n), strip_prefix_app. by rewrite Hname.
Qed.

Lemma join_name a n : a <> "" -> component n -> PosixPath.join a n = Fs.child a n.
Proof.
  intros Ha Hn. unfold PosixPath.join, Fs.child. rewrite (component_not_abs n Hn).
  destruct (String.eqb_spec a ""); [done|]. cbn. by destruct (endswith_char "/" a).
Qed.

Lemma child_nonempty a n : component n -> Fs.child a n <> "".
Proof.
  intros (_ & Hne & _). unfold Fs.child.
  destruct (endswith_char "/" a); destruct a; rewrite ?append_nil_l, ?append_cons; try done.
Qed.

Lemma startswith_child a n :
  a <> "" -> startswith "/" (Fs.child a n) = startswith "/" a.
Proof.
  intros Ha. destruct a as [|c a]; [done|]. unfold Fs.child, startswith.
  destruct (endswith_char "/" (String c a)); rewrite !append_cons; cbn [String.prefix];
    destruct (Ascii.ascii_dec "/"%char c); by rewrite ?prefix_nil.
Qed.

Lemma endswith_child_base a b :
  b <> "" -> endswith_char "/" (a +:+ b) = endswith_char "/" b.
Proof. apply endswith_app. Qed.

Lemma join_child cwd a n :
  a <> "" -> startswith "/" a = false -> component n ->
  PosixPath.join cwd (Fs.child a n) = Fs.child (PosixPath.join cwd a) n.
Proof.
  intros Ha Hrel Hn. unfold PosixPath.join at 1 2.
  rewrite (startswith_child a n Ha), Hrel.
  destruct (String.eqb cwd "" || endswith_char "/" cwd); unfold Fs.child;
    rewrite ?(endswith_app "/" _ a Ha), ?(endswith_app "/" cwd ("/" +:+ a));
    try (by destruct a);
    change ("/" +:+ a) with (String "/" a); cbn [endswith_char];
    destruct a as [|c a]; try done;
    destruct (endswith_char "/" (String c a)); by rewrite !append_assoc.
Qed.

Lemma split_on_all_no_slash s : Forall (fun x => no_slash x = true) (PosixPath.split_on "/" s).
Proof.
  induction s as [|d s IH]; cbn [PosixPath.split_on]; [by repeat constructor|].
  destruct (Ascii.eqb_spec d "/") as [->|Hd]; [by constructor|].
  pose proof (split_on_nonempty "/" s). destruct (PosixPath.split_on "/" s) as [|w ws]; [done|].
  apply Forall_cons in IH as [Hw Hws]. constructor; [|done].
  unfold no_slash in *. cbn. rewrite Hw, andb_true_r. apply negb_true_iff.
  by destruct (Ascii.eqb_spec d "/").
Qed.

Lemma norm_push_good b stack x :
  Forall good_comp stack -> no_slash x = true -> Forall good_comp (PosixPath.norm_push b stack x).
Proof.
  intros Hstack Hx. unfold PosixPath.norm_push.
  destruct (String.eqb_spec x ""); [done|]. destruct (String.eqb_spec x "."); [done|]. cbn.
  destruct (String.eqb_spec x ".."); cbn.
  - destruct stack as [|top rest]; [destruct b; [done|by repeat constructor]|].
    destruct (String.eqb top ".."); [constructor; [done|done]|].
    by apply Forall_cons in Hstack as [_ ?].
  - by constructor.
Qed.

Lemma fold_norm_push_good b comps : forall stack,
  Forall good_comp stack -> Forall (fun x => no_slash x = true) comps ->
  Forall good_comp (fold_left (PosixPath.norm_push b) comps stack).
Proof.
  induction comps as [|x comps IH]; intros stack Hstack Hcomps; [done|].
  apply Forall_cons in Hcomps as [Hx Hcomps]. cbn. apply IH; [|done]. by apply norm_push_good.
Qed.

Lemma concat_sep_nonempty l : l <> [] -> Forall good_comp l -> PosixPath.concat_sep l <> "".
Proof.
  destruct l as [|x l]; [done|]. intros _ [[Hx _] _]%Forall_cons.
  destruct l; [done|]. cbn. destruct x; [done|]. by rewrite append_cons.
Qed.

Lemma concat_sep_no_trailing_slash l :
  l <> [] -> Forall good_comp l -> endswith_char "/" (PosixPath.concat_sep l) = false.
Proof.
  induction l as [|x l IH]; [done|]. intros _ [[Hx Hns] Hl]%Forall_cons.
  destruct l as [|y l]; [by apply no_slash_not_endswith|].
  change (PosixPath.concat_sep (x :: y :: l)) with (x +:+ "/" +:+ PosixPath.concat_sep (y :: l)).
  rewrite endswith_app.
  - change ("/" +:+ PosixPath.concat_sep (y :: l))
      with (String "/" (PosixPath.concat_sep (y :: l))).
    cbn [endswith_char].
    pose proof (concat_sep_nonempty (y :: l) ltac:(done) Hl).
    destruct (PosixPath.concat_sep (y :: l)) eqn:Hc; [done|]. by apply IH.
  - done.
Qed.

Lemma fold_split_child b P n :
  P <> "" -> component n ->
  fold_left (PosixPath.norm_push b) (PosixPath.split_on "/" (Fs.child P n)) []
  = n :: fold_left (PosixPath.norm_push b) (PosixPath.split_on "/" P) [].
Proof.
  intros HP Hn. unfold Fs.child. destruct (endswith_char "/" P) eqn:Hend.
  - rewrite (endswith_drop_last _ _ Hend) at 1 2.
    rewrite append_assoc. rewrite append_cons, append_nil_l.
    rewrite !split_on_app. rewrite (split_on_no_slash n) by apply Hn.
    cbn [PosixPath.split_on]. rewrite !fold_left_app. cbn [fold_left].
    rewrite (norm_push_component _ _ n Hn). f_equal.
  - change (P +:+ "/" +:+ n) with (P +:+ String "/" n).
    rewrite split_on_app, (split_on_no_slash n) by apply Hn.
    rewrite fold_left_app. cbn [fold_left]. by rewrite (norm_push_component _ _ n Hn).
Qed.

Lemma initial_slashes_child P n p :
  startswith "/" P = true -> component n -> p = "//" \/ p = "///" ->
  startswith p (Fs.child P n) = startswith p P.
Proof.
  intros Habs (Hns & Hne & _) Hp. unfold startswith in *.
  destruct n as [|d n]; [done|].
  assert (Hd : d <> "/"%char).
  { unfold no_slash in Hns. cbn in Hns. apply andb_true_iff in Hns as [Hd _].
    apply negb_true_iff in Hd. by destruct (Ascii.eqb_spec d "/"). }
  destruct P as [|c1 P]; [done|]. cbn [String.prefix] in Habs.
  destruct (Ascii.ascii_dec "/"%char c1) as [<-|]; [|done]. clear Habs.
  unfold Fs.child.
  destruct P as [|c2 P].
  { cbn [endswith_char]. rewrite Ascii.eqb_refl. rewrite !append_cons, append_nil_l.
    destruct Hp as [-> | ->]; cbn [String.prefix];
      destruct (Ascii.ascii_dec "/"%char "/"%char); try done;
      destruct (Ascii.ascii_dec "/"%char d); try done; by subst. }
  destruct P as [|c3 P].
  { cbn [endswith_char]. destruct (Ascii.eqb_spec "/"%char c2) as [<-|Hc2];
      rewrite !append_cons, ?append_nil_l;
      destruct Hp as [-> | ->]; cbn [String.prefix];
      destruct (Ascii.ascii_dec "/"%char "/"%char); try done;
      try (destruct (Ascii.ascii_dec "/"%char c2); try done);
      try (destruct (Ascii.ascii_dec "/"%char d); try done; by subst);
      by rewrite ?prefix_nil. }
  destruct (endswith_char "/" (String "/" (String c2 (String c3 P))));
    rewrite !append_cons; destruct Hp as [-> | ->]; cbn [String.prefix];
    destruct (Ascii.ascii_dec "/"%char "/"%char); try done;
    destruct (Ascii.ascii_dec "/"%char c2); try done;
    try (by rewrite !prefix_nil);
    destruct (Ascii.ascii_dec "/"%char c3); try done; by rewrite !prefix_nil.
Qed.

Lemma normpath_child P n :
  startswith "/" P = true -> component n ->
  PosixPath.normpath (Fs.child P n) = Fs.child (PosixPath.normpath P) n.
Proof.
  intros Habs Hn.
  assert (HP : P <> "") by (by destruct P).
  pose proof (child_nonempty P n Hn) as HC.
  pose proof (fold_split_child true P n HP Hn) as Hfold.
  pose proof (initial_slashes_child P n "//" Habs Hn ltac:(by left)) as H2.
  pose proof (initial_slashes_child P n "///" Habs Hn ltac:(by right)) as H3.
  assert (HabsC : startswith "/" (Fs.child P n) = true) by (by rewrite startswith_child).
  pose proof (fold_norm_push_good true (PosixPath.split_on "/" P) [] ltac:(constructor)
                (split_on_all_no_slash P)) as Hgood.
  unfold PosixPath.normpath. cbv zeta.
  destruct (String.eqb_spec (Fs.child P n) ""); [done|].
  destruct (String.eqb_spec P ""); [done|].
  rewrite HabsC, Habs, H2, H3. cbn [negb].
  set (initial := if startswith "//" P && negb (startswith "///" P) then "//" else "/").
  assert (Hinit : String.eqb initial "" = false) by (unfold initial; by destruct (_ && _)).
  rewrite Hinit. cbn [negb]. rewrite Hfold.
  set (S := fold_left (PosixPath.norm_push true) (PosixPath.split_on "/" P) []) in *.
  cbn [rev].
  assert (Hcons : forall x, String.eqb (initial +:+ x) "" = false).
  { intros x. unfold initial. by destruct (_ && _). }
  rewrite !Hcons.
  destruct (rev S) as [|x l] eqn:HS.
  - cbn [app PosixPath.concat_sep]. rewrite append_nil_r. unfold Fs.child.
    assert (Hend : endswith_char "/" initial = true) by (unfold initial; by destruct (_ && _)).
    by rewrite Hend.
  - rewrite concat_sep_snoc by done. unfold Fs.child.
    assert (Hgood' : Forall good_comp (x :: l)).
    { rewrite <- HS. by apply Forall_rev. }
    rewrite endswith_app by (by apply concat_sep_nonempty).
    rewrite concat_sep_no_trailing_slash by done. by rewrite !append_assoc.
Qed.

Lemma locate_child cwd output_dir n :
  PosixPath.isabs cwd = true -> output_dir <> "" -> component n ->
  Fs.locate cwd (PosixPath.join output_dir n) = Fs.child (Fs.locate cwd output_dir) n.
Proof.
  intros Hcwd Hod Hn. unfold Fs.locate, PosixPath.abspath, PosixPath.isabs in *.
  rewrite (join_name output_dir n Hod Hn), (startswith_child output_dir n Hod).
  destruct (startswith "/" output_dir) eqn:Habs.
  - by apply normpath_child.
  - rewrite (join_child cwd output_dir n Hod Habs Hn). apply normpath_child; [|done].
    unfold PosixPath.join. rewrite Habs.
    destruct (String.eqb cwd "" || endswith_char "/" cwd);
      destruct cwd as [|c cwd]; try done; rewrite !append_cons; cbn [startswith String.prefix] in *;
      destruct (Ascii.ascii_dec "/"%char c); try done; by rewrite prefix_nil.
Qed.

Lemma cleanup_loop cwd output_dir names : forall d,
  PosixPath.isabs cwd = true -> output_dir <> "" ->
  Forall (fun n => Fs.is_name n = true) names ->
  fold_left
    (fun d filename =>
       let file_path := PosixPath.join output_dir filename in
       if Fs.isfile cwd file_path (Fs.d_files d) then Fs.remove cwd file_path d else d)
    names d
  = Fs.Disk (fold_left (fun fs n => delete (Fs.child (Fs.locate cwd output_dir) n) fs)
               names (Fs.d_files d))
            (Fs.d_dirs d).
Proof.
  induction names as [|n names IH]; intros d Hcwd Hod Hnames; [by destruct d|].
  apply Forall_cons in Hnames as [Hn Hnames]. apply is_name_component in Hn.
  cbn [fold_left]. cbv zeta. unfold Fs.isfile, Fs.read, Fs.remove.
  rewrite (locate_child cwd output_dir n Hcwd Hod Hn).
  case_bool_decide as Hfile.
  - by rewrite IH.
  - rewrite IH by done. f_equal. f_equal. symmetry. apply delete_id.
    destruct (Fs.d_files d !! _) eqn:Hk; [|done]. destruct Hfile. by eexists.
Qed.

Lemma lookup_fold_delete (keys : list string) : forall (fs : Fs.files) k,
  fold_left (fun fs k' => delete k' fs) keys fs !! k
  = if bool_decide (k ∈ keys) then None else fs !! k.
Proof.
  induction keys as [|k' keys IH]; intros fs k; cbn [fold_left].
  - by rewrite bool_decide_eq_false_2 by (by intros ?%elem_of_nil).
  - rewrite IH. destruct (decide (k = k')) as [->|Hne].
    + rewrite lookup_delete_eq. rewrite (bool_decide_eq_true_2 (k' ∈ k' :: keys)) by (by left).
      by case_bool_decide.
    + rewrite lookup_delete_ne by done.
      case_bool_decide as Hin; [by rewrite bool_decide_eq_true_2 by (by right)|].
      rewrite bool_decide_eq_false_2; [done|]. by intros [?|?]%elem_of_cons.
Qed.

Lemma fold_delete_fmap {A} (f : A -> string) (l : list A) : forall fs : Fs.files,
  fold_left (fun fs n => delete (f n) fs) l fs = fold_left (fun fs k => delete k fs) (f <$> l) fs.
Proof. induction l as [|x l IH]; intros fs; [done|]. cbn. apply IH. Qed.

Lemma below_not_directly_in dir path : below dir path -> ~ directly_in dir path.
Proof.
  intros (sub & file & Hsub & Hfile & ->) (n & Hn%is_name_component & Heq).
  destruct Hn as (Hns & _). unfold Fs.child in Heq.
  destruct (endswith_char "/" dir).
  - apply append_inv_head in Heq. subst n. by rewrite !no_slash_app in Hns.
  - change ("/" +:+ sub +:+ "/" +:+ file) with ("/" +:+ (sub +:+ "/" +:+ file)) in Heq.
    apply append_inv_head in Heq. apply (append_inv_head "/") in Heq. subst n.
    rewrite !no_slash_app in Hns. by rewrite andb_false_r in Hns.
Qed.

(** X20: [cleanup_output_folder], run in an absolute working directory.
    When nothing exists at the path it returns and leaves the disk as it
    is.  When the path is a regular file, the listing raises and the
    exception leaves the function.  When the path is a directory, the call
    returns; afterwards no regular file lies directly in the directory,
    every other file of the disk is as before, in particular the files in
    the directories of the folder (the images of the users), and the
    directories are the same. *)
Theorem cleanup_empties_the_folder_and_nothing_else (cwd output_dir : string) (d : Fs.disk) :
  PosixPath.isabs cwd = true ->
  let dir := Fs.locate cwd output_dir in
  let outcome := CleanupOutput.cleanup_output_folder cwd output_dir d in
  (Fs.exists_ cwd output_dir d = false -> outcome = Ret d)
  /\ (output_dir <> "" -> dir ∉ Fs.d_dirs d -> is_Some (Fs.d_files d !! dir) ->
      outcome = Raise (Exception "NotADirectoryError"))
  /\ (output_dir <> "" -> dir ∈ Fs.d_dirs d ->
      exists d', outcome = Ret d'
        /\ Fs.d_dirs d' = Fs.d_dirs d
        /\ (forall k, directly_in dir k -> Fs.d_files d' !! k = None)
        /\ (forall k, ~ directly_in dir k -> Fs.d_files d' !! k = Fs.d_files d !! k)
        /\ (forall path, below dir path -> Fs.d_files d' !! path = Fs.d_files d !! path)).
Proof.
  intros Hcwd dir outcome. unfold outcome, CleanupOutput.cleanup_output_folder.
  split; [by intros ->|]. split.
  - intros Hod Hdir Hfile. unfold Fs.exists_, Fs.listdir. fold dir.
    destruct (String.eqb_spec output_dir "") as [|_]; [done|].
    rewrite (bool_decide_eq_true_2 _ Hfile), (bool_decide_eq_false_2 _ Hdir). done.
  - intros Hod Hdir. unfold Fs.exists_, Fs.listdir. fold dir.
    destruct (String.eqb_spec output_dir "") as [|_]; [done|].
    rewrite (bool_decide_eq_true_2 _ Hdir), orb_true_r. cbn [negb andb mbind result_bind].
    set (names := omap (Fs.entry_name dir) _).
    assert (Hnames : Forall (fun n => Fs.is_name n = true) names).
    { apply Forall_forall. intros n Hin. unfold names in Hin.
      apply list_elem_of_omap in Hin as (k & _ & Hk). by apply entry_name_Some in Hk as [? _]. }
    pose proof (cleanup_loop cwd output_dir names d Hcwd Hod Hnames) as Hloop.
    cbv zeta in Hloop. rewrite Hloop. clear Hloop. fold dir.
    eexists. split; [done|]. cbn [Fs.d_files Fs.d_dirs]. split; [done|].
    rewrite fold_delete_fmap.
    assert (Hdirect : forall k, directly_in dir k ->
              fold_left (fun fs k' => delete k' fs) (Fs.child dir <$> names) (Fs.d_files d) !! k
              = None).
    { intros k (n & Hn & ->). rewrite lookup_fold_delete. case_bool_decide as Hin; [done|].
      destruct (Fs.d_files d !! Fs.child dir n) as [content|] eqn:Hk; [|done].
      destruct Hin. apply list_elem_of_fmap. exists n. split; [done|].
      unfold names. apply list_elem_of_omap. exists (Fs.child dir n). split.
      - apply elem_of_app. left. apply list_elem_of_fmap. exists (Fs.child dir n, content).
        split; [done|]. by apply elem_of_map_to_list.
      - by apply entry_name_Some. }
    assert (Hother : forall k, ~ directly_in dir k ->
              fold_left (fun fs k' => delete k' fs) (Fs.child dir <$> names) (Fs.d_files d) !! k
              = Fs.d_files d !! k).
    { intros k Hk. rewrite lookup_fold_delete. case_bool_decide as Hin; [|done].
      destruct Hk. apply list_elem_of_fmap in Hin as (n & -> & Hn).
      exists n. split; [|done]. by eapply Forall_forall in Hnames. }
    split; [exact Hdirect|]. split; [exact Hother|].
    intros path Hbelow. by apply Hother, below_not_directly_in.
Qed.

End Folder.

(** X20 on a disk with two files in the folder, one in the directory of a
    user and one beside the folder. *)
Lemma cleanup_witness :
  exists d', CleanupOutput.cleanup_output_folder Scenario.cwd "output" Scenario.disk = Ret d'
    /\ Fs.d_files d' !! "/srv/app/output/a.png" = None
    /\ Fs.d_files d' !! "/srv/app/output/123e4567-e89b-12d3-a456-426614174000/c.png" = Some "C"
    /\ Fs.d_files d' !! "/srv/app/app.py" = Some "code".
Proof.
  pose proof (cleanup_empties_the_folder_and_nothing_else Scenario.cwd "output" Scenario.disk
                ltac:(vm_compute; reflexivity)) as H.
  cbv zeta in H. destruct H as (_ & _ & Hdir).
  destruct Hdir as (d' & Hout & _ & Hdirect & Hother & Hbelow).
  - discriminate.
  - apply (bool_decide_unpack _). vm_compute. reflexivity.
  - exists d'. split; [exact Hout|]. split; [|split].
    + apply Hdirect. exists "a.png". split; vm_compute; reflexivity.
    + rewrite Hbelow; [vm_compute; reflexivity|].
      exists "123e4567-e89b-12d3-a456-426614174000", "c.png".
      split; [|split]; [vm_compute; repeat split; discriminate..|vm_compute; reflexivity].
    + rewrite Hother; [vm_compute; reflexivity|].
      intros (name & _ & Hname). vm_compute in Hname. discriminate.
Defined.

(** ** utils/config.py: what importing the settings checks *)
Section Settings.

Lemma int_of_str_raises s e : int_of_str s = Raise e -> exists m, e = ValueError m.
Proof.
  unfold int_of_str. destruct (list_ascii_of_string (strip s)) as [|c l]; [intros [= <-]; eauto|].
  repeat case_match; try discriminate; intros [= <-]; eauto.
Qed.

Lemma int_setting_raises v dflt e : Config.int_setting v dflt = Raise e -> exists m, e = ValueError m.
Proof. destruct v as [s|]; [apply int_of_str_raises|done]. Qed.

Lemma unset_false v : Config.unset v = false -> exists s, v = Some s /\ s <> "".
Proof.
  destruct v as [s|]; [|done]. cbn. destruct (String.eqb_spec s ""); [done|]. by exists s.
Qed.

(** X21: importing the settings either succeeds or raises [ValueError],
    nothing else.  When it succeeds, HF_ACCESS_TOKEN, MODEL and CKPT_PATH
    are set in the environment and not empty, CKPT_PATH starts with
    "http", and the three sizes are what [int] reads from their variables,
    or 128, 128 and 5 where a variable is not set. *)
Theorem settings_are_checked_on_import (environ : gmap string string) :
  match Config.load environ with
  | Ret c =>
      environ !! "HF_ACCESS_TOKEN" = Some (Config.hf_access_token c)
      /\ environ !! "MODEL" = Some (Config.model c)
      /\ environ !! "CKPT_PATH" = Some (Config.ckpt_path c)
      /\ Config.hf_access_token c <> "" /\ Config.model c <> ""
      /\ startswith "http" (Config.ckpt_path c) = true
      /\ Config.int_setting (environ !! "DEFAULT_HEIGHT") 128 = Ret (Config.default_height c)
      /\ Config.int_setting (environ !! "DEFAULT_WIDTH") 128 = Ret (Config.default_width c)
      /\ Config.int_setting (environ !! "DEFAULT_NUM_INFERENCE_STEPS") 5
         = Ret (Config.default_num_inference_steps c)
  | Raise e => exists m, e = ValueError m
  end.
Proof.
  unfold Config.load.
  destruct (Config.int_setting (environ !! "DEFAULT_HEIGHT") 128) as [h|e] eqn:Hh;
    [|by apply int_setting_raises in Hh].
  destruct (Config.int_setting (environ !! "DEFAULT_WIDTH") 128) as [w|e] eqn:Hw;
    [|by apply int_setting_raises in Hw].
  destruct (Config.int_setting (environ !! "DEFAULT_NUM_INFERENCE_STEPS") 5) as [n|e] eqn:Hn;
    [|by apply int_setting_raises in Hn].
  cbn [mbind result_bind].
  destruct (negb _ && _);
    [destruct (int_of_str _) as [seed|e] eqn:Hseed; [|by apply int_of_str_raises in Hseed]|];
    cbn [mbind result_bind];
    (destruct (Config.unset (environ !! "HF_ACCESS_TOKEN")) eqn:H1,
              (Config.unset (environ !! "MODEL")) eqn:H2,
              (Config.unset (environ !! "CKPT_PATH")) eqn:H3;
     cbn [omap list_omap fst snd]; rewrite ?H1, ?H2, ?H3; try (by eexists));
    apply unset_false in H1 as (s1 & -> & ?), H2 as (s2 & -> & ?), H3 as (s3 & -> & ?);
    cbn [default from_option id];
    (destruct (startswith "http" s3) eqn:Hhttp; cbn [negb]; [|by eexists]);
    cbn; repeat split; done.
Qed.














End Settings.
